(** * multitask_helper: the suggestion engines, embedded and verified

    A shallow embedding of [rule.py] (ContentClassifier and
    RuleBasedSuggestionEngine), of [llm.py] (LLMSuggestionEngine) and of
    the entry point of [controller.py] (MultitaskController).

    Conventions of the embedding:
    - a Python [str] is a [string] of code points below 256; the character
      classes ([isspace], [isdigit], ...) are the ones CPython uses on that
      range;
    - a Python [float] is a binary64 number, given by its exact value in
      [Q].  The arithmetic of the scores ([+], [*], [/], [float(...)],
      the conversion of an [int] and the decimal literals) rounds to the
      nearest double, ties to even (module [Float64]); [min], [max] and
      the comparisons are exact.  The confidence of the classifier is
      written as the decimal of the source, which stands for the double
      nearest to it: it is a literal or one of the sums [0.6 + n * 0.1]
      and [0.5 + code_score], whose doubles are the ones nearest to the
      decimal sums, and the tests [code_score >= 0.3],
      [numbers > len(content) * 0.3] and [rule_confidence >= 0.8] give
      the same answer on both.  The [:.2f] rendering of a float is kept
      symbolic (see [confidence_label]);
    - the text completion backend is an arbitrary state machine, threaded
      through the engine by a small state monad; the temperature handed
      to it is written as the decimal of the source. *)

From Stdlib Require Import Bool Arith List String Ascii ZArith QArith Qminmax Lia.
From Stdlib Require Import Qround Qpower Qfield Lqa Permutation Sorted DecimalString.
Import ListNotations.

Local Close Scope Q_scope.
Local Open Scope string_scope.
Local Open Scope list_scope.

(* ================================================================== *)
(** ** Python string primitives *)
(* ================================================================== *)

Module Py.

Definition ord (c : ascii) : nat := nat_of_ascii c.
Definition chr (n : nat) : ascii := ascii_of_nat n.

Definition between (lo hi n : nat) : bool := (lo <=? n)%nat && (n <=? hi)%nat.

(** [str.isspace] on code points below 256. *)
Definition isspace (c : ascii) : bool :=
  let n := ord c in
  between 9 13 n || between 28 32 n || (n =? 133)%nat || (n =? 160)%nat.

(** [str.isdigit]: the ASCII digits and the superscripts 2, 3 and 1. *)
Definition isdigit (c : ascii) : bool :=
  let n := ord c in
  between 48 57 n || between 178 179 n || (n =? 185)%nat.

Definition isupper (c : ascii) : bool :=
  let n := ord c in
  between 65 90 n || between 192 214 n || between 216 222 n.

Definition islower (c : ascii) : bool :=
  let n := ord c in
  between 97 122 n || (n =? 170)%nat || (n =? 181)%nat || (n =? 186)%nat
  || between 223 246 n || between 248 255 n.

Definition isalpha (c : ascii) : bool :=
  let n := ord c in
  between 65 90 n || between 97 122 n || (n =? 170)%nat || (n =? 181)%nat
  || (n =? 186)%nat || between 192 214 n || between 216 246 n
  || between 248 255 n.

Definition lower_char (c : ascii) : ascii :=
  if isupper c then chr (ord c + 32) else c.

(** [s.lower()] *)
Fixpoint lower (s : string) : string :=
  match s with
  | EmptyString => EmptyString
  | String c r => String (lower_char c) (lower r)
  end.

Fixpoint lstrip (s : string) : string :=
  match s with
  | EmptyString => EmptyString
  | String c r => if isspace c then lstrip r else s
  end.

Fixpoint rstrip (s : string) : string :=
  match s with
  | EmptyString => EmptyString
  | String c r =>
      match rstrip r with
      | EmptyString => if isspace c then EmptyString else String c EmptyString
      | t => String c t
      end
  end.

(** [s.strip()] *)
Definition strip (s : string) : string := rstrip (lstrip s).

(** [s.startswith(p)] *)
Definition startswith (s p : string) : bool := String.prefix p s.

(** [s.endswith(p)] *)
Definition endswith (s p : string) : bool :=
  let n := String.length s in
  let k := String.length p in
  (k <=? n)%nat && String.eqb (substring (n - k) k s) p.

(** [p in s] for strings. *)
Fixpoint contains (p s : string) : bool :=
  String.prefix p s ||
  match s with
  | EmptyString => false
  | String _ r => contains p r
  end.

(** [c in s] for a character. *)
Fixpoint has_char (c : ascii) (s : string) : bool :=
  match s with
  | EmptyString => false
  | String d r => Ascii.eqb c d || has_char c r
  end.

(** [any(p(c) for c in s)] *)
Fixpoint any_char (p : ascii -> bool) (s : string) : bool :=
  match s with
  | EmptyString => false
  | String c r => p c || any_char p r
  end.

(** [len([c for c in s if p(c)])] *)
Fixpoint count_char (p : ascii -> bool) (s : string) : nat :=
  match s with
  | EmptyString => 0
  | String c r => (if p c then 1 else 0) + count_char p r
  end.

(** [s.split(sep)] for a one-character separator: never empty. *)
Fixpoint split (sep : ascii) (s : string) : list string :=
  match s with
  | EmptyString => [EmptyString]
  | String c r =>
      if Ascii.eqb c sep then EmptyString :: split sep r
      else match split sep r with
           | [] => [String c EmptyString]
           | h :: t => String c h :: t
           end
  end.

(** [s.split()]: the maximal runs of non-whitespace characters; [cur] is
    the token being read. *)
Fixpoint split_ws_from (cur s : string) : list string :=
  match s with
  | EmptyString => match cur with EmptyString => [] | _ => [cur] end
  | String c r =>
      if isspace c then
        match cur with
        | EmptyString => split_ws_from EmptyString r
        | _ => cur :: split_ws_from EmptyString r
        end
      else split_ws_from (cur ++ String c EmptyString) r
  end.

Definition split_ws (s : string) : list string := split_ws_from EmptyString s.

(** [s.replace(old, new)] for a non-empty [old]: occurrences are replaced
    from left to right without overlap; [skip] counts the characters of a
    replaced occurrence still to be dropped. *)
Fixpoint replace_from (old new : string) (skip : nat) (s : string) : string :=
  match s with
  | EmptyString => EmptyString
  | String c r =>
      match skip with
      | S k => replace_from old new k r
      | O =>
          if String.prefix old s
          then new ++ replace_from old new (String.length old - 1) r
          else String c (replace_from old new 0 r)
      end
  end.

Definition replace (old new s : string) : string := replace_from old new 0 s.

(** [s[:n]] *)
Definition take (n : nat) (s : string) : string := substring 0 n s.

(** [str(n)] for a natural number. *)
Definition str_of_nat (n : nat) : string :=
  NilZero.string_of_uint (Nat.to_uint n).

Definition LF : ascii := chr 10.
Definition TAB : ascii := chr 9.
Definition QUOTE : ascii := chr 34.
Definition BACKSLASH : ascii := chr 92.

End Py.

(** [a < b] on rationals, as a boolean. *)
Definition Qlt_bool (a b : Q) : bool := negb (Qle_bool b a).

(* ================================================================== *)
(** ** Python floats *)
(* ================================================================== *)

(** A [float] is an IEEE 754 binary64 number.  It is given by its exact
    value, a rational; an operation computes the exact result and rounds
    it to the nearest double, ties to the even significand.  The spacing
    of the doubles around [q] is [2 ^ (e - 52)] for [2 ^ e <= |q| <
    2 ^ (e + 1)], and [2 ^ -1074] below [2 ^ -1022] (subnormal numbers).
    Overflow does not occur on the numbers of this program (scores and
    small counts), so there is no infinity and no NaN. *)
Module Float64.

Definition pow2 (e : Z) : Q := (2 ^ e)%Q.

(** [floor (log2 q)] for a positive [q]. *)
Definition ilog2 (q : Q) : Z :=
  let c := (Z.log2 (Qnum q) - Z.log2 (Zpos (Qden q)))%Z in
  if Qle_bool (pow2 c) q then c else (c - 1)%Z.

(** The nearest integer, the even one of two that are equally near. *)
Definition rne (x : Q) : Z :=
  let f := Qfloor x in
  match (x - inject_Z f ?= 1 # 2)%Q with
  | Lt => f
  | Gt => (f + 1)%Z
  | Eq => if Z.even f then f else (f + 1)%Z
  end.

Definition emin : Z := (-1074)%Z.

(** The distance between neighbouring doubles at a positive [q]. *)
Definition ulp (q : Q) : Q := pow2 (Z.max (ilog2 q - 52) emin).

Definition round_pos (q : Q) : Q :=
  let u := ulp q in (inject_Z (rne (q / u)) * u)%Q.

(** The double nearest to [q], in lowest terms. *)
Definition round (q : Q) : Q :=
  match (q ?= 0)%Q with
  | Gt => Qred (round_pos q)
  | Lt => Qred (- round_pos (- q))
  | Eq => 0%Q
  end.

(** A decimal literal of the source, such as [0.8]. *)
Definition lit (decimal : Q) : Q := round decimal.

(** [float(n)] for an [int], also implicit in [n * 0.2] and [n / 5.0]. *)
Definition of_Z (n : Z) : Q := round (inject_Z n).

(** [x + y], [x * y] and [x / y] on floats. *)
Definition add (x y : Q) : Q := round (x + y).
Definition mul (x y : Q) : Q := round (x * y).
Definition div (x y : Q) : Q := round (x / y).

End Float64.

Arguments Float64.round : simpl never.
Arguments Float64.lit : simpl never.
Arguments Float64.of_Z : simpl never.
Arguments Float64.add : simpl never.
Arguments Float64.mul : simpl never.
Arguments Float64.div : simpl never.

(* ================================================================== *)
(** ** windows.py: WindowInfo *)
(* ================================================================== *)

Record WindowInfo : Type := mkWindow {
  hwnd : Z;
  title : string;
  process_name : string;
  pid : Z;
  is_visible : bool;
  is_minimized : bool
}.

(* ================================================================== *)
(** ** rule.py: ContentClassifier *)
(* ================================================================== *)

Module ContentClassifier.

Definition code_patterns : list (string * list string) :=
  [ ("high", ["def "; "function "; "class "; "import "; "from "; "#include";
              "public class"; "SELECT "; "FROM "; "CREATE TABLE"; "INSERT INTO"]);
    ("medium", ["private "; "public "; "var "; "let "; "const "; "=>"; "function(";
                "if ("; "for ("; "while ("; "catch ("; "try {"]);
    ("low", ["{"; "}"; "=="; "!="; "&&"; "||"; "++"; "--"]) ].

Definition file_extensions : list string :=
  [".txt"; ".py"; ".js"; ".html"; ".css"; ".json"; ".xml"; ".md";
   ".csv"; ".xlsx"; ".pdf"; ".doc"; ".ppt"; ".zip"; ".rar"].

Definition url_indicators : list string := ["http://"; "https://"; "www."; "ftp://"].

Definition domain_tlds : list string :=
  [".com"; ".org"; ".net"; ".edu"; ".gov"; ".io"; ".co"; ".ai"; ".dev"].

Definition email_patterns : list string :=
  ["dear "; "hello "; "hi "; "greetings";
   "sincerely"; "best regards"; "kind regards"; "yours truly";
   "subject:"; "to:"; "from:"; "cc:"; "bcc:";
   "[recipient"; "dear sir"; "dear madam"].

Definition data_indicators : list ascii := [Py.TAB; ","%char; "|"%char; ";"%char].

Definition special_chars : string := "!@#$%^&*()_+-=".

(** The literal ['\\\\'] of the source: two backslash characters. *)
Definition double_backslash : string :=
  String Py.BACKSLASH (String Py.BACKSLASH EmptyString).

(** [sum(1 for p in patterns if p in s)] *)
Definition count_in (patterns : list string) (s : string) : nat :=
  List.length (filter (fun p => Py.contains p s) patterns).

Definition content_lower_of (content : string) : string :=
  Py.strip (Py.lower content).

(** URL detection: [Some confidence] when the detector fires. *)
Definition detect_url (content : string) : option Q :=
  let content_lower := content_lower_of content in
  if existsb (Py.startswith content_lower) url_indicators then
    Some (if Py.startswith content_lower "http://" || Py.startswith content_lower "https://"
          then 0.95 else 0.85)%Q
  else None.

(** Domain name detection. *)
Definition detect_domain (content : string) : option Q :=
  let content_lower := content_lower_of content in
  if Py.has_char "."%char content
     && negb (Py.has_char " "%char (Py.strip content))
     && existsb (Py.endswith content_lower) domain_tlds
     && (2 <=? List.length (Py.split "."%char content))%nat
  then Some 0.85%Q else None.

(** E-mail address detection. *)
Definition detect_email_address (content : string) : option Q :=
  if Py.has_char "@"%char content && Py.has_char "."%char content then
    let parts := Py.split "@"%char content in
    let part1 := nth 1 parts EmptyString in
    if (List.length parts =? 2)%nat && Py.has_char "."%char part1
       && (2 <=? List.length (Py.split "."%char part1))%nat
    then
      let domain_parts := Py.split "."%char part1 in
      Some (if (2 <=? String.length (last domain_parts EmptyString))%nat
            then 0.9 else 0.7)%Q
    else None
  else None.

Definition email_indicators (content : string) : nat :=
  let content_words :=
    Py.replace (String Py.LF EmptyString) " " (content_lower_of content) in
  count_in email_patterns content_words.

(** E-mail content patterns. *)
Definition detect_email_content (content : string) : option Q :=
  let n := email_indicators content in
  if (2 <=? n)%nat || ((1 <=? n)%nat && (2 <? List.length (Py.split Py.LF content))%nat)
  then Some (Qmin 0.9 (0.6 + inject_Z (Z.of_nat n) * 0.1))%Q
  else None.

(** File path detection. *)
Definition detect_file (content : string) : option Q :=
  let content_lower := content_lower_of content in
  if (Py.contains double_backslash content || Py.has_char "/"%char content)
     && (List.length (Py.split_ws content) =? 1)%nat
  then
    let has_extension := existsb (Py.endswith content_lower) file_extensions in
    Some (if has_extension then 0.9 else 0.7)%Q
  else None.

(** Password detection. *)
Definition detect_password (content : string) : option Q :=
  if (String.length content <? 50)%nat
     && negb (Py.has_char " "%char content)
     && Py.any_char Py.isdigit content
     && Py.any_char Py.isalpha content
  then
    let has_special := Py.any_char (fun c => Py.has_char c special_chars) content in
    let mixed_case := Py.any_char Py.isupper content && Py.any_char Py.islower content in
    Some (if has_special && mixed_case then 0.8 else 0.6)%Q
  else None.

(** The loop over [code_patterns.items()]. *)
Definition code_score_step (content_lower : string) (code_score : Q)
    (entry : string * list string) : Q :=
  let '(weight, patterns) := entry in
  let matches := inject_Z (Z.of_nat (count_in patterns content_lower)) in
  if String.eqb weight "high" then (code_score + matches * 0.4)%Q
  else if String.eqb weight "medium" then (code_score + matches * 0.25)%Q
  else (code_score + matches * 0.1)%Q.

Definition code_score (content : string) : Q :=
  fold_left (code_score_step (content_lower_of content)) code_patterns 0%Q.

Definition detect_code (content : string) : option Q :=
  let s := code_score content in
  if Qle_bool 0.3 s then Some (Qmin 0.95 (0.5 + s))%Q else None.

(** [sum(1 for line in lines[:5] for sep in data_indicators if sep in line)] *)
Definition separator_count (lines : list string) : nat :=
  List.length
    (flat_map (fun line => filter (fun sep => Py.has_char sep line) data_indicators)
              (firstn 5 lines)).

(** Tabular data detection. *)
Definition detect_table (content : string) : option Q :=
  let lines := Py.split Py.LF content in
  if (3 <? List.length lines)%nat && (3 <=? separator_count lines)%nat
  then Some (if Py.has_char Py.TAB content || Py.has_char ","%char content
             then 0.8 else 0.6)%Q
  else None.

(** Numeric pattern detection. *)
Definition detect_numeric (content : string) : option Q :=
  let numbers := Py.count_char Py.isdigit content in
  if Qlt_bool (inject_Z (Z.of_nat (String.length content)) * 0.3)
              (inject_Z (Z.of_nat numbers))
     && (10 <? String.length content)%nat
  then Some 0.7%Q else None.

(** The cascade: the first detector that fires decides. *)
Definition classify_content (content : string) : string * Q :=
  match detect_url content with
  | Some confidence => ("WEB", confidence)
  | None =>
  match detect_domain content with
  | Some confidence => ("WEB", confidence)
  | None =>
  match detect_email_address content with
  | Some confidence => ("EMAIL", confidence)
  | None =>
  match detect_email_content content with
  | Some confidence => ("EMAIL", confidence)
  | None =>
  match detect_file content with
  | Some confidence => ("FILE", confidence)
  | None =>
  match detect_password content with
  | Some confidence => ("PASSWORD", confidence)
  | None =>
  match detect_code content with
  | Some confidence => ("CODE", confidence)
  | None =>
  match detect_table content with
  | Some confidence => ("DATA", confidence)
  | None =>
  match detect_numeric content with
  | Some confidence => ("DATA", confidence)
  | None =>
      ("TEXT", if (20 <? String.length content)%nat then 0.9 else 0.6)%Q
  end end end end end end end end end.

End ContentClassifier.

(** The seven tags of the classifier. *)
Definition categories : list string :=
  ["CODE"; "WEB"; "EMAIL"; "FILE"; "PASSWORD"; "DATA"; "TEXT"].

(** A confidence is a number between 0 and 1. *)
Definition is_confidence (q : Q) : Prop := (0 <= q)%Q /\ (q <= 1)%Q.

(* ================================================================== *)
(** ** list.sort(key=..., reverse=True) *)
(* ================================================================== *)

(** Python's sort is stable, also with [reverse=True]: the result is the
    one permutation that is descending in the key and keeps elements of
    equal key in their original order.  Insertion from the right computes
    it. *)
Section SortDesc.
Context {A : Type} (key : A -> Q).

Fixpoint insert_desc (x : A) (l : list A) : list A :=
  match l with
  | [] => [x]
  | y :: t =>
      if Qlt_bool (key x) (key y) then y :: insert_desc x t
      else x :: y :: t
  end.

Definition sort_desc (l : list A) : list A := fold_right insert_desc [] l.

(** [a] may stand before [b] in a descending list. *)
Definition desc (a b : A) : Prop := (key b <= key a)%Q.

(** The elements whose key equals [q]. *)
Definition with_key (q : Q) (l : list A) : list A :=
  filter (fun a => Qeq_bool (key a) q) l.

(** [output] is [input] sorted descending by key, stably. *)
Definition stable_sorted_desc (input output : list A) : Prop :=
  Permutation input output
  /\ StronglySorted desc output
  /\ forall q, with_key q output = with_key q input.
End SortDesc.

(* ================================================================== *)
(** ** rule.py: RuleBasedSuggestionEngine *)
(* ================================================================== *)

(** The third component of a suggestion.  The source renders it with
    [:.2f]; the number is kept instead of its rendering. *)
Inductive confidence_label : Type :=
| PriorityLabel (priority : string) (confidence : Q)  (* f"{priority} ({confidence:.2f})" *)
| RecentLabel                                         (* "Recent" *)
| ScoreLabel (score : Q).                             (* f"Score: {score:.2f}" *)

(** [Tuple[str, WindowInfo, str]]: reason, window, confidence text. *)
Definition Suggestion : Type := string * WindowInfo * confidence_label.

Definition suggestion_window (s : Suggestion) : WindowInfo := snd (fst s).
Definition suggestion_reason (s : Suggestion) : string := fst (fst s).
Definition suggestion_label (s : Suggestion) : confidence_label := snd s.

(** The window id a suggestion refers to. *)
Definition suggestion_hwnd (s : Suggestion) : Z := hwnd (suggestion_window s).

Module RuleBasedSuggestionEngine.

Record mapping : Type := mkMapping {
  high_priority : list string;
  medium_priority : list string;
  keywords : list string
}.

Definition content_mappings : list (string * mapping) :=
  [ ("CODE", mkMapping ["code"; "pycharm"; "idea"; "sublime"; "atom"; "vim"]
                       ["notepad++"; "notepad"; "wordpad"]
                       ["editor"; "ide"; "development"]);
    ("WEB", mkMapping ["chrome"; "firefox"; "edge"; "safari"; "opera"; "brave"]
                      ["iexplore"]
                      ["browser"; "web"]);
    ("EMAIL", mkMapping ["outlook"; "thunderbird"; "mailspring"]
                        ["chrome"; "firefox"; "edge"]
                        ["mail"; "email"]);
    ("FILE_PATH", mkMapping ["explorer"; "nautilus"; "finder"]
                            ["cmd"; "powershell"; "terminal"]
                            ["file"; "folder"; "directory"]);
    ("PASSWORD", mkMapping ["chrome"; "firefox"; "edge"; "1password"; "bitwarden"]
                           ["notepad"; "keepass"]
                           ["password"; "login"; "auth"]);
    ("DATA", mkMapping ["excel"; "calc"; "tableau"; "powerbi"]
                       ["notepad"; "word"; "chrome"]
                       ["data"; "spreadsheet"; "csv"; "table"]);
    ("TEXT", mkMapping ["notepad"; "wordpad"; "word"; "writer"]
                       ["chrome"; "firefox"; "edge"]
                       ["text"; "document"; "note"]) ].

(** [self.content_mappings[key]], [None] when [key not in] the dict. *)
Fixpoint lookup (key : string) (d : list (string * mapping)) : option mapping :=
  match d with
  | [] => None
  | (k, m) :: rest => if String.eqb key k then Some m else lookup key rest
  end.

(** The longest prefix matched by [[^/\s]+] (empty when it does not match). *)
Fixpoint span_domain (s : string) : string :=
  match s with
  | EmptyString => EmptyString
  | String c r =>
      if Ascii.eqb c "/"%char || Py.isspace c then EmptyString
      else String c (span_domain r)
  end.

Definition drop (n : nat) (s : string) : string :=
  substring n (String.length s - n) s.

(** [(?:www\.)?([^/\s]+)] anchored at the start of [s]: the group, empty
    when there is no match.  The optional prefix is given up when nothing
    matches after it. *)
Definition match_www_domain (s : string) : string :=
  if Py.startswith s "www." then
    match span_domain (drop 4 s) with
    | EmptyString => span_domain s
    | d => d
    end
  else span_domain s.

(** Group 1 of [re.search(r'(?:https?://)?(?:www\.)?([^/\s]+)', s)] for an
    [s] that starts with [http] or [www]: the match is at position 0. *)
Definition url_domain (s : string) : string :=
  let after_scheme :=
    if Py.startswith s "https://" then Some (drop 8 s)
    else if Py.startswith s "http://" then Some (drop 7 s)
    else None in
  match after_scheme with
  | Some r =>
      match match_www_domain r with
      | EmptyString => match_www_domain s
      | d => d
      end
  | None => match_www_domain s
  end.

Definition _get_content_specific_score (window : WindowInfo) (content : string) : Q :=
  let title_lower := Py.lower (title window) in
  let content_lower := Py.lower content in
  if (Py.startswith content_lower "http" || Py.startswith content_lower "www")
     && Py.contains (url_domain content_lower) title_lower
  then Float64.lit 0.3
  else if (Py.contains ContentClassifier.double_backslash content
           || Py.has_char "/"%char content)
          && existsb (fun keyword => Py.contains keyword title_lower)
                     ["file"; "folder"; "explorer"]
  then Float64.lit 0.2
  else if existsb (fun keyword => Py.contains keyword content_lower)
                  ["def "; "function"; "class "]
          && existsb (fun keyword => Py.contains keyword title_lower)
                     ["code"; "editor"; "ide"]
  then Float64.lit 0.2
  else Float64.lit 0.0.

(** The literal that is added to the score for the process name; when
    neither list matches the source adds nothing, which is adding [0.0]
    to the score [0.0]. *)
Definition base_score (process_lower : string) (m : mapping) : Q :=
  if existsb (fun proc => Py.contains proc process_lower) (high_priority m) then 0.8%Q
  else if existsb (fun proc => Py.contains proc process_lower) (medium_priority m) then 0.5%Q
  else 0%Q.

Definition process_lower_of (window : WindowInfo) : string :=
  Py.replace ".exe" "" (Py.lower (process_name window)).

(** The score is built by float additions, in the order of the source:
    [((0.0 + base) + keyword_matches * 0.2) + content_specific]. *)
Definition _calculate_window_score (window : WindowInfo) (m : mapping)
    (content : string) : Q :=
  let process_lower := process_lower_of window in
  let title_lower := Py.lower (title window) in
  let score := Float64.lit 0.0 in
  let score := Float64.add score (Float64.lit (base_score process_lower m)) in
  let keyword_matches :=
    List.length (filter (fun keyword => Py.contains keyword title_lower) (keywords m)) in
  let score :=
    Float64.add score
      (Float64.mul (Float64.of_Z (Z.of_nat keyword_matches)) (Float64.lit 0.2)) in
  let score := Float64.add score (_get_content_specific_score window content) in
  Qmin (Float64.lit 1.0) score.

(** The list [scored_windows] of [_get_suggestions_for_type] as its loop
    leaves it: the windows of positive score, in the order of [windows]. *)
Definition positive_scores (m : mapping) (content : string)
    (windows : list WindowInfo) : list (WindowInfo * Q) :=
  filter (fun ws => Qlt_bool 0 (snd ws))
         (map (fun window => (window, _calculate_window_score window m content))
              windows).

(** The same list after [scored_windows.sort(key=lambda x: x[1], reverse=True)]. *)
Definition scored_windows (m : mapping) (content : string)
    (windows : list WindowInfo) : list (WindowInfo * Q) :=
  sort_desc snd (positive_scores m content windows).

Definition priority_of (score : Q) : string :=
  if Qle_bool (Float64.lit 0.8) score then "High"
  else if Qle_bool (Float64.lit 0.5) score then "Medium"
  else "Low".

Definition _get_suggestions_for_type (content_type : string) (confidence : Q)
    (content : string) (windows : list WindowInfo) : list Suggestion :=
  match lookup content_type content_mappings with
  | None => []
  | Some m =>
      map (fun ws : WindowInfo * Q =>
             let '(window, score) := ws in
             ((content_type ++ " -> " ++ process_name window)%string, window,
              PriorityLabel (priority_of score) confidence))
          (firstn 3 (scored_windows m content windows))
  end.

Definition _get_recent_windows (windows : list WindowInfo)
    (exclude : list Suggestion) : list Suggestion :=
  let excluded_hwnds := map (fun s => hwnd (suggestion_window s)) exclude in
  map (fun window => (("Recent -> " ++ process_name window)%string, window, RecentLabel))
      (filter (fun window =>
                 negb (existsb (Z.eqb (hwnd window)) excluded_hwnds)
                 && negb (is_minimized window))
              windows).

(** [None] is the source's "use the fallback" result. *)
Definition get_suggestions (clipboard_content : string)
    (current_window : option WindowInfo) (available_windows : list WindowInfo)
    : option (list Suggestion) :=
  match available_windows with
  | [] => None
  | _ =>
      let '(content_type, confidence) :=
        ContentClassifier.classify_content clipboard_content in
      let suggestions :=
        _get_suggestions_for_type content_type confidence clipboard_content
                                  available_windows in
      let suggestions :=
        if (List.length suggestions <? 3)%nat then
          let recent_suggestions := _get_recent_windows available_windows suggestions in
          suggestions ++ firstn (3 - List.length suggestions) recent_suggestions
        else suggestions in
      match suggestions with
      | [] => None
      | _ => Some (firstn 3 suggestions)
      end
  end.

End RuleBasedSuggestionEngine.

(* ================================================================== *)
(** ** llm.py: parsing the reply of the model *)
(* ================================================================== *)

Module ScoreParser.

(** Index of the first occurrence of [p] in [s]. *)
Fixpoint find (p s : string) : option nat :=
  if String.prefix p s then Some 0
  else match s with
       | EmptyString => None
       | String _ r => option_map S (find p r)
       end.

Definition drop (n : nat) (s : string) : string :=
  substring n (String.length s - n) s.

(** Length of the match of [opener .*? closer] at the start of [s], for
    the first opener of the list that gives one ([re.DOTALL]: the dot
    matches every character; the lazy star stops at the first closer). *)
Fixpoint match_span (openers : list string) (closer s : string) : option nat :=
  match openers with
  | [] => None
  | o :: rest =>
      let here :=
        if String.prefix o s then
          option_map (fun i => String.length o + i + String.length closer)
                     (find closer (drop (String.length o) s))
        else None in
      match here with
      | Some n => Some n
      | None => match_span rest closer s
      end
  end.

(** [re.sub(opener .*? closer, '', s)]: matches are removed from left to
    right; [skip] counts the characters of the current match still to be
    dropped. *)
Fixpoint sub_spans (openers : list string) (closer : string) (skip : nat)
    (s : string) : string :=
  match s with
  | EmptyString => EmptyString
  | String c r =>
      match skip with
      | S k => sub_spans openers closer k r
      | O =>
          match match_span openers closer s with
          | Some (S n) => sub_spans openers closer n r
          | _ => String c (sub_spans openers closer 0 r)
          end
      end
  end.

(** [re.sub(r'[/-]+', ' ', s)]; [in_run] tells that the previous character
    belonged to the run being replaced. *)
Fixpoint sub_formatting (in_run : bool) (s : string) : string :=
  match s with
  | EmptyString => EmptyString
  | String c r =>
      if Ascii.eqb c "/"%char || Ascii.eqb c "-"%char then
        if in_run then sub_formatting true r
        else String " "%char (sub_formatting true r)
      else String c (sub_formatting false r)
  end.

(** The four substitutions and the two [strip]s of [_score_window]. *)
Definition clean_response (response : string) : string :=
  let response_clean := Py.strip response in
  let response_clean := sub_spans ["</think>"] "<think>" 0 response_clean in
  let response_clean := sub_spans ["</think>"; "<think>"] "</think>" 0 response_clean in
  let response_clean := sub_spans ["</think>"; "<think>"] "" 0 response_clean in
  let response_clean := sub_formatting false response_clean in
  Py.strip response_clean.

(** The classes [[0-5]] and [[0-9]] of the patterns. *)
Definition is_0_5 (c : ascii) : bool := Py.between 48 53 (Py.ord c).
Definition is_0_9 (c : ascii) : bool := Py.between 48 57 (Py.ord c).

Fixpoint span_digits (s : string) : string :=
  match s with
  | EmptyString => EmptyString
  | String c r => if is_0_9 c then String c (span_digits r) else EmptyString
  end.

(** [re.findall(r'([0-5](?:\.[0-9]+)?)', s)] *)
Fixpoint findall_scores (skip : nat) (s : string) : list string :=
  match s with
  | EmptyString => []
  | String c r =>
      match skip with
      | S k => findall_scores k r
      | O =>
          if is_0_5 c then
            let frac :=
              match r with
              | String d r' => if Ascii.eqb d "."%char then span_digits r' else EmptyString
              | EmptyString => EmptyString
              end in
            match frac with
            | EmptyString => String c EmptyString :: findall_scores 0 r
            | _ => String c (String "."%char frac)
                   :: findall_scores (1 + String.length frac) r
            end
          else findall_scores 0 r
      end
  end.

Definition digit_value (c : ascii) : Z := Z.of_nat (Py.ord c - 48).

Fixpoint digits_value (acc : Z) (s : string) : Z :=
  match s with
  | EmptyString => acc
  | String c r => digits_value (10 * acc + digit_value c) r
  end.

(** The number a string of the patterns denotes: one digit, or one
    digit, a dot and digits. *)
Definition decimal_value (score_str : string) : Q :=
  match score_str with
  | String d EmptyString => inject_Z (digit_value d)
  | String d (String _ frac) =>
      Qmake (digits_value (digit_value d) frac)
            (Z.to_pos (10 ^ Z.of_nat (String.length frac)))
  | EmptyString => 0%Q
  end.

(** [float(score_str)]: the double nearest to that number. *)
Definition float_of_score (score_str : string) : Q :=
  Float64.round (decimal_value score_str).

Definition valid_scores (scores : list string) : list Q :=
  filter (fun score => Qle_bool 0 score && Qle_bool score 5)
         (map float_of_score scores).

(** [max(l)] for a non-empty list given as head and tail. *)
Definition max_of (x : Q) (l : list Q) : Q := fold_left Qmax l x.

(** One attempt of the conversational pattern at the start of [s]. *)
Fixpoint skip_separators (s : string) : string :=
  match s with
  | EmptyString => EmptyString
  | String c r =>
      if Ascii.eqb c ","%char || Py.isspace c then skip_separators r else s
  end.

Definition lead_ins : list string := ["okay"; "sure"; "yes"; "alright"].

Definition match_conversational_here (s : string) : option string :=
  match filter (fun w => String.prefix w s) lead_ins with
  | [] => None
  | w :: _ =>
      match skip_separators (drop (String.length w) s) with
      | String d r =>
          if is_0_5 d then
            match r with
            | String p (String f _) =>
                if Ascii.eqb p "."%char && is_0_9 f
                then Some (String d (String p (String f EmptyString)))
                else Some (String d EmptyString)
            | _ => Some (String d EmptyString)
            end
          else None
      | EmptyString => None
      end
  end.

(** Group 1 of
    [re.search(r'(?:okay|sure|yes|alright)[,\s]*([0-5](?:\.[0-9])?)', s)]. *)
Fixpoint search_conversational (s : string) : option string :=
  match match_conversational_here s with
  | Some g => Some g
  | None =>
      match s with
      | EmptyString => None
      | String _ r => search_conversational r
      end
  end.

Definition rating_words : list (string * Z) :=
  [("perfect", 5); ("excellent", 5); ("great", 4); ("good", 3); ("decent", 3);
   ("fair", 2); ("poor", 2); ("bad", 1); ("terrible", 1); ("awful", 0);
   ("none", 0)]%Z.

Fixpoint first_rating (words : list (string * Z)) (s : string) : option Q :=
  match words with
  | [] => None
  | (word, score) :: rest =>
      if Py.contains word s
      then Some (Float64.div (Float64.of_Z score) (Float64.lit 5.0))
      else first_rating rest s
  end.

(** The body of [_score_window] once a non-blank response is there:
    [None] is "no valid score found". *)
Definition parse (response : string) : option Q :=
  let response_clean := clean_response response in
  match response_clean with
  | EmptyString => None
  | _ =>
      let lowered := Py.lower response_clean in
      if Py.contains "yes" lowered then Some (Float64.lit 0.8)
      else if Py.contains "no" lowered then Some (Float64.lit 0.2)
      else if Py.contains "12345" response_clean then Some (Float64.lit 1.0)
      else
        match valid_scores (findall_scores 0 response_clean) with
        | x :: l =>
            Some (Qmin (Float64.lit 1.0) (Float64.div (max_of x l) (Float64.lit 5.0)))
        | [] =>
            match search_conversational lowered with
            | Some g =>
                Some (Qmin (Float64.lit 1.0)
                           (Float64.div (float_of_score g) (Float64.lit 5.0)))
            | None => first_rating rating_words lowered
            end
        end
  end.

End ScoreParser.

(* ================================================================== *)
(** ** llm.py: LLMSuggestionEngine *)
(* ================================================================== *)

(** What a Python call gives: a value, or an exception. *)
Inductive result (A : Type) : Type :=
| Ok (a : A)
| Exc.
Arguments Ok {A} a.
Arguments Exc {A}.

(** Computations over the state [St] of the text completion backend that
    may raise. *)
Definition M (St A : Type) : Type := St -> result A * St.

Definition ret {St A} (a : A) : M St A := fun st => (Ok a, st).

Definition bind {St A B} (m : M St A) (f : A -> M St B) : M St B :=
  fun st =>
    match m st with
    | (Ok a, st') => f a st'
    | (Exc, st') => (Exc, st')
    end.

(** [try: m  except Exception: handler] *)
Definition try_except {St A} (m handler : M St A) : M St A :=
  fun st =>
    match m st with
    | (Ok a, st') => (Ok a, st')
    | (Exc, st') => handler st'
    end.

Notation "x <- m ;; k" := (bind m (fun x => k))
  (at level 61, m at next level, right associativity).

Module LLMSuggestionEngine.

Section Engine.
(** The backend: its state, and [model_inference.run_inference], which
    returns a string or [None], or raises. *)
Context {St : Type}.
Variable run_inference :
  string -> forall (max_tokens : nat) (temperature : Q), M St (option string).
Variable is_initialized : bool.

Definition _query_llm (prompt : string) (max_tokens : nat) (temperature : Q)
    : M St (option string) :=
  if negb is_initialized then ret None
  else
    try_except
      (response <- run_inference prompt max_tokens temperature ;;
       ret match response with
           | Some (String c r) => Some (Py.strip (String c r))
           | _ => None
           end)
      (ret None).

Definition type_keywords : list (string * string) :=
  [("code", "CODE"); ("web", "WEB"); ("url", "WEB"); ("email", "EMAIL");
   ("file", "FILE"); ("data", "DATA"); ("password", "PASSWORD");
   ("text", "TEXT")].

Fixpoint first_keyword (d : list (string * string)) (response_lower : string)
    : option string :=
  match d with
  | [] => None
  | (keyword, result_type) :: rest =>
      if Py.contains keyword response_lower then Some result_type
      else first_keyword rest response_lower
  end.

Definition classification_prompt (clipboard_content : string) : string :=
  let content_preview :=
    if (35 <? String.length clipboard_content)%nat
    then (Py.take 35 clipboard_content ++ "...")%string
    else clipboard_content in
  ("Text:" ++ String Py.QUOTE content_preview ++ String Py.QUOTE
   ".Most likely: code/web/email/file/data/password/text")%string.

Definition _classify_content (clipboard_content : string) : M St string :=
  let '(rule_type, rule_confidence) :=
    ContentClassifier.classify_content clipboard_content in
  if Qle_bool 0.8 rule_confidence then ret rule_type
  else
    try_except
      (response <- _query_llm (classification_prompt clipboard_content) 32 0.1%Q ;;
       match response with
       | Some (String c r) =>
           match first_keyword type_keywords (Py.strip (Py.lower (String c r))) with
           | Some result_type => ret result_type
           | None => ret rule_type
           end
       | _ => ret rule_type
       end)
      (ret rule_type).

Definition scoring_prompt (content_type : string) (window : WindowInfo) : string :=
  let app_name := Py.take 8 (Py.replace ".exe" "" (process_name window)) in
  (app_name ++ " for " ++ Py.lower content_type ++ " (0-5):")%string.

Definition _score_window (clipboard_content content_type : string)
    (window : WindowInfo) : M St (option Q) :=
  try_except
    (response <- _query_llm (scoring_prompt content_type window) 10 0.1%Q ;;
     match response with
     | Some (String c r) =>
         match Py.strip (String c r) with
         | EmptyString => ret None
         | _ => ret (ScoreParser.parse (String c r))
         end
     | _ => ret None
     end)
    (ret None).

(** The loop of step 2 over [available_windows[:5]]. *)
Fixpoint score_windows (clipboard_content content_type : string)
    (windows : list WindowInfo) : M St (list (WindowInfo * Q)) :=
  match windows with
  | [] => ret []
  | window :: rest =>
      score <- _score_window clipboard_content content_type window ;;
      window_scores <- score_windows clipboard_content content_type rest ;;
      ret match score with
          | Some s => (window, s) :: window_scores
          | None => window_scores
          end
  end.

(** [enumerate(window_scores[:3])] turned into suggestions, [i] being the
    index of the head. *)
Fixpoint rank_suggestions (i : nat) (l : list (WindowInfo * Q)) : list Suggestion :=
  match l with
  | [] => []
  | (window, score) :: rest =>
      (("AI Rank #" ++ Py.str_of_nat (i + 1))%string, window, ScoreLabel score)
      :: rank_suggestions (S i) rest
  end.

(** The body of [get_suggestions], with the method it calls in step 1,
    [self._classify_content], as the parameter [classify]; [None] is
    "fall back to the rules".  The [try] spans the classification, the
    scoring loop and the ranking. *)
Definition get_suggestions_with (classify : string -> M St string)
    (clipboard_content : string)
    (current_window : option WindowInfo) (available_windows : list WindowInfo)
    : M St (option (list Suggestion)) :=
  if negb is_initialized || match available_windows with [] => true | _ => false end
  then ret None
  else
    try_except
      (content_type <- classify clipboard_content ;;
       match content_type with
       | EmptyString => ret None
       | _ =>
           window_scores <-
             score_windows clipboard_content content_type
                           (firstn 5 available_windows) ;;
           if (List.length window_scores <? 2)%nat then ret None
           else
             ret (Some (rank_suggestions 0 (firstn 3 (sort_desc snd window_scores))))
       end)
      (ret None).

(** [get_suggestions] of the engine: step 1 is its own [_classify_content]. *)
Definition get_suggestions (clipboard_content : string)
    (current_window : option WindowInfo) (available_windows : list WindowInfo)
    : M St (option (list Suggestion)) :=
  get_suggestions_with _classify_content clipboard_content current_window
                       available_windows.

End Engine.

End LLMSuggestionEngine.

(* ================================================================== *)
(** ** controller.py: MultitaskController *)
(* ================================================================== *)

Module MultitaskController.

(** What the controller does to its collaborators, in order. *)
Inductive event : Type :=
| ListWindows                 (* window_manager.get_filtered_windows(...) *)
| ForegroundWindow            (* _get_current_window() *)
| Status (status : string).   (* _update_status(status) *)

(** The surroundings of one call: the backend of the model, the windows
    [get_application_windows()] would list, the foreground window, and
    the events so far (latest first). *)
Record World (St : Type) : Type := mkWorld {
  backend : St;
  desktop : list WindowInfo;
  foreground : option WindowInfo;
  trace : list event
}.
Arguments mkWorld {St}.
Arguments backend {St}.
Arguments desktop {St}.
Arguments foreground {St}.
Arguments trace {St}.

Module Config.
Definition EXCLUDED_TITLES : list string := ["multitask helper"; "multi-task helper"].
Definition STATUS_AI_ANALYZING : string := "AI analyzing...".
Definition STATUS_RULE_ANALYZING : string := "Using rule-based suggestions...".
Definition STATUS_READY : string := "Ready".
End Config.

Section Controller.
Context {St : Type}.
Variable run_inference :
  string -> forall (max_tokens : nat) (temperature : Q), M St (option string).
(** [self.llm_engine]: [None] when the controller was built with
    [enable_llm=False], else the engine's [is_initialized]. *)
Variable llm_engine : option bool.
Variable LLM_AVAILABLE : bool.

Definition emit (e : event) : M (World St) unit :=
  fun w => (Ok tt, mkWorld (backend w) (desktop w) (foreground w) (e :: trace w)).

(** Runs a computation of the engine on the backend of the world. *)
Definition on_backend {A} (m : M St A) : M (World St) A :=
  fun w =>
    let '(r, st) := m (backend w) in
    (r, mkWorld st (desktop w) (foreground w) (trace w)).

Definition _update_status (status : string) : M (World St) unit :=
  emit (Status status).

(** windows.py, [WindowManager.get_filtered_windows]. *)
Definition get_filtered_windows (exclude_titles : list string)
    : M (World St) (list WindowInfo) :=
  _ <- emit ListWindows ;;
  fun w =>
    let windows := desktop w in
    (Ok match exclude_titles with
        | [] => windows
        | _ =>
            filter (fun w0 =>
                      negb (existsb (fun exclude => Py.contains exclude (Py.lower (title w0)))
                                    exclude_titles))
                   windows
        end, w).

Definition _get_current_window : M (World St) (option WindowInfo) :=
  _ <- emit ForegroundWindow ;;
  fun w => (Ok (foreground w), w).

Definition is_ready (is_initialized : bool) : bool :=
  is_initialized && LLM_AVAILABLE.

Definition _try_llm_suggestions (content : string)
    (current_window : option WindowInfo) (available_windows : list WindowInfo)
    : M (World St) (option (list Suggestion)) :=
  match llm_engine with
  | Some is_initialized =>
      if is_ready is_initialized then
        _ <- _update_status Config.STATUS_AI_ANALYZING ;;
        on_backend
          (LLMSuggestionEngine.get_suggestions run_inference is_initialized
             content current_window available_windows)
      else ret None
  | None => ret None
  end.

Definition _try_rule_suggestions (content : string)
    (current_window : option WindowInfo) (available_windows : list WindowInfo)
    : M (World St) (list Suggestion) :=
  _ <- _update_status Config.STATUS_RULE_ANALYZING ;;
  match RuleBasedSuggestionEngine.get_suggestions content current_window
          available_windows with
  | Some (s :: l) => ret (s :: l)
  | _ => ret []
  end.

Definition _update_final_status (suggestions : list Suggestion) : M (World St) unit :=
  match suggestions with
  | [] => _update_status (Config.STATUS_READY ++ " - No suggestions")
  | _ =>
      _update_status (Config.STATUS_READY ++ " - "
                      ++ Py.str_of_nat (List.length suggestions) ++ " suggestions")
  end.

Definition get_suggestions_for_content (content : string)
    : M (World St) (list Suggestion) :=
  match Py.strip content with
  | EmptyString => ret []
  | _ =>
      available_windows <- get_filtered_windows Config.EXCLUDED_TITLES ;;
      match available_windows with
      | [] => ret []
      | _ =>
          current_window <- _get_current_window ;;
          suggestions <-
            _try_llm_suggestions content current_window available_windows ;;
          suggestions <-
            match suggestions with
            | Some (s :: l) => ret (s :: l)
            | _ => _try_rule_suggestions content current_window available_windows
            end ;;
          _ <- _update_final_status suggestions ;;
          ret suggestions
      end
  end.

End Controller.

End MultitaskController.

(* ================================================================== *)
(** ** list.sort(key=...) on string keys *)
(* ================================================================== *)

(** The ascending counterpart of [sort_desc], for keys that are strings:
    Python compares [str] values code point by code point. *)
Section SortAsc.
Context {A : Type} (key : A -> string).

Fixpoint insert_asc (x : A) (l : list A) : list A :=
  match l with
  | [] => [x]
  | y :: t =>
      if String.ltb (key y) (key x) then y :: insert_asc x t
      else x :: y :: t
  end.

Definition sort_asc (l : list A) : list A := fold_right insert_asc [] l.

(** [a] may stand before [b] in an ascending list. *)
Definition asc (a b : A) : Prop := String.leb (key a) (key b) = true.

(** The elements whose key is [k]. *)
Definition keyed (k : string) (l : list A) : list A :=
  filter (fun a => String.eqb (key a) k) l.
End SortAsc.

(* ================================================================== *)
(** ** windows.py: WindowManager *)
(* ================================================================== *)

Module WindowManager.

Definition skip_words : list string :=
  ["notification"; "tooltip"; "popup"; "menu"; "context";
   "gdi+"; "dde server"; "broadcast"; "xaml"; "hardware"; "power"; "paste options";
   "listener"; "monitor"; "systray"; "system"; "background"; "service";
   "trackmonitors"; "endsession"; "resourcenotify"; "activity center";
   "task host window"; "input experience"; "handwriting canvas"; "clicktodo"].

Definition user_apps : list string :=
  ["chrome.exe"; "firefox.exe"; "edge.exe"; "safari.exe"; "opera.exe";
   "code.exe"; "notepad.exe"; "notepad++.exe"; "sublime_text.exe";
   "pycharm64.exe"; "idea64.exe"; "devenv.exe"; "atom.exe";
   "cmd.exe"; "powershell.exe"; "windowsterminal.exe"; "wt.exe";
   "excel.exe"; "winword.exe"; "powerpnt.exe"; "outlook.exe";
   "msedge.exe"; "msaccess.exe"; "mspub.exe"; "winmail.exe";
   "hxmail.exe"; "hxoutlook.exe"; "outlookforwindows.exe";
   "thunderbird.exe"; "mailspring.exe"; "spark.exe";
   "olk.exe";
   "vlc.exe"; "spotify.exe"; "discord.exe"; "teams.exe"; "zoom.exe";
   "photoshop.exe"; "illustrator.exe"; "figma.exe";
   "steam.exe"; "calculator.exe"; "mspaint.exe"].

Definition document_indicators : list string :=
  [".txt"; ".doc"; ".pdf"; ".jpg"; ".png"; ".mp4"; ".mp3";
   "untitled"; "document"; "sheet"; "presentation"].

Definition _is_user_application (window : WindowInfo) : bool :=
  let process_lower := Py.lower (process_name window) in
  if existsb (String.eqb process_lower) user_apps then true
  else
    let process_name_clean := Py.lower (Py.replace ".exe" "" (process_name window)) in
    let title_lower := Py.lower (title window) in
    if (String.length process_name_clean + 5 <? String.length (title window))%nat then true
    else if existsb (fun indicator => Py.contains indicator title_lower)
                    document_indicators
    then true
    else false.

(** The test of the loop of [get_application_windows]: the window is
    appended to [app_windows]. *)
Definition is_application_window (window : WindowInfo) : bool :=
  if (String.length (Py.strip (title window)) <? 3)%nat then false
  else if existsb (fun skip_word => Py.contains skip_word (Py.lower (title window)))
                  skip_words
  then false
  else _is_user_application window.

(** [get_application_windows], on the list [get_all_windows()] returned. *)
Definition get_application_windows (all_windows : list WindowInfo)
    : list WindowInfo :=
  let app_windows := filter is_application_window all_windows in
  sort_asc (fun w => Py.lower (process_name w)) app_windows.

(** [get_filtered_windows]; [exclude_titles=None] is the empty list. *)
Definition get_filtered_windows (all_windows : list WindowInfo)
    (exclude_titles : list string) : list WindowInfo :=
  let windows := get_application_windows all_windows in
  match exclude_titles with
  | [] => windows
  | _ =>
      filter (fun w =>
                negb (existsb (fun exclude => Py.contains exclude (Py.lower (title w)))
                              exclude_titles))
             windows
  end.

(** The key under which the loop of [categorize_windows] files a window. *)
Definition category_of (window : WindowInfo) : string :=
  let process_lower := Py.lower (process_name window) in
  let any_in := existsb (fun name => Py.contains name process_lower) in
  if any_in ["chrome"; "firefox"; "edge"; "safari"; "opera"; "brave"] then "browsers"
  else if any_in ["code"; "notepad"; "sublime"; "atom"; "vim"; "emacs"; "pycharm"; "idea"]
  then "editors"
  else if any_in ["cmd"; "powershell"; "terminal"; "bash"; "wt"] then "terminals"
  else if any_in ["word"; "excel"; "powerpoint"; "outlook"; "onenote"] then "office"
  else if any_in ["vlc"; "spotify"; "discord"; "teams"; "zoom"] then "media"
  else "other".

(** [categories[key].append(window)] on a dict kept in insertion order. *)
Fixpoint append_to (key : string) (window : WindowInfo)
    (categories : list (string * list WindowInfo)) : list (string * list WindowInfo) :=
  match categories with
  | [] => []
  | (k, l) :: rest =>
      if String.eqb key k then (k, l ++ [window]) :: rest
      else (k, l) :: append_to key window rest
  end.

Definition empty_categories : list (string * list WindowInfo) :=
  [("browsers", []); ("editors", []); ("terminals", []); ("office", []);
   ("media", []); ("other", [])].

Definition categorize_windows (windows : list WindowInfo)
    : list (string * list WindowInfo) :=
  fold_left (fun categories window => append_to (category_of window) window categories)
            windows empty_categories.

(** [categories[key]]. *)
Fixpoint category (key : string) (categories : list (string * list WindowInfo))
    : option (list WindowInfo) :=
  match categories with
  | [] => None
  | (k, l) :: rest => if String.eqb key k then Some l else category key rest
  end.

End WindowManager.

(* ================================================================== *)
(** ** controller.py: clipboard monitoring and system information *)
(* ================================================================== *)

Module Monitoring.

(** The calls to the hooks set by [set_callbacks] (a hook that is not
    set is not called; the calls are recorded as for hooks that are). *)
Inductive callback : Type :=
| OnClipboardChange (content : string)
| OnSuggestionsReady (suggestions : list Suggestion).

(** The fields of the controller the monitor reads and writes, the world
    around it, and the calls made to the hooks (latest first). *)
Record Controller (St : Type) : Type := mkController {
  world : MultitaskController.World St;
  clipboard_content : string;
  last_clipboard : string;
  current_suggestions : list Suggestion;
  callbacks : list callback
}.
Arguments mkController {St}.
Arguments world {St}.
Arguments clipboard_content {St}.
Arguments last_clipboard {St}.
Arguments current_suggestions {St}.
Arguments callbacks {St}.

Section Monitor.
Context {St : Type}.
Variable run_inference :
  string -> forall (max_tokens : nat) (temperature : Q), M St (option string).
Variable llm_engine : option bool.
Variable LLM_AVAILABLE : bool.

(** Runs a computation of the controller on the world of the monitor. *)
Definition in_world {A} (m : M (MultitaskController.World St) A)
    : M (Controller St) A :=
  fun c =>
    let '(r, w) := m (world c) in
    (r, mkController w (clipboard_content c) (last_clipboard c)
          (current_suggestions c) (callbacks c)).

Definition call (cb : callback) : M (Controller St) unit :=
  fun c =>
    (Ok tt, mkController (world c) (clipboard_content c) (last_clipboard c)
              (current_suggestions c) (cb :: callbacks c)).

Definition _clipboard_changed (c : Controller St) (current_clipboard : string) : bool :=
  negb (String.eqb current_clipboard (last_clipboard c))
  && match Py.strip current_clipboard with
     | EmptyString => false
     | _ => true
     end.

Definition _handle_clipboard_change (current_clipboard : string)
    : M (Controller St) unit :=
  _ <- (fun c => (Ok tt, mkController (world c) current_clipboard current_clipboard
                           (current_suggestions c) (callbacks c))) ;;
  _ <- call (OnClipboardChange current_clipboard) ;;
  suggestions <-
    in_world (MultitaskController.get_suggestions_for_content run_inference
                llm_engine LLM_AVAILABLE current_clipboard) ;;
  _ <- (fun c => (Ok tt, mkController (world c) (clipboard_content c)
                           (last_clipboard c) suggestions (callbacks c))) ;;
  call (OnSuggestionsReady suggestions).

(** One turn of the loop of [_monitor_clipboard], [current_clipboard]
    being what [pyperclip.paste()] returned. *)
Definition monitor_turn (current_clipboard : string) : M (Controller St) unit :=
  try_except
    (fun c =>
       if _clipboard_changed c current_clipboard
       then _handle_clipboard_change current_clipboard c
       else (Ok tt, c))
    (ret tt).

End Monitor.

(** The two counts of [get_system_info]: [total_windows] and
    [window_categories], for the list [get_all_windows()] returned. *)
Definition total_windows (windows : list WindowInfo) : nat := List.length windows.

Definition window_categories (windows : list WindowInfo) : list (string * nat) :=
  map (fun kv : string * list WindowInfo => (fst kv, List.length (snd kv)))
      (WindowManager.categorize_windows windows).

End Monitoring.

(* ================================================================== *)
(** ** Vocabulary of the statements, and sample data *)
(* ================================================================== *)

Section Scored.
Context {St : Type}.
Variable run_inference :
  string -> forall (max_tokens : nat) (temperature : Q), M St (option string).

(** The score read in the outcome of a query to the backend: none when
    the query raised or gave no text, else what the parser finds in the
    reply. *)
Definition reply_score (outcome : result (option string)) : option Q :=
  match outcome with
  | Ok (Some reply) => ScoreParser.parse reply
  | _ => None
  end.

(** The candidates of [windows] that yield a parseable score, each with
    its score, in the order of [windows].  This is stated on the backend
    and the parser alone: every candidate is asked about once, in turn,
    the backend being in state [st] at the first query and moving on
    with each query. *)
Fixpoint parseable_scores (content_type : string) (windows : list WindowInfo)
    (st : St) : list (WindowInfo * Q) :=
  match windows with
  | [] => []
  | window :: rest =>
      let outcome :=
        run_inference (LLMSuggestionEngine.scoring_prompt content_type window)
                      10%nat 0.1%Q st in
      let later := parseable_scores content_type rest (snd outcome) in
      match reply_score (fst outcome) with
      | Some score => (window, score) :: later
      | None => later
      end
  end.

End Scored.

(** The ranking the rule engine sorts for a content type, and the list
    it sorts: both empty for a content type without an affinity table. *)
Definition ranker_input (content_type content : string)
    (windows : list WindowInfo) : list (WindowInfo * Q) :=
  match RuleBasedSuggestionEngine.lookup content_type
          RuleBasedSuggestionEngine.content_mappings with
  | None => []
  | Some m => RuleBasedSuggestionEngine.positive_scores m content windows
  end.

Definition ranker_output (content_type content : string)
    (windows : list WindowInfo) : list (WindowInfo * Q) :=
  match RuleBasedSuggestionEngine.lookup content_type
          RuleBasedSuggestionEngine.content_mappings with
  | None => []
  | Some m => RuleBasedSuggestionEngine.scored_windows m content windows
  end.

Definition chrome_github : WindowInfo := mkWindow 101 "GitHub - foo" "chrome.exe" 1 true false.
Definition notepad_untitled : WindowInfo := mkWindow 102 "Untitled" "notepad.exe" 2 true false.
Definition explorer_docs : WindowInfo := mkWindow 103 "Documents" "explorer.exe" 3 true false.
Definition hidden_tool : WindowInfo := mkWindow 104 "Build output" "make.exe" 4 true true.

(** Two editors that the rules score [0.5 + 0.2 + 0.2] and [0.5 + 0.4]
    for a text of digits and slashes. *)
Definition notepad_data_file : WindowInfo := mkWindow 201 "data file" "notepad.exe" 5 true false.
Definition notepad_csv_table : WindowInfo := mkWindow 202 "csv table" "notepad.exe" 6 true false.

(** A Windows path, written with single backslashes. *)
Definition windows_path : string :=
  "C:" ++ String Py.BACKSLASH "Users" ++ String Py.BACKSLASH "me"
  ++ String Py.BACKSLASH "notes.txt".

(** A backend that raises on the classification query and answers "4" to
    every other query; its state counts the queries. *)
Definition flaky_backend (prompt : string) (max_tokens : nat) (temperature : Q)
    : M nat (option string) :=
  fun queries =>
    (if String.prefix "Text:" prompt then Exc else Ok (Some "4"), S queries).

Definition sample_world : MultitaskController.World nat :=
  MultitaskController.mkWorld 0%nat [chrome_github; notepad_untitled] None [].

(** A backend instrumented with a counter of the calls made to it. *)
Definition counting {St : Type}
    (run_inference : string -> nat -> Q -> M St (option string))
    : string -> nat -> Q -> M (St * nat) (option string) :=
  fun prompt max_tokens temperature s =>
    let '(r, st) := run_inference prompt max_tokens temperature (fst s) in
    (r, (st, S (snd s))).

(** A classification step that queries the counted backend and lets its
    exception through. *)
Definition unguarded_classification (content : string) : M (nat * nat) string :=
  response <- counting flaky_backend
                (LLMSuggestionEngine.classification_prompt content) 32%nat 0.1%Q ;;
  ret "TEXT".

(** A backend that raises on every query. *)
Definition dead_backend (prompt : string) (max_tokens : nat) (temperature : Q)
    : M unit (option string) :=
  fun st => (Exc, st).

(** A controller that has seen no clipboard text yet. *)
Definition sample_controller : Monitoring.Controller nat :=
  Monitoring.mkController sample_world "" "" [] [].

(** The candidates the controller hands to the engines: the windows of
    the desktop whose title holds none of the excluded titles. *)
Definition listed_windows {St : Type} (w : MultitaskController.World St)
    : list WindowInfo :=
  filter (fun w0 =>
            negb (existsb (fun exclude => Py.contains exclude (Py.lower (title w0)))
                          MultitaskController.Config.EXCLUDED_TITLES))
         (MultitaskController.desktop w).

(** The suggestion comes from the model engine. *)
Definition from_model (s : Suggestion) : Prop :=
  match suggestion_label s with
  | ScoreLabel _ => True
  | _ => False
  end.

(** The suggestion comes from the rule engine. *)
Definition from_rules (s : Suggestion) : Prop :=
  match suggestion_label s with
  | ScoreLabel _ => False
  | _ => True
  end.

(** [m] makes at most [k] calls to the counted backend. *)
Definition calls_at_most {St A : Type} (k : nat) (m : M (St * nat) A) : Prop :=
  forall s : St * nat, (snd (snd (m s)) <= snd s + k)%nat.

(** A confidence the classifier can give. *)
Definition in_confidence_band (q : Q) : Prop := (0.6 <= q)%Q /\ (q <= 0.95)%Q.

(* ================================================================== *)
(** * Properties *)
(* ================================================================== *)

(** ** The embedding on sample inputs *)

Example classify_https :
  ContentClassifier.classify_content "https://github.com/foo" = ("WEB", 0.95%Q).
Proof. reflexivity. Qed.

(** The bare-domain detector comes before the address detector. *)
Example classify_address_ending_in_tld :
  ContentClassifier.classify_content "user@example.com" = ("WEB", 0.85%Q).
Proof. reflexivity. Qed.

Example classify_def :
  fst (ContentClassifier.classify_content "def foo(): pass") = "CODE".
Proof. reflexivity. Qed.

Example classify_path :
  ContentClassifier.classify_content "/home/user/notes.txt" = ("FILE", 0.9%Q).
Proof. reflexivity. Qed.

Example rule_end_to_end :
  RuleBasedSuggestionEngine.get_suggestions "https://github.com/foo" None
    [chrome_github; notepad_untitled]
  = Some [("WEB -> chrome.exe", chrome_github, PriorityLabel "High" 0.95%Q);
          ("Recent -> notepad.exe", notepad_untitled, RecentLabel)].
Proof. vm_compute. reflexivity. Qed.

Example parse_12345 : ScoreParser.parse "12345" = Some 1%Q.
Proof. vm_compute. reflexivity. Qed.

Example parse_yes : ScoreParser.parse "yes, definitely" = Some (Float64.lit 0.8).
Proof. vm_compute. reflexivity. Qed.

Example parse_empty : ScoreParser.parse "" = None.
Proof. reflexivity. Qed.

(** [3.5 / 5.0] is the double [0.7]. *)
Example parse_think :
  ScoreParser.parse "<think>maybe 5</think> 3.5" = Some (Float64.lit 0.7).
Proof. vm_compute. reflexivity. Qed.

Example parse_sure : ScoreParser.parse "sure, 5.5" = Some 1%Q.
Proof. vm_compute. reflexivity. Qed.

Example parse_word : ScoreParser.parse "great fit" = Some (Float64.lit 0.8).
Proof. vm_compute. reflexivity. Qed.

(** [3.3 / 5.0] is [0.6599999999999999], not the double [0.66]. *)
Example parse_rounds :
  ScoreParser.parse "3.3" = Some (2972375754064527 # 4503599627370496)%Q
  /\ Float64.lit 0.66 = (5944751508129055 # 9007199254740992)%Q.
Proof. split; vm_compute; reflexivity. Qed.

(** ** Doubles *)

(** The literal [0.8] is the double 3602879701896397 / 2^52, and the
    sums of the rule engine depend on the order of the additions:
    [0.5 + 0.2 + 0.2] is [0.8999999999999999], below [0.5 + 2 * 0.2],
    which is the double [0.9]. *)
Example literal_0_8 :
  Float64.lit 0.8 = (3602879701896397 # 4503599627370496)%Q.
Proof. vm_compute. reflexivity. Qed.

Example sums_of_doubles :
  Float64.add (Float64.add (Float64.lit 0.5) (Float64.lit 0.2)) (Float64.lit 0.2)
  = (2026619832316723 # 2251799813685248)%Q
  /\ Float64.add (Float64.lit 0.5) (Float64.mul (Float64.of_Z 2) (Float64.lit 0.2))
     = Float64.lit 0.9
  /\ (Float64.add (Float64.add (Float64.lit 0.5) (Float64.lit 0.2)) (Float64.lit 0.2)
      < Float64.lit 0.9)%Q.
Proof. repeat split; vm_compute; reflexivity. Qed.

(** ** Rational comparisons *)

Lemma Qlt_bool_iff (a b : Q) : Qlt_bool a b = true <-> (a < b)%Q.
Proof.
  unfold Qlt_bool. rewrite negb_true_iff. split; intro H.
  - apply Qnot_le_lt. intro Hle. apply Qle_bool_iff in Hle. congruence.
  - destruct (Qle_bool b a) eqn:E; [|reflexivity].
    apply Qle_bool_iff in E. exfalso. exact (Qlt_not_le _ _ H E).
Qed.

Lemma Qlt_bool_false_iff (a b : Q) : Qlt_bool a b = false <-> (b <= a)%Q.
Proof.
  unfold Qlt_bool. rewrite negb_false_iff. apply Qle_bool_iff.
Qed.

Lemma count_nonneg (n : nat) : (0 <= inject_Z (Z.of_nat n))%Q.
Proof. change 0%Q with (inject_Z 0). rewrite <- Zle_Qle. lia. Qed.

Lemma Qplus_nonneg (a b : Q) : (0 <= a)%Q -> (0 <= b)%Q -> (0 <= a + b)%Q.
Proof. intros Ha Hb. exact (Qplus_le_compat 0 a 0 b Ha Hb). Qed.

(** A comparison of two closed rationals, by evaluation. *)
Ltac closed_Qle := apply Qle_bool_iff; vm_compute; reflexivity.
Ltac closed_Qlt := apply Qlt_bool_iff; vm_compute; reflexivity.

(** ** Rounding to the nearest double is monotone *)

Section Float64Facts.
Import Float64.

Lemma pow2_pos (e : Z) : (0 < pow2 e)%Q.
Proof. apply Qpower_0_lt. reflexivity. Qed.

Lemma pow2_plus (a b : Z) : (pow2 (a + b) == pow2 a * pow2 b)%Q.
Proof. apply Qpower_plus. discriminate. Qed.

Lemma pow2_nat (k : Z) : (0 <= k)%Z -> (pow2 k == inject_Z (2 ^ k))%Q.
Proof. intros H. unfold pow2. now rewrite (Zpower_Qpower 2 k H). Qed.

Lemma pow2_le (a b : Z) : (a <= b)%Z -> (pow2 a <= pow2 b)%Q.
Proof. intros H. apply Qpower_le_compat_l; [exact H | discriminate]. Qed.

Lemma pow2_lt_inv (a b : Z) : (pow2 a < pow2 b)%Q -> (a < b)%Z.
Proof. intros H. apply (Qpower_lt_compat_l_inv 2); [exact H | reflexivity]. Qed.

(** [2 ^ a / 2 ^ b] for natural [a] and [b]. *)
Lemma pow2_minus (a b : Z) : (0 <= a)%Z -> (0 <= b)%Z ->
  (pow2 (a - b) * inject_Z (2 ^ b) == inject_Z (2 ^ a))%Q.
Proof.
  intros Ha Hb. rewrite <- (pow2_nat a Ha), <- (pow2_nat b Hb), <- pow2_plus.
  now replace (a - b + b)%Z with a by lia.
Qed.

(** [ilog2] is the integer logarithm. *)
Lemma ilog2_spec (q : Q) : (0 < q)%Q ->
  (pow2 (ilog2 q) <= q)%Q /\ (q < pow2 (ilog2 q + 1))%Q.
Proof.
  intros Hq. destruct q as [n d].
  assert (Hn : (0 < n)%Z) by (unfold Qlt in Hq; simpl in Hq; lia).
  unfold ilog2. cbn [Qnum Qden].
  set (a := Z.log2 n). set (b := Z.log2 (Zpos d)).
  assert (Ha : (0 <= a)%Z) by apply Z.log2_nonneg.
  assert (Hb : (0 <= b)%Z) by apply Z.log2_nonneg.
  destruct (Z.log2_spec n Hn) as [Ha1 Ha2]. fold a in Ha1, Ha2.
  destruct (Z.log2_spec (Zpos d) eq_refl) as [Hb1 Hb2]. fold b in Hb1, Hb2.
  assert (Hpa : (0 < 2 ^ a)%Z) by (apply Z.pow_pos_nonneg; lia).
  assert (Hpb : (0 < 2 ^ b)%Z) by (apply Z.pow_pos_nonneg; lia).
  assert (Hup : (n # d < pow2 (a - b + 1))%Q).
  { apply (Qmult_lt_r _ _ (inject_Z (2 ^ b))).
    - change 0%Q with (inject_Z 0). rewrite <- Zlt_Qlt. exact Hpb.
    - replace (a - b + 1)%Z with ((a + 1) - b)%Z by lia.
      rewrite (pow2_minus (a + 1) b) by lia.
      unfold Qlt, Qmult, inject_Z. cbn [Qnum Qden].
      replace (Z.succ a) with (a + 1)%Z in Ha2 by lia.
      nia. }
  assert (Hlow : (pow2 (a - b - 1) <= n # d)%Q).
  { apply (Qmult_le_r _ _ (inject_Z (2 ^ (b + 1)))).
    - change 0%Q with (inject_Z 0). rewrite <- Zlt_Qlt. apply Z.pow_pos_nonneg; lia.
    - replace (a - b - 1)%Z with (a - (b + 1))%Z by lia.
      rewrite (pow2_minus a (b + 1)) by lia.
      unfold Qle, Qmult, inject_Z. cbn [Qnum Qden].
      replace (Z.succ b) with (b + 1)%Z in Hb2 by lia.
      nia. }
  destruct (Qle_bool (pow2 (a - b)) (n # d)) eqn:E.
  - split; [now apply Qle_bool_iff | exact Hup].
  - split; [exact Hlow|].
    replace (a - b - 1 + 1)%Z with (a - b)%Z by lia.
    apply Qnot_le_lt. intros H. apply Qle_bool_iff in H. congruence.
Qed.

Lemma ilog2_mono (p q : Q) : (0 < p)%Q -> (p <= q)%Q -> (ilog2 p <= ilog2 q)%Z.
Proof.
  intros Hp Hpq.
  assert (Hq : (0 < q)%Q) by lra.
  destruct (ilog2_spec p Hp) as [H1 _]. destruct (ilog2_spec q Hq) as [_ H2].
  assert (H : (pow2 (ilog2 p) < pow2 (ilog2 q + 1))%Q) by lra.
  apply pow2_lt_inv in H. lia.
Qed.

Lemma rne_cases (x : Q) : rne x = Qfloor x \/ rne x = (Qfloor x + 1)%Z.
Proof.
  unfold rne. destruct (_ ?= _)%Q; auto. destruct (Z.even _); auto.
Qed.

Lemma rne_Z (z : Z) : rne (inject_Z z) = z.
Proof.
  unfold rne. rewrite Qfloor_Z.
  assert (H : (inject_Z z - inject_Z z < 1 # 2)%Q) by lra.
  rewrite Qlt_alt in H. now rewrite H.
Qed.

Lemma rne_mono (x y : Q) : (x <= y)%Q -> (rne x <= rne y)%Z.
Proof.
  intros Hxy.
  pose proof (Qfloor_resp_le x y Hxy) as Hf.
  destruct (Z.eq_dec (Qfloor x) (Qfloor y)) as [E | N].
  - unfold rne. rewrite <- E. set (f := Qfloor x).
    destruct (x - inject_Z f ?= 1 # 2)%Q eqn:Cx;
      destruct (y - inject_Z f ?= 1 # 2)%Q eqn:Cy;
      try rewrite <- Qeq_alt in *; try rewrite <- Qlt_alt in *;
      try rewrite <- Qgt_alt in *;
      try (destruct (Z.even f)); try lia; exfalso; lra.
  - destruct (rne_cases x) as [-> | ->], (rne_cases y) as [-> | ->]; lia.
Qed.

Lemma round_pos_mono (p q : Q) : (0 < p)%Q -> (p <= q)%Q ->
  (round_pos p <= round_pos q)%Q.
Proof.
  intros Hp Hpq.
  assert (Hq : (0 < q)%Q) by lra.
  pose proof (ilog2_mono p q Hp Hpq) as Hl.
  unfold round_pos, ulp.
  set (e1 := Z.max (ilog2 p - 52) emin). set (e2 := Z.max (ilog2 q - 52) emin).
  assert (He : (e1 <= e2)%Z) by (unfold e1, e2; lia).
  pose proof (pow2_pos e1) as Hu1. pose proof (pow2_pos e2) as Hu2.
  destruct (Z.eq_dec e1 e2) as [E | N].
  - rewrite <- E. apply Qmult_le_compat_r; [|lra].
    rewrite <- Zle_Qle. apply rne_mono.
    apply Qmult_le_compat_r; [exact Hpq|].
    apply Qlt_le_weak, Qinv_lt_0_compat, Hu1.
  - assert (E2 : e2 = (ilog2 q - 52)%Z) by (unfold e1, e2 in *; lia).
    apply Qle_trans with (pow2 (e1 + 53)).
    + rewrite pow2_plus, (Qmult_comm (pow2 e1)). apply Qmult_le_compat_r; [|lra].
      rewrite (pow2_nat 53) by lia. rewrite <- Zle_Qle.
      rewrite <- (rne_Z (2 ^ 53)). apply rne_mono.
      apply Qle_shift_div_r; [exact Hu1|].
      rewrite <- (pow2_nat 53) by lia. rewrite Qmult_comm, <- pow2_plus.
      destruct (ilog2_spec p Hp) as [_ H].
      apply Qlt_le_weak, Qlt_le_trans with (1 := H).
      apply pow2_le. unfold e1. lia.
    + apply Qle_trans with (pow2 (e2 + 52)); [apply pow2_le; lia|].
      rewrite pow2_plus, (Qmult_comm (pow2 e2)). apply Qmult_le_compat_r; [|lra].
      rewrite (pow2_nat 52) by lia. rewrite <- Zle_Qle.
      rewrite <- (rne_Z (2 ^ 52)) at 1. apply rne_mono.
      apply Qle_shift_div_l; [exact Hu2|].
      rewrite <- (pow2_nat 52) by lia. rewrite Qmult_comm, <- pow2_plus.
      destruct (ilog2_spec q Hq) as [H _].
      replace (e2 + 52)%Z with (ilog2 q) by lia. exact H.
Qed.

Lemma rne_near (x : Q) :
  (- (1 # 2) <= inject_Z (rne x) - x)%Q /\ (inject_Z (rne x) - x <= 1 # 2)%Q.
Proof.
  pose proof (Qfloor_le x) as Hlo. pose proof (Qlt_floor x) as Hhi.
  rewrite inject_Z_plus in Hhi. change (inject_Z 1) with 1%Q in Hhi.
  unfold rne.
  destruct (x - inject_Z (Qfloor x) ?= 1 # 2)%Q eqn:C;
    try rewrite <- Qeq_alt in C; try rewrite <- Qlt_alt in C;
    try rewrite <- Qgt_alt in C;
    try destruct (Z.even (Qfloor x));
    rewrite ?inject_Z_plus; change (inject_Z 1) with 1%Q; split; lra.
Qed.

(** The rounded value is a multiple of the spacing, at most half a
    spacing away. *)
Lemma round_pos_near (q : Q) :
  (0 < q)%Q ->
  (- ((1 # 2) * ulp q) <= round_pos q - q)%Q
  /\ (round_pos q - q <= (1 # 2) * ulp q)%Q.
Proof.
  intro Hq. unfold round_pos. cbv zeta.
  assert (Hu : (0 < ulp q)%Q) by apply pow2_pos.
  destruct (rne_near (q / ulp q)) as [H1 H2].
  set (m := inject_Z (rne (q / ulp q))) in *. set (u := ulp q) in *.
  assert (E : (m * u - q == (m - q / u) * u)%Q).
  { field. intro Hz. rewrite Hz in Hu. discriminate Hu. }
  clearbody m u. rewrite E. clear E. split.
  - apply Qle_trans with ((- (1 # 2)) * u)%Q; [lra|].
    apply Qmult_le_compat_r; lra.
  - apply Qmult_le_compat_r; lra.
Qed.

Lemma round_pos_nonneg (q : Q) : (0 < q)%Q -> (0 <= round_pos q)%Q.
Proof.
  intros Hq. unfold round_pos.
  apply Qmult_le_0_compat; [|apply Qlt_le_weak, pow2_pos].
  change 0%Q with (inject_Z 0). rewrite <- Zle_Qle.
  rewrite <- (rne_Z 0). apply rne_mono.
  apply Qlt_le_weak, Qlt_shift_div_l; [apply pow2_pos|].
  change (inject_Z 0) with 0%Q. now rewrite Qmult_0_l.
Qed.

(** Rounding keeps the order. *)
Lemma round_mono (p q : Q) : (p <= q)%Q -> (round p <= round q)%Q.
Proof.
  intros Hpq. unfold round.
  destruct (p ?= 0)%Q eqn:Cp; destruct (q ?= 0)%Q eqn:Cq;
    try rewrite <- Qeq_alt in *; try rewrite <- Qlt_alt in *;
    try rewrite <- Qgt_alt in *; rewrite ?Qred_correct;
    try lra.
  - apply round_pos_nonneg; lra.
  - pose proof (round_pos_nonneg (- p)). lra.
  - pose proof (round_pos_mono (- q) (- p)). lra.
  - pose proof (round_pos_nonneg (- p)). pose proof (round_pos_nonneg q). lra.
  - apply round_pos_mono; lra.
Qed.

Lemma round_nonneg (q : Q) : (0 <= q)%Q -> (0 <= round q)%Q.
Proof. intros H. change 0%Q with (round 0) at 1. now apply round_mono. Qed.

(** Adding a number that is not negative to a float that is at least the
    double [c] gives at least [c]. *)
Lemma add_above (a b c : Q) :
  (round c == c)%Q -> (c <= a)%Q -> (0 <= b)%Q -> (c <= add a b)%Q.
Proof.
  intros Hc Ha Hb. rewrite <- Hc. apply round_mono. lra.
Qed.

Lemma mul_nonneg (a b : Q) : (0 <= a)%Q -> (0 <= b)%Q -> (0 <= mul a b)%Q.
Proof. intros Ha Hb. apply round_nonneg. now apply Qmult_le_0_compat. Qed.

Lemma div_nonneg (a b : Q) : (0 <= a)%Q -> (0 < b)%Q -> (0 <= div a b)%Q.
Proof.
  intros Ha Hb. apply round_nonneg. unfold Qdiv.
  apply Qmult_le_0_compat; [exact Ha|]. now apply Qlt_le_weak, Qinv_lt_0_compat.
Qed.

Lemma of_Z_nonneg (n : Z) : (0 <= n)%Z -> (0 <= of_Z n)%Q.
Proof.
  intro H. apply round_nonneg. change 0%Q with (inject_Z 0). now rewrite <- Zle_Qle.
Qed.

End Float64Facts.

(** ** The stable descending sort *)

Section SortDescFacts.
Context {A : Type} (key : A -> Q).

Lemma insert_desc_perm (x : A) (l : list A) :
  Permutation (x :: l) (insert_desc key x l).
Proof.
  induction l as [|y t IH]; simpl.
  - apply Permutation_refl.
  - destruct (Qlt_bool (key x) (key y)).
    + eapply perm_trans; [apply perm_swap|]. now apply perm_skip.
    + apply Permutation_refl.
Qed.

Lemma sort_desc_perm (l : list A) : Permutation l (sort_desc key l).
Proof.
  induction l as [|x t IH]; simpl.
  - constructor.
  - eapply perm_trans; [apply perm_skip, IH|]. apply insert_desc_perm.
Qed.

Lemma insert_desc_sorted (x : A) (l : list A) :
  StronglySorted (desc key) l -> StronglySorted (desc key) (insert_desc key x l).
Proof.
  induction l as [|y t IH]; simpl; intro Hs.
  - constructor; constructor.
  - apply StronglySorted_inv in Hs. destruct Hs as [Ht Hy].
    destruct (Qlt_bool (key x) (key y)) eqn:E.
    + constructor; [now apply IH|].
      eapply Permutation_Forall; [apply insert_desc_perm|].
      constructor; [|exact Hy].
      apply Qlt_bool_iff in E. unfold desc. now apply Qlt_le_weak.
    + apply Qlt_bool_false_iff in E.
      constructor; [now constructor|].
      constructor; [exact E|].
      eapply Forall_impl; [|exact Hy].
      intros z Hz. unfold desc in *. eapply Qle_trans; eassumption.
Qed.

Lemma sort_desc_sorted (l : list A) : StronglySorted (desc key) (sort_desc key l).
Proof.
  induction l as [|x t IH]; simpl.
  - constructor.
  - now apply insert_desc_sorted.
Qed.

Lemma insert_desc_stable (q : Q) (x : A) (l : list A) :
  with_key key q (insert_desc key x l) = with_key key q (x :: l).
Proof.
  unfold with_key.
  induction l as [|y t IH]; simpl; [reflexivity|].
  destruct (Qlt_bool (key x) (key y)) eqn:E; [|reflexivity].
  simpl in *. rewrite IH.
  destruct (Qeq_bool (key x) q) eqn:Ex, (Qeq_bool (key y) q) eqn:Ey;
    try reflexivity.
  apply Qeq_bool_iff in Ex, Ey. apply Qlt_bool_iff in E.
  rewrite Ex, Ey in E. exfalso. exact (Qlt_irrefl _ E).
Qed.

Lemma sort_desc_stable (q : Q) (l : list A) :
  with_key key q (sort_desc key l) = with_key key q l.
Proof.
  induction l as [|x t IH]; simpl; [reflexivity|].
  rewrite insert_desc_stable. unfold with_key in *. simpl. now rewrite IH.
Qed.

Lemma sort_desc_spec (l : list A) : stable_sorted_desc key l (sort_desc key l).
Proof.
  split; [apply sort_desc_perm|].
  split; [apply sort_desc_sorted|].
  intro q. apply sort_desc_stable.
Qed.

Lemma sort_desc_length (l : list A) :
  List.length (sort_desc key l) = List.length l.
Proof. symmetry. apply Permutation_length, sort_desc_perm. Qed.

End SortDescFacts.

(** ** Lists without duplicates *)

Lemma NoDup_firstn {A : Type} (n : nat) (l : list A) :
  NoDup l -> NoDup (firstn n l).
Proof.
  revert n. induction l as [|x t IH]; intros [|n] Hnd; simpl; try constructor.
  - inversion Hnd as [|? ? Hx Ht]; subst.
    intro Hin. apply Hx. revert Hin. clear.
    revert n. induction t as [|y t IH]; intros [|n]; simpl; intuition eauto.
  - inversion Hnd; subst. now apply IH.
Qed.

Lemma In_firstn {A : Type} (n : nat) (l : list A) (x : A) :
  In x (firstn n l) -> In x l.
Proof.
  revert n. induction l as [|y t IH]; intros [|n]; simpl; intuition eauto.
Qed.

Lemma filter_keeps_distinct_keys {X K : Type} (keyof : X -> K) (keep : X -> bool) :
  forall xs : list X,
    NoDup (map keyof xs) -> NoDup (map keyof (filter keep xs)).
Proof.
  intros xs. induction xs as [|x rest IHrest]; intro Hdistinct; simpl.
  - exact Hdistinct.
  - simpl in Hdistinct. apply NoDup_cons_iff in Hdistinct.
    destruct Hdistinct as [Hfresh Hrest].
    destruct (keep x); simpl; [|exact (IHrest Hrest)].
    apply NoDup_cons; [|exact (IHrest Hrest)].
    intro Hseen. apply Hfresh.
    apply in_map_iff in Hseen. destruct Hseen as [y [Hkey Hy]].
    apply filter_In in Hy. destruct Hy as [Hy _].
    rewrite <- Hkey. now apply in_map.
Qed.

(** ** The rule engine *)

Section RuleFacts.
Import RuleBasedSuggestionEngine.

Lemma score_le_1 (w : WindowInfo) (m : mapping) (content : string) :
  (_calculate_window_score w m content <= 1)%Q.
Proof.
  unfold _calculate_window_score.
  eapply Qle_trans; [apply Q.le_min_l|closed_Qle].
Qed.

Lemma positive_scores_bounds (m : mapping) (content : string)
    (windows : list WindowInfo) :
  Forall (fun ws => (0 < snd ws)%Q /\ (snd ws <= 1)%Q)
         (positive_scores m content windows).
Proof.
  apply Forall_forall. intros ws Hin. unfold positive_scores in Hin.
  apply filter_In in Hin. destruct Hin as [Hin Hpos].
  apply in_map_iff in Hin. destruct Hin as [w [<- _]].
  split; [apply Qlt_bool_iff; exact Hpos|].
  cbn [snd]. apply score_le_1.
Qed.

Lemma positive_scores_windows (m : mapping) (content : string)
    (windows : list WindowInfo) :
  map fst (positive_scores m content windows)
  = filter (fun w => Qlt_bool 0 (_calculate_window_score w m content)) windows.
Proof.
  unfold positive_scores. rewrite filter_map_swap, map_map. simpl.
  apply map_id.
Qed.

Lemma scored_windows_hwnds (m : mapping) (content : string)
    (windows : list WindowInfo) :
  NoDup (map hwnd windows) ->
  NoDup (map hwnd (map fst (scored_windows m content windows))).
Proof.
  intro Hnd. unfold scored_windows.
  eapply Permutation_NoDup.
  - apply Permutation_map, Permutation_map, sort_desc_perm.
  - rewrite positive_scores_windows. now apply filter_keeps_distinct_keys.
Qed.

Lemma scored_windows_In (m : mapping) (content : string)
    (windows : list WindowInfo) (ws : WindowInfo * Q) :
  In ws (scored_windows m content windows) -> In (fst ws) windows.
Proof.
  intro Hin. unfold scored_windows in Hin.
  apply (Permutation_in _ (Permutation_sym (sort_desc_perm snd _))) in Hin.
  apply (in_map fst) in Hin. rewrite positive_scores_windows in Hin.
  apply filter_In in Hin. tauto.
Qed.

(** The windows of the primary suggestions: the first three of the
    ranking, none for a content type without a table. *)
Lemma primary_windows (content_type : string) (confidence : Q)
    (content : string) (windows : list WindowInfo) :
  map suggestion_window
      (_get_suggestions_for_type content_type confidence content windows)
  = match lookup content_type content_mappings with
    | None => []
    | Some m => firstn 3 (map fst (scored_windows m content windows))
    end.
Proof.
  unfold _get_suggestions_for_type.
  destruct (lookup content_type content_mappings) as [m|]; [|reflexivity].
  rewrite map_map, firstn_map. apply map_ext. intros [w q]. reflexivity.
Qed.

Lemma primary_hwnds_NoDup (content_type : string) (confidence : Q)
    (content : string) (windows : list WindowInfo) :
  NoDup (map hwnd windows) ->
  NoDup (map suggestion_hwnd
             (_get_suggestions_for_type content_type confidence content windows)).
Proof.
  intro Hnd.
  change (map suggestion_hwnd ?l) with (map (fun s => hwnd (suggestion_window s)) l).
  rewrite <- map_map, primary_windows.
  destruct (lookup content_type content_mappings) as [m|]; [|constructor].
  rewrite <- firstn_map. apply NoDup_firstn. now apply scored_windows_hwnds.
Qed.

Lemma primary_length (content_type : string) (confidence : Q)
    (content : string) (windows : list WindowInfo) :
  (List.length (_get_suggestions_for_type content_type confidence content windows)
   <= 3)%nat.
Proof.
  unfold _get_suggestions_for_type.
  destruct (lookup content_type content_mappings) as [m|]; [|simpl; lia].
  rewrite length_map. apply firstn_le_length.
Qed.

Lemma recent_windows (windows : list WindowInfo) (exclude : list Suggestion) :
  map suggestion_window (_get_recent_windows windows exclude)
  = filter (fun window =>
              negb (existsb (Z.eqb (hwnd window)) (map suggestion_hwnd exclude))
              && negb (is_minimized window))
           windows.
Proof.
  unfold _get_recent_windows. rewrite map_map. simpl. apply map_id.
Qed.

Lemma recent_hwnds_NoDup (windows : list WindowInfo) (exclude : list Suggestion) :
  NoDup (map hwnd windows) ->
  NoDup (map suggestion_hwnd (_get_recent_windows windows exclude)).
Proof.
  intro Hnd.
  change (map suggestion_hwnd ?l) with (map (fun s => hwnd (suggestion_window s)) l).
  rewrite <- map_map, recent_windows. now apply filter_keeps_distinct_keys.
Qed.

Lemma recent_not_excluded (windows : list WindowInfo) (exclude : list Suggestion)
    (h : Z) :
  In h (map suggestion_hwnd exclude) ->
  ~ In h (map suggestion_hwnd (_get_recent_windows windows exclude)).
Proof.
  intros Hex Hin.
  change (map suggestion_hwnd ?l) with (map (fun s => hwnd (suggestion_window s)) l) in Hin.
  rewrite <- map_map, recent_windows in Hin.
  apply in_map_iff in Hin. destruct Hin as [w [Hw Hin]].
  apply filter_In in Hin. destruct Hin as [_ Hkeep].
  apply andb_true_iff in Hkeep. destruct Hkeep as [Hnot _].
  apply negb_true_iff in Hnot.
  assert (Hyes : existsb (Z.eqb (hwnd w)) (map suggestion_hwnd exclude) = true).
  { apply existsb_exists. exists h. split; [exact Hex|]. subst h. apply Z.eqb_refl. }
  congruence.
Qed.

End RuleFacts.

(** ** Claims about the rule engine *)

(** The primary suggestions are the first three of the ranking, each
    labelled with its tier and the confidence of the classification. *)
Lemma primary_suggestions_from_ranking (content_type : string) (confidence : Q)
    (content : string) (windows : list WindowInfo) :
  RuleBasedSuggestionEngine._get_suggestions_for_type content_type confidence
    content windows
  = map (fun ws : WindowInfo * Q =>
           ((content_type ++ " -> " ++ process_name (fst ws))%string, fst ws,
            PriorityLabel (RuleBasedSuggestionEngine.priority_of (snd ws)) confidence))
        (firstn 3 (ranker_output content_type content windows)).
Proof.
  unfold RuleBasedSuggestionEngine._get_suggestions_for_type, ranker_output.
  destruct (RuleBasedSuggestionEngine.lookup content_type
              RuleBasedSuggestionEngine.content_mappings) as [m|]; [|reflexivity].
  apply map_ext. intros [w q]. reflexivity.
Qed.

(** C8. For every category, content and candidate list, the ranking the
    rule engine sorts holds only scores above 0 and at most 1, is a
    rearrangement of the positively scored candidates, is descending in
    the score, and keeps candidates of equal score in the order of the
    candidate list. *)
Theorem ranker_output_positive_clamped_sorted_stable :
  forall (content_type content : string) (windows : list WindowInfo),
    let encountered := ranker_input content_type content windows in
    let output := ranker_output content_type content windows in
    Forall (fun ws => (0 < snd ws)%Q /\ (snd ws <= 1)%Q) output
    /\ Permutation encountered output
    /\ StronglySorted (fun a b => (snd b <= snd a)%Q) output
    /\ forall q : Q,
         filter (fun ws => Qeq_bool (snd ws) q) output
         = filter (fun ws => Qeq_bool (snd ws) q) encountered.
Proof.
  intros content_type content windows encountered output.
  subst encountered output. unfold ranker_input, ranker_output.
  destruct (RuleBasedSuggestionEngine.lookup content_type
              RuleBasedSuggestionEngine.content_mappings) as [m|].
  - unfold RuleBasedSuggestionEngine.scored_windows.
    destruct (sort_desc_spec snd
                (RuleBasedSuggestionEngine.positive_scores m content windows))
      as [Hperm [Hsorted Hstable]].
    split; [|split; [exact Hperm|split; [exact Hsorted|exact Hstable]]].
    eapply Permutation_Forall; [exact Hperm|].
    apply positive_scores_bounds.
  - repeat split; constructor.
Qed.

(** The ranking is the one of the doubles: [0.5 + 0.2 + 0.2] (one
    keyword and the bonus for a path) is [0.8999999999999999] and comes
    after [0.5 + 2 * 0.2 = 0.9] (two keywords), although its candidate
    stands first in the list. *)
Example ranking_follows_the_doubles :
  ContentClassifier.classify_content "12/34 56/78 90/12" = ("DATA", 0.7%Q)
  /\ ranker_input "DATA" "12/34 56/78 90/12" [notepad_data_file; notepad_csv_table]
     = [(notepad_data_file, (2026619832316723 # 2251799813685248)%Q);
        (notepad_csv_table, Float64.lit 0.9)]
  /\ ranker_output "DATA" "12/34 56/78 90/12" [notepad_data_file; notepad_csv_table]
     = [(notepad_csv_table, Float64.lit 0.9);
        (notepad_data_file, (2026619832316723 # 2251799813685248)%Q)]
  /\ RuleBasedSuggestionEngine.get_suggestions "12/34 56/78 90/12" None
       [notepad_data_file; notepad_csv_table]
     = Some [("DATA -> notepad.exe", notepad_csv_table, PriorityLabel "High" 0.7%Q);
             ("DATA -> notepad.exe", notepad_data_file, PriorityLabel "High" 0.7%Q)].
Proof. repeat split; vm_compute; reflexivity. Qed.

(** C7. When the candidate ids are pairwise distinct, the list the rule
    engine returns has at most 3 suggestions and no two of them refer to
    the same candidate id. *)
Theorem rule_suggestions_capped_and_distinct :
  forall (content : string) (current_window : option WindowInfo)
         (windows : list WindowInfo),
    NoDup (map hwnd windows) ->
    match RuleBasedSuggestionEngine.get_suggestions content current_window windows with
    | Some l => (List.length l <= 3)%nat /\ NoDup (map suggestion_hwnd l)
    | None => True
    end.
Proof.
  intros content cur windows Hnd.
  unfold RuleBasedSuggestionEngine.get_suggestions.
  destruct windows as [|w0 ws]; [exact I|].
  destruct (ContentClassifier.classify_content content) as [ct conf].
  set (windows := w0 :: ws) in *.
  set (primary := RuleBasedSuggestionEngine._get_suggestions_for_type ct conf content windows).
  assert (Hprimary : NoDup (map suggestion_hwnd primary))
    by now apply primary_hwnds_NoDup.
  set (suggestions :=
         if (List.length primary <? 3)%nat
         then primary ++ firstn (3 - List.length primary)
                                (RuleBasedSuggestionEngine._get_recent_windows windows primary)
         else primary).
  assert (Hall : NoDup (map suggestion_hwnd suggestions)).
  { unfold suggestions. destruct (List.length primary <? 3)%nat; [|exact Hprimary].
    rewrite map_app. apply NoDup_app.
    - exact Hprimary.
    - rewrite <- firstn_map. apply NoDup_firstn. now apply recent_hwnds_NoDup.
    - intros h Hin Hin'. rewrite <- firstn_map in Hin'. apply In_firstn in Hin'.
      exact (recent_not_excluded windows primary h Hin Hin'). }
  destruct suggestions as [|s l] eqn:E; [exact I|].
  rewrite <- E in *. split.
  - apply firstn_le_length.
  - rewrite <- firstn_map. now apply NoDup_firstn.
Qed.

Lemma rule_suggestions_capped_and_distinct_witness :
  NoDup (map hwnd [chrome_github; notepad_untitled; explorer_docs; hidden_tool])
  /\ match RuleBasedSuggestionEngine.get_suggestions "https://github.com/foo" None
             [chrome_github; notepad_untitled; explorer_docs; hidden_tool] with
     | Some l => (List.length l <= 3)%nat /\ NoDup (map suggestion_hwnd l)
     | None => True
     end.
Proof.
  assert (H : NoDup (map hwnd [chrome_github; notepad_untitled; explorer_docs; hidden_tool])).
  { simpl. repeat constructor; simpl; intuition discriminate. }
  split; [exact H|].
  exact (rule_suggestions_capped_and_distinct "https://github.com/foo" None
           [chrome_github; notepad_untitled; explorer_docs; hidden_tool] H).
Defined.

(** C1, as stated, fails: one candidate, minimized and without affinity
    to the content, and the rule engine returns nothing. *)
Lemma rule_suggest_nothing_for_minimized_candidate :
  [hidden_tool] <> []
  /\ RuleBasedSuggestionEngine.get_suggestions "hello" None [hidden_tool] = None.
Proof. split; [discriminate|reflexivity]. Qed.

(** C1, amended. For every content and every candidate list that holds a
    candidate that is not minimized, the rule engine returns a non-empty
    list of suggestions. *)
Theorem rule_suggest_nonempty_when_some_candidate_visible :
  forall (content : string) (current_window : option WindowInfo)
         (windows : list WindowInfo),
    (exists w, In w windows /\ is_minimized w = false) ->
    exists s l,
      RuleBasedSuggestionEngine.get_suggestions content current_window windows
      = Some (s :: l).
Proof.
  intros content cur windows [w [Hin Hvis]].
  unfold RuleBasedSuggestionEngine.get_suggestions.
  destruct windows as [|w0 ws]; [destruct Hin|].
  destruct (ContentClassifier.classify_content content) as [ct conf].
  set (windows := w0 :: ws) in *.
  destruct (RuleBasedSuggestionEngine._get_suggestions_for_type ct conf content windows)
    as [|p ps].
  - simpl List.length. simpl Nat.ltb. cbv iota. simpl app. simpl Nat.sub.
    assert (Hrecent :
              In w (map suggestion_window
                        (RuleBasedSuggestionEngine._get_recent_windows windows []))).
    { rewrite recent_windows. apply filter_In. split; [exact Hin|].
      simpl. now rewrite Hvis. }
    destruct (RuleBasedSuggestionEngine._get_recent_windows windows []) as [|r rs];
      [destruct Hrecent|].
    simpl. eauto.
  - destruct (List.length (p :: ps) <? 3)%nat; simpl; eauto.
Qed.

Lemma rule_suggest_nonempty_when_some_candidate_visible_witness :
  (exists w, In w [hidden_tool; notepad_untitled] /\ is_minimized w = false)
  /\ exists s l,
       RuleBasedSuggestionEngine.get_suggestions "hello" None
         [hidden_tool; notepad_untitled]
       = Some (s :: l).
Proof.
  assert (H : exists w, In w [hidden_tool; notepad_untitled] /\ is_minimized w = false).
  { exists notepad_untitled. split; [simpl; auto|reflexivity]. }
  split; [exact H|].
  exact (rule_suggest_nonempty_when_some_candidate_visible "hello" None
           [hidden_tool; notepad_untitled] H).
Defined.

(** C4. The classifier tags a path as [FILE], but the affinity tables are
    keyed by [FILE_PATH]: for content of category [FILE] no candidate is
    scored and no primary suggestion is produced, whatever the
    candidates; a file explorer only enters as a "Recent" filler, although
    the [FILE_PATH] table would give it the base score 0.8. *)
Theorem file_content_yields_no_affinity_suggestions :
  ContentClassifier.classify_content "/home/user/notes.txt" = ("FILE", 0.9%Q)
  /\ RuleBasedSuggestionEngine.lookup "FILE" RuleBasedSuggestionEngine.content_mappings
     = None
  /\ (forall (confidence : Q) (content : string) (windows : list WindowInfo),
        RuleBasedSuggestionEngine._get_suggestions_for_type "FILE" confidence content
          windows = [])
  /\ RuleBasedSuggestionEngine.get_suggestions "/home/user/notes.txt" None [explorer_docs]
     = Some [("Recent -> explorer.exe", explorer_docs, RecentLabel)]
  /\ exists m,
       RuleBasedSuggestionEngine.lookup "FILE_PATH"
         RuleBasedSuggestionEngine.content_mappings = Some m
       /\ RuleBasedSuggestionEngine.base_score
            (RuleBasedSuggestionEngine.process_lower_of explorer_docs) m = 0.8%Q.
Proof.
  split; [reflexivity|]. split; [reflexivity|]. split; [reflexivity|].
  split; [reflexivity|]. eexists. split; reflexivity.
Qed.

(** ** The classifier *)

Section ClassifierFacts.
Import ContentClassifier.

Local Ltac constant_confidence :=
  split; unfold Qle; simpl; lia.

Local Ltac branch :=
  match goal with
  | |- is_confidence (if ?b then _ else _) => destruct b
  end.

Local Ltac fired H :=
  match type of H with
  | (if ?b then _ else _) = Some _ => destruct b; [|discriminate H]
  end;
  injection H as <-.

Lemma detect_url_confidence (content : string) (q : Q) :
  detect_url content = Some q -> is_confidence q.
Proof.
  unfold detect_url. intro H. fired H.
  branch; constant_confidence.
Qed.

Lemma detect_domain_confidence (content : string) (q : Q) :
  detect_domain content = Some q -> is_confidence q.
Proof. unfold detect_domain. intro H. fired H. constant_confidence. Qed.

Lemma detect_email_address_confidence (content : string) (q : Q) :
  detect_email_address content = Some q -> is_confidence q.
Proof.
  unfold detect_email_address. intro H.
  destruct (Py.has_char "@" content && Py.has_char "." content)%bool; [|discriminate H].
  fired H. branch; constant_confidence.
Qed.

Lemma detect_email_content_confidence (content : string) (q : Q) :
  detect_email_content content = Some q -> is_confidence q.
Proof.
  unfold detect_email_content. intro H. fired H.
  split.
  - apply Q.min_glb; [unfold Qle; simpl; lia|].
    apply Qplus_nonneg; [unfold Qle; simpl; lia|].
    apply Qmult_le_0_compat; [apply count_nonneg|unfold Qle; simpl; lia].
  - eapply Qle_trans; [apply Q.le_min_l|]. unfold Qle; simpl; lia.
Qed.

Lemma detect_file_confidence (content : string) (q : Q) :
  detect_file content = Some q -> is_confidence q.
Proof.
  unfold detect_file. intro H. fired H.
  branch; constant_confidence.
Qed.

Lemma detect_password_confidence (content : string) (q : Q) :
  detect_password content = Some q -> is_confidence q.
Proof.
  unfold detect_password. intro H. fired H.
  branch; constant_confidence.
Qed.

Lemma detect_code_confidence (content : string) (q : Q) :
  detect_code content = Some q -> is_confidence q.
Proof.
  unfold detect_code. intro H.
  destruct (Qle_bool 0.3 (code_score content)) eqn:E; [|discriminate H].
  injection H as <-. apply Qle_bool_iff in E.
  split.
  - apply Q.min_glb; [unfold Qle; simpl; lia|].
    apply Qplus_nonneg; [unfold Qle; simpl; lia|].
    eapply Qle_trans; [|exact E]. unfold Qle; simpl; lia.
  - eapply Qle_trans; [apply Q.le_min_l|]. unfold Qle; simpl; lia.
Qed.

Lemma detect_table_confidence (content : string) (q : Q) :
  detect_table content = Some q -> is_confidence q.
Proof.
  unfold detect_table. intro H. fired H.
  branch; constant_confidence.
Qed.

Lemma detect_numeric_confidence (content : string) (q : Q) :
  detect_numeric content = Some q -> is_confidence q.
Proof. unfold detect_numeric. intro H. fired H. constant_confidence. Qed.

(** The result of the cascade, whichever detector decides. *)
Lemma classify_content_range (content : string) :
  In (fst (classify_content content)) categories
  /\ is_confidence (snd (classify_content content)).
Proof.
  unfold classify_content.
  destruct (detect_url content) eqn:E1;
    [split; [simpl; tauto|eapply detect_url_confidence; eassumption]|].
  destruct (detect_domain content) eqn:E2;
    [split; [simpl; tauto|eapply detect_domain_confidence; eassumption]|].
  destruct (detect_email_address content) eqn:E3;
    [split; [simpl; tauto|eapply detect_email_address_confidence; eassumption]|].
  destruct (detect_email_content content) eqn:E4;
    [split; [simpl; tauto|eapply detect_email_content_confidence; eassumption]|].
  destruct (detect_file content) eqn:E5;
    [split; [simpl; tauto|eapply detect_file_confidence; eassumption]|].
  destruct (detect_password content) eqn:E6;
    [split; [simpl; tauto|eapply detect_password_confidence; eassumption]|].
  destruct (detect_code content) eqn:E7;
    [split; [simpl; tauto|eapply detect_code_confidence; eassumption]|].
  destruct (detect_table content) eqn:E8;
    [split; [simpl; tauto|eapply detect_table_confidence; eassumption]|].
  destruct (detect_numeric content) eqn:E9;
    [split; [simpl; tauto|eapply detect_numeric_confidence; eassumption]|].
  split; [simpl; tauto|].
  simpl snd. destruct (20 <? String.length content)%nat; constant_confidence.
Qed.

Lemma classify_content_not_empty (content : string) :
  fst (classify_content content) <> EmptyString.
Proof.
  destruct (classify_content_range content) as [Hin _].
  intro Hempty. rewrite Hempty in Hin. simpl in Hin.
  intuition discriminate.
Qed.

End ClassifierFacts.

(** C10. [classify_content] is a function on all strings: every input,
    the empty one included, has one result, with one of the seven
    categories and a confidence between 0 and 1; the empty string is
    [TEXT] at 0.6. *)
Theorem classify_content_total :
  (forall content : string,
     exists (category : string) (confidence : Q),
       ContentClassifier.classify_content content = (category, confidence)
       /\ In category categories
       /\ (0 <= confidence)%Q /\ (confidence <= 1)%Q)
  /\ ContentClassifier.classify_content "" = ("TEXT", 0.6%Q).
Proof.
  split; [|reflexivity].
  intro content.
  destruct (classify_content_range content) as [Hcat [Hlo Hhi]].
  destruct (ContentClassifier.classify_content content) as [category confidence].
  exists category, confidence. simpl in *. tauto.
Qed.

(** The FILE detector on a path written with forward slashes: once the
    WEB and EMAIL detectors have passed, it decides. *)
Lemma slash_path_is_file (content : string) :
  ContentClassifier.detect_url content = None ->
  ContentClassifier.detect_domain content = None ->
  ContentClassifier.detect_email_address content = None ->
  ContentClassifier.detect_email_content content = None ->
  Py.has_char "/"%char content = true ->
  Py.split_ws content = [content] ->
  ContentClassifier.classify_content content
  = ("FILE",
     if existsb (Py.endswith (ContentClassifier.content_lower_of content))
                ContentClassifier.file_extensions
     then 0.9%Q else 0.7%Q).
Proof.
  intros Hurl Hdomain Haddr Hmail Hslash Htoken.
  unfold ContentClassifier.classify_content.
  rewrite Hurl, Hdomain, Haddr, Hmail.
  unfold ContentClassifier.detect_file.
  rewrite Hslash, Htoken, orb_true_r. reflexivity.
Qed.

(** C5. The FILE detector looks for two consecutive backslashes, not for
    one: a path written with single backslashes is one token, holds a
    backslash, ends with a known extension and passes the WEB and EMAIL
    detectors, and yet it is classified as [TEXT], not as [FILE] at 0.9. *)
Theorem backslash_path_is_not_classified_as_file :
  Py.has_char Py.BACKSLASH windows_path = true
  /\ Py.split_ws windows_path = [windows_path]
  /\ ContentClassifier.detect_url windows_path = None
  /\ ContentClassifier.detect_domain windows_path = None
  /\ ContentClassifier.detect_email_address windows_path = None
  /\ ContentClassifier.detect_email_content windows_path = None
  /\ Py.endswith (ContentClassifier.content_lower_of windows_path) ".txt" = true
  /\ Py.contains ContentClassifier.double_backslash windows_path = false
  /\ ContentClassifier.classify_content windows_path = ("TEXT", 0.9%Q).
Proof. repeat split; reflexivity. Qed.

(** ** The score parser *)



(** ** The model engine *)

(** The handler of a [try] decides when its body raises. *)
Lemma try_except_handles {St A : Type} (m handler : M St A) (st st' : St) :
  m st = (Exc, st') -> try_except m handler st = handler st'.
Proof. intro H. unfold try_except. now rewrite H. Qed.

Lemma try_except_ret_ok {St A : Type} (m : M St A) (a : A) (st : St) :
  exists r st', try_except m (ret a) st = (Ok r, st').
Proof.
  unfold try_except, ret. destruct (m st) as [[r|] st']; eauto.
Qed.

Lemma rank_suggestions_windows (i : nat) (l : list (WindowInfo * Q)) :
  map suggestion_window (LLMSuggestionEngine.rank_suggestions i l) = map fst l.
Proof.
  revert i. induction l as [|[w q] t IH]; intro i; simpl; [reflexivity|].
  now rewrite IH.
Qed.

Lemma rank_suggestions_labels (i : nat) (l : list (WindowInfo * Q)) :
  map suggestion_label (LLMSuggestionEngine.rank_suggestions i l)
  = map (fun ws => ScoreLabel (snd ws)) l.
Proof.
  revert i. induction l as [|[w q] t IH]; intro i; simpl; [reflexivity|].
  now rewrite IH.
Qed.

Lemma rank_suggestions_reasons (l : list (WindowInfo * Q)) :
  map suggestion_reason (LLMSuggestionEngine.rank_suggestions 0 (firstn 3 l))
  = firstn (List.length l) ["AI Rank #1"; "AI Rank #2"; "AI Rank #3"].
Proof.
  destruct l as [|[w1 q1] [|[w2 q2] [|[w3 q3] t]]]; try reflexivity.
  simpl. now rewrite firstn_nil.
Qed.

Section EngineFacts.
Context {St : Type}.
Variable run_inference :
  string -> forall (max_tokens : nat) (temperature : Q), M St (option string).

Import LLMSuggestionEngine.

Lemma _query_llm_uninitialized (prompt : string) (max_tokens : nat)
    (temperature : Q) (st : St) :
  _query_llm run_inference false prompt max_tokens temperature st = (Ok None, st).
Proof. reflexivity. Qed.

(** A query that raises gives [None]: the exception stops in
    [_query_llm]. *)
Lemma _query_llm_raises (prompt : string) (max_tokens : nat)
    (temperature : Q) (st : St) :
  fst (run_inference prompt max_tokens temperature st) = Exc ->
  _query_llm run_inference true prompt max_tokens temperature st
  = (Ok None, snd (run_inference prompt max_tokens temperature st)).
Proof.
  intro H. unfold _query_llm, try_except, bind, ret. simpl.
  destruct (run_inference prompt max_tokens temperature st) as [[r|] st'];
    simpl in *; [discriminate H|reflexivity].
Qed.

Lemma first_keyword_not_empty (d : list (string * string)) (s r : string) :
  Forall (fun kv => snd kv <> EmptyString) d ->
  first_keyword d s = Some r -> r <> EmptyString.
Proof.
  induction d as [|[k v] t IH]; simpl; intros Hall H; [discriminate H|].
  inversion Hall as [|? ? Hv Ht]; subst.
  destruct (Py.contains k s); [|now apply IH].
  injection H as <-. exact Hv.
Qed.

Lemma type_keywords_not_empty :
  Forall (fun kv : string * string => snd kv <> EmptyString) type_keywords.
Proof. unfold type_keywords. repeat constructor; discriminate. Qed.

(** Classification never raises and never gives the empty string. *)
Lemma _classify_content_ok (is_initialized : bool) (content : string) (st : St) :
  exists content_type st',
    _classify_content run_inference is_initialized content st
    = (Ok content_type, st')
    /\ content_type <> EmptyString.
Proof.
  unfold _classify_content.
  pose proof (classify_content_not_empty content) as Hrule.
  destruct (ContentClassifier.classify_content content) as [rule_type conf].
  simpl in Hrule.
  destruct (Qle_bool 0.8 conf); [unfold ret; eauto|].
  unfold try_except, bind.
  destruct (_query_llm run_inference is_initialized _ 32 0.1%Q st)
    as [[response|] st1]; [|unfold ret; eauto].
  destruct response as [[|c r]|]; try (unfold ret; eauto).
  destruct (first_keyword type_keywords (Py.strip (Py.lower (String c r))))
    as [result_type|] eqn:E; unfold ret; [|eauto].
  exists result_type, st1. split; [reflexivity|].
  eapply first_keyword_not_empty; [apply type_keywords_not_empty|exact E].
Qed.

(** With the engine not initialized the backend is not called. *)
Lemma _classify_content_uninitialized (content : string) (st : St) :
  exists content_type,
    _classify_content run_inference false content st = (Ok content_type, st).
Proof.
  unfold _classify_content.
  destruct (ContentClassifier.classify_content content) as [rule_type conf].
  destruct (Qle_bool 0.8 conf); eexists; reflexivity.
Qed.

Lemma _score_window_ok (is_initialized : bool) (content content_type : string)
    (window : WindowInfo) (st : St) :
  exists score st',
    _score_window run_inference is_initialized content content_type window st
    = (Ok score, st').
Proof. unfold _score_window. apply try_except_ret_ok. Qed.

Lemma score_windows_ok (is_initialized : bool) (content content_type : string)
    (windows : list WindowInfo) (st : St) :
  exists window_scores st',
    score_windows run_inference is_initialized content content_type windows st
    = (Ok window_scores, st').
Proof.
  revert st. induction windows as [|w t IH]; intro st; simpl.
  - unfold ret. eauto.
  - unfold bind.
    destruct (_score_window_ok is_initialized content content_type w st)
      as [score [st1 ->]].
    destruct (IH st1) as [l [st2 ->]].
    unfold ret. eauto.
Qed.

Lemma score_windows_uninitialized (content content_type : string)
    (windows : list WindowInfo) (st : St) :
  score_windows run_inference false content content_type windows st = (Ok [], st).
Proof.
  induction windows as [|w t IH]; simpl; [reflexivity|].
  unfold bind. unfold _score_window at 1. unfold try_except, bind.
  rewrite _query_llm_uninitialized. unfold ret at 1. rewrite IH. reflexivity.
Qed.

(** The decision of [get_suggestions] once classification gave
    [content_type]. *)
Lemma get_suggestions_after_classification (content : string)
    (current_window : option WindowInfo) (w0 : WindowInfo)
    (ws : list WindowInfo) (st st1 : St) (content_type : string) :
  _classify_content run_inference true content st = (Ok content_type, st1) ->
  exists window_scores st2,
    score_windows run_inference true content content_type
      (firstn 5 (w0 :: ws)) st1 = (Ok window_scores, st2)
    /\ get_suggestions run_inference true content current_window (w0 :: ws) st
       = (Ok (if (List.length window_scores <? 2)%nat then None
              else Some (rank_suggestions 0
                           (firstn 3 (sort_desc snd window_scores)))),
          st2).
Proof.
  intro Hclass.
  destruct (_classify_content_ok true content st) as [ct [st1' [Hct Hne]]].
  rewrite Hclass in Hct. injection Hct as <- <-.
  destruct (score_windows_ok true content content_type (firstn 5 (w0 :: ws)) st1)
    as [window_scores [st2 Hscores]].
  exists window_scores, st2. split; [exact Hscores|].
  unfold get_suggestions, get_suggestions_with. cbn [negb orb].
  unfold try_except, bind at 1. rewrite Hclass.
  destruct content_type as [|c r]; [congruence|].
  unfold bind. rewrite Hscores.
  destruct (List.length window_scores <? 2)%nat; reflexivity.
Qed.

End EngineFacts.

(** ** The scoring loop against the backend and the parser *)

Lemma lstrip_idempotent (s : string) : Py.lstrip (Py.lstrip s) = Py.lstrip s.
Proof.
  induction s as [|c r IH]; [reflexivity|].
  cbn [Py.lstrip]. destruct (Py.isspace c) eqn:E; [exact IH|].
  cbn [Py.lstrip]. now rewrite E.
Qed.

Lemma rstrip_cons (c : ascii) (r : string) :
  Py.rstrip (String c r)
  = match Py.rstrip r with
    | EmptyString => if Py.isspace c then EmptyString else String c EmptyString
    | t => String c t
    end.
Proof. reflexivity. Qed.

Lemma rstrip_idempotent (s : string) : Py.rstrip (Py.rstrip s) = Py.rstrip s.
Proof.
  induction s as [|c r IH]; [reflexivity|].
  rewrite (rstrip_cons c r). destruct (Py.rstrip r) as [|d t] eqn:E.
  - destruct (Py.isspace c) eqn:Ec; [reflexivity|].
    rewrite rstrip_cons. cbn [Py.rstrip]. now rewrite Ec.
  - rewrite rstrip_cons, IH. reflexivity.
Qed.

(** What [lstrip] leaves does not start with whitespace, and [rstrip]
    keeps such a start. *)
Lemma lstrip_head (s : string) :
  match Py.lstrip s with
  | EmptyString => True
  | String c _ => Py.isspace c = false
  end.
Proof.
  induction s as [|c r IH]; [exact I|].
  cbn [Py.lstrip]. destruct (Py.isspace c) eqn:E; [exact IH|exact E].
Qed.

Lemma lstrip_rstrip (s : string) :
  match s with
  | EmptyString => True
  | String c _ => Py.isspace c = false
  end ->
  Py.lstrip (Py.rstrip s) = Py.rstrip s.
Proof.
  destruct s as [|c r]; [reflexivity|]. intro Hc.
  rewrite rstrip_cons. destruct (Py.rstrip r) as [|d t].
  - rewrite Hc. cbn [Py.lstrip]. now rewrite Hc.
  - cbn [Py.lstrip]. now rewrite Hc.
Qed.

Lemma strip_idempotent (s : string) : Py.strip (Py.strip s) = Py.strip s.
Proof.
  unfold Py.strip.
  rewrite (lstrip_rstrip (Py.lstrip s) (lstrip_head s)).
  apply rstrip_idempotent.
Qed.

(** The parser strips its input first: it gives the same on a reply and
    on the stripped reply, and nothing on a blank one. *)
Lemma parse_strip (s : string) : ScoreParser.parse (Py.strip s) = ScoreParser.parse s.
Proof.
  unfold ScoreParser.parse, ScoreParser.clean_response.
  now rewrite strip_idempotent.
Qed.

Lemma parse_blank (s : string) :
  Py.strip s = EmptyString -> ScoreParser.parse s = None.
Proof.
  intro H. unfold ScoreParser.parse, ScoreParser.clean_response.
  rewrite H. reflexivity.
Qed.

Section LoopFacts.
Context {St : Type}.
Variable run_inference :
  string -> forall (max_tokens : nat) (temperature : Q), M St (option string).

(** Scoring one candidate: one query, and the parser on its outcome. *)
Lemma _score_window_reply (content content_type : string) (window : WindowInfo)
    (st : St) :
  LLMSuggestionEngine._score_window run_inference true content content_type window st
  = (Ok (reply_score
           (fst (run_inference (LLMSuggestionEngine.scoring_prompt content_type window)
                   10%nat 0.1%Q st))),
     snd (run_inference (LLMSuggestionEngine.scoring_prompt content_type window)
            10%nat 0.1%Q st)).
Proof.
  unfold LLMSuggestionEngine._score_window, LLMSuggestionEngine._query_llm.
  unfold try_except, bind, ret. change (negb true) with false. cbv beta iota.
  destruct (run_inference (LLMSuggestionEngine.scoring_prompt content_type window)
              10%nat 0.1%Q st) as [[[reply|]|] st']; cbn [fst snd reply_score];
    try reflexivity.
  destruct reply as [|c r]; [reflexivity|].
  destruct (Py.strip (String c r)) as [|c' r'] eqn:E.
  - now rewrite (parse_blank _ E).
  - rewrite <- E, strip_idempotent, E, <- (parse_strip (String c r)), E.
    reflexivity.
Qed.

(** The loop of the engine collects the candidates that yield a
    parseable score. *)
Lemma score_windows_parseable (content content_type : string)
    (windows : list WindowInfo) (st : St) :
  exists st',
    LLMSuggestionEngine.score_windows run_inference true content content_type
      windows st
    = (Ok (parseable_scores run_inference content_type windows st), st').
Proof.
  revert st. induction windows as [|w t IH]; intro st.
  - exists st. reflexivity.
  - cbn [LLMSuggestionEngine.score_windows parseable_scores].
    unfold bind at 1. rewrite _score_window_reply.
    set (outcome := run_inference (LLMSuggestionEngine.scoring_prompt content_type w)
                      10%nat 0.1%Q st).
    destruct (IH (snd outcome)) as [st' Hrest].
    exists st'. unfold bind. rewrite Hrest. unfold ret.
    destruct (reply_score (fst outcome)); reflexivity.
Qed.

End LoopFacts.

(** ** Claims about the model engine *)

(** C2. An engine that is not initialized reports insufficient evidence
    and asks nothing.  An initialized one classifies the content, and
    then, whatever the backend answers: when fewer than 2 of the first 5
    candidates yield a parseable score it returns the fallback value
    [None]; otherwise it returns the first 3 of the candidates that
    yielded one, sorted by score, descending and stable, labelled
    "AI Rank #1", "AI Rank #2", "AI Rank #3" in this order, each with its
    window and its normalized score. *)
Theorem model_suggest_decision_rule :
  forall (St : Type)
         (run_inference : string -> nat -> Q -> M St (option string))
         (content : string)
         (current_window : option WindowInfo) (windows : list WindowInfo)
         (st : St),
    LLMSuggestionEngine.get_suggestions run_inference false content
      current_window windows st = (Ok None, st)
    /\ match LLMSuggestionEngine._classify_content run_inference true content st with
       | (Exc, _) => False
       | (Ok content_type, st1) =>
           let scored :=
             parseable_scores run_inference content_type (firstn 5 windows) st1 in
           let answer :=
             fst (LLMSuggestionEngine.get_suggestions run_inference true
                    content current_window windows st) in
           if (List.length scored <? 2)%nat then answer = Ok None
           else
             exists ranked suggestions,
               stable_sorted_desc snd scored ranked
               /\ answer = Ok (Some suggestions)
               /\ suggestions
                  = LLMSuggestionEngine.rank_suggestions 0 (firstn 3 ranked)
               /\ map suggestion_reason suggestions
                  = firstn (List.length ranked)
                           ["AI Rank #1"; "AI Rank #2"; "AI Rank #3"]
               /\ map suggestion_window suggestions = map fst (firstn 3 ranked)
               /\ map suggestion_label suggestions
                  = map (fun ws => ScoreLabel (snd ws)) (firstn 3 ranked)
       end.
Proof.
  intros St run content cur windows st. split; [reflexivity|].
  destruct (_classify_content_ok run true content st) as [ct [st1 [Hclass _]]].
  rewrite Hclass. cbv zeta.
  destruct windows as [|w0 ws]; [reflexivity|].
  destruct (get_suggestions_after_classification run content cur w0 ws st st1 ct Hclass)
    as [l [st2 [Hscores Hget]]].
  destruct (score_windows_parseable run content ct (firstn 5 (w0 :: ws)) st1)
    as [st2' Hloop].
  rewrite Hloop in Hscores. injection Hscores as <- _.
  rewrite Hget. cbn [fst].
  destruct (List.length _ <? 2)%nat; [reflexivity|].
  eexists. eexists.
  split; [apply sort_desc_spec|]. split; [reflexivity|]. split; [reflexivity|].
  split; [apply rank_suggestions_reasons|].
  split; [apply rank_suggestions_windows|apply rank_suggestions_labels].
Qed.

(** C6. If an exception leaves the classification step, the model engine
    returns the fallback value [None] and scores no candidate: the
    backend, and the count of the calls made to it, are as the raise left
    them.  ([get_suggestions] is [get_suggestions_with] on the engine's
    own classification step.) *)
Theorem classification_exception_aborts_model_path :
  forall (St : Type)
         (run_inference : string -> nat -> Q -> M St (option string))
         (classify : string -> M (St * nat) string)
         (content : string) (current_window : option WindowInfo)
         (windows : list WindowInfo) (s s' : St * nat),
    windows <> [] ->
    classify content s = (Exc, s') ->
    LLMSuggestionEngine.get_suggestions_with (counting run_inference) true
      classify content current_window windows s
    = (Ok None, s').
Proof.
  intros St run classify content cur windows s s' Hne Hraise.
  destruct windows as [|w0 ws]; [congruence|].
  unfold LLMSuggestionEngine.get_suggestions_with. cbn [negb orb].
  apply try_except_handles. unfold bind. now rewrite Hraise.
Qed.

Lemma classification_exception_aborts_model_path_witness :
  LLMSuggestionEngine.get_suggestions_with (counting flaky_backend) true
    unguarded_classification "hello" None [chrome_github; notepad_untitled]
    (0%nat, 0%nat)
  = (Ok None, (1%nat, 1%nat)).
Proof.
  apply (classification_exception_aborts_model_path nat flaky_backend
           unguarded_classification "hello" None
           [chrome_github; notepad_untitled] (0%nat, 0%nat) (1%nat, 1%nat)).
  - discriminate.
  - reflexivity.
Defined.

(** ** Claims about the controller *)

(** C9. For content that is empty or only whitespace the entry point of
    the controller returns the empty list and leaves the world as it
    was: no window is listed, no status is sent, the backend of the
    model is not queried. *)
Theorem blank_content_returns_empty_at_once :
  forall (St : Type)
         (run_inference : string -> nat -> Q -> M St (option string))
         (llm_engine : option bool) (LLM_AVAILABLE : bool)
         (content : string) (w : MultitaskController.World St),
    Py.strip content = EmptyString ->
    MultitaskController.get_suggestions_for_content run_inference llm_engine
      LLM_AVAILABLE content w
    = (Ok [], w).
Proof.
  intros St run engine avail content w Hblank.
  unfold MultitaskController.get_suggestions_for_content.
  rewrite Hblank. reflexivity.
Qed.

Lemma blank_content_returns_empty_at_once_witness :
  MultitaskController.get_suggestions_for_content flaky_backend (Some true) true
    (String " " (String Py.TAB (String Py.LF " "))) sample_world
  = (Ok [], sample_world).
Proof.
  apply (blank_content_returns_empty_at_once nat flaky_backend (Some true) true
           (String " " (String Py.TAB (String Py.LF " "))) sample_world).
  reflexivity.
Defined.

(** For comparison, content that is not blank goes through the window
    list, the model and the final status. *)
Example controller_consults_collaborators :
  MultitaskController.get_suggestions_for_content flaky_backend (Some true) true
    "hello" sample_world
  = (Ok [("AI Rank #1", chrome_github, ScoreLabel (Float64.lit 0.8));
         ("AI Rank #2", notepad_untitled, ScoreLabel (Float64.lit 0.8))],
     MultitaskController.mkWorld 3%nat [chrome_github; notepad_untitled] None
       [MultitaskController.Status "Ready - 2 suggestions";
        MultitaskController.Status "AI analyzing...";
        MultitaskController.ForegroundWindow;
        MultitaskController.ListWindows]).
Proof. vm_compute. reflexivity. Qed.

(* ================================================================== *)
(** * Further properties of the code *)
(* ================================================================== *)

(** ** The cascade of the classifier *)

Section CascadeFacts.
Import ContentClassifier.

Local Ltac fire H :=
  match type of H with
  | (if ?b then _ else _) = Some _ => destruct b eqn:?; [|discriminate H]
  end;
  injection H as <-.

Lemma detect_url_band (content : string) (q : Q) :
  detect_url content = Some q -> (0.85 <= q)%Q /\ (q <= 0.95)%Q.
Proof.
  unfold detect_url. intro H. fire H.
  match goal with |- context [if ?b then _ else _] => destruct b end;
    split; unfold Qle; simpl; lia.
Qed.

Lemma detect_domain_value (content : string) (q : Q) :
  detect_domain content = Some q -> q = 0.85%Q.
Proof. unfold detect_domain. intro H. fire H. reflexivity. Qed.

Lemma detect_code_band (content : string) (q : Q) :
  detect_code content = Some q -> (0.8 <= q)%Q /\ (q <= 0.95)%Q.
Proof.
  unfold detect_code. intro H.
  destruct (Qle_bool 0.3 (code_score content)) eqn:E; [|discriminate H].
  injection H as <-. apply Qle_bool_iff in E. split.
  - apply Q.min_glb; [unfold Qle; simpl; lia|].
    apply (Qle_trans _ (0.5 + 0.3)%Q); [unfold Qle; simpl; lia|].
    apply Qplus_le_compat; [apply Qle_refl|exact E].
  - apply Q.le_min_l.
Qed.

Lemma detect_email_content_band (content : string) (q : Q) :
  detect_email_content content = Some q -> in_confidence_band q.
Proof.
  unfold detect_email_content. intro H. fire H. split.
  - apply Q.min_glb; [unfold Qle; simpl; lia|].
    apply (Qle_trans _ (0.6 + 0)%Q); [unfold Qle; simpl; lia|].
    apply Qplus_le_compat; [apply Qle_refl|].
    apply Qmult_le_0_compat; [apply count_nonneg|unfold Qle; simpl; lia].
  - eapply Qle_trans; [apply Q.le_min_l|]. unfold Qle; simpl; lia.
Qed.

(** What the result of the cascade tells about the detectors. *)
Lemma classify_content_cases (content : string) :
  let r := classify_content content in
  (fst r = "WEB" /\ detect_url content = Some (snd r))
  \/ (fst r = "WEB" /\ detect_url content = None
      /\ detect_domain content = Some (snd r))
  \/ (fst r = "EMAIL" /\ detect_email_address content = Some (snd r))
  \/ (fst r = "EMAIL" /\ detect_email_content content = Some (snd r))
  \/ (fst r = "FILE" /\ detect_file content = Some (snd r))
  \/ (fst r = "PASSWORD" /\ detect_password content = Some (snd r))
  \/ (fst r = "CODE" /\ detect_code content = Some (snd r))
  \/ (fst r = "DATA" /\ detect_table content = Some (snd r))
  \/ (fst r = "DATA" /\ detect_numeric content = Some (snd r))
  \/ (fst r = "TEXT"
      /\ snd r = if (20 <? String.length content)%nat then 0.9%Q else 0.6%Q).
Proof.
  unfold classify_content.
  destruct (detect_url content); [simpl; tauto|].
  destruct (detect_domain content); [simpl; tauto|].
  destruct (detect_email_address content); [simpl; tauto|].
  destruct (detect_email_content content); [simpl; tauto|].
  destruct (detect_file content); [simpl; tauto|].
  destruct (detect_password content); [simpl; tauto|].
  destruct (detect_code content); [simpl; tauto|].
  destruct (detect_table content); [simpl; tauto|].
  destruct (detect_numeric content); [simpl; tauto|].
  simpl. tauto.
Qed.

Lemma split_not_empty (sep : ascii) (s : string) :
  (1 <= List.length (Py.split sep s))%nat.
Proof.
  induction s as [|c r IH]; simpl; [lia|].
  destruct (Ascii.eqb c sep); simpl; [lia|].
  destruct (Py.split sep r); simpl in *; lia.
Qed.

(** A string that holds the separator splits into two parts at least. *)
Lemma split_with_separator (sep : ascii) (s : string) :
  Py.has_char sep s = true -> (2 <= List.length (Py.split sep s))%nat.
Proof.
  induction s as [|c r IH]; simpl; [discriminate|].
  intro H. rewrite Ascii.eqb_sym in H.
  destruct (Ascii.eqb c sep); simpl.
  - pose proof (split_not_empty sep r). lia.
  - simpl in H. specialize (IH H).
    destruct (Py.split sep r); simpl in *; lia.
Qed.

End CascadeFacts.

(** X1. The confidence of a classification is always between 0.6 and
    0.95. *)
Theorem classify_content_confidence_band :
  forall content : string,
    in_confidence_band (snd (ContentClassifier.classify_content content)).
Proof.
  intro content.
  pose proof (classify_content_cases content) as H. cbv zeta in H.
  destruct (ContentClassifier.classify_content content) as [cat q].
  simpl in *.
  destruct H as [[_ H]|[[_ [_ H]]|[[_ H]|[[_ H]|[[_ H]|[[_ H]|[[_ H]|[[_ H]|[[_ H]|[_ H]]]]]]]]]].
  - apply detect_url_band in H. destruct H as [Hlo Hhi]. split; [|exact Hhi].
    eapply Qle_trans; [|exact Hlo]. unfold Qle; simpl; lia.
  - apply detect_domain_value in H. subst q. split; unfold Qle; simpl; lia.
  - unfold ContentClassifier.detect_email_address in H.
    destruct (_ && _)%bool in H; [|discriminate H].
    cbv zeta in H.
    destruct (_ && _)%bool in H; [|discriminate H].
    injection H as <-.
    match goal with |- context [if ?b then _ else _] => destruct b end;
      split; unfold Qle; simpl; lia.
  - now apply detect_email_content_band in H.
  - unfold ContentClassifier.detect_file in H.
    destruct (_ && _)%bool in H; [|discriminate H].
    injection H as <-.
    match goal with |- context [if ?b then _ else _] => destruct b end;
      split; unfold Qle; simpl; lia.
  - unfold ContentClassifier.detect_password in H.
    destruct (_ && _)%bool in H; [|discriminate H].
    injection H as <-.
    match goal with |- context [if ?b then _ else _] => destruct b end;
      split; unfold Qle; simpl; lia.
  - apply detect_code_band in H. destruct H as [Hlo Hhi]. split; [|exact Hhi].
    eapply Qle_trans; [|exact Hlo]. unfold Qle; simpl; lia.
  - unfold ContentClassifier.detect_table in H.
    destruct (_ && _)%bool in H; [|discriminate H].
    injection H as <-.
    match goal with |- context [if ?b then _ else _] => destruct b end;
      split; unfold Qle; simpl; lia.
  - unfold ContentClassifier.detect_numeric in H.
    destruct (_ && _)%bool in H; [|discriminate H].
    injection H as <-. split; unfold Qle; simpl; lia.
  - subst q. destruct (20 <? String.length content)%nat; split; unfold Qle; simpl; lia.
Qed.

(** X2. A text without a space that holds a dot and ends (lowered and
    stripped) in one of the known top-level domains is WEB at 0.85 as
    soon as it does not start like a URL: the test on the number of
    dot-separated labels never fails, and an e-mail address on such a
    domain is WEB, not EMAIL. *)
Theorem bare_domain_wins_over_email :
  forall content : string,
    ContentClassifier.detect_url content = None ->
    Py.has_char "."%char content = true ->
    Py.has_char " "%char (Py.strip content) = false ->
    existsb (Py.endswith (ContentClassifier.content_lower_of content))
            ContentClassifier.domain_tlds = true ->
    ContentClassifier.classify_content content = ("WEB", 0.85%Q).
Proof.
  intros content Hurl Hdot Hspace Htld.
  unfold ContentClassifier.classify_content. rewrite Hurl.
  unfold ContentClassifier.detect_domain.
  rewrite Hdot, Hspace, Htld.
  pose proof (split_with_separator "."%char content Hdot) as Hparts.
  apply Nat.leb_le in Hparts. rewrite Hparts. reflexivity.
Qed.

Lemma bare_domain_wins_over_email_witness :
  Py.has_char "@"%char "user@example.com" = true
  /\ ContentClassifier.classify_content "user@example.com" = ("WEB", 0.85%Q).
Proof.
  split; [reflexivity|].
  apply (bare_domain_wins_over_email "user@example.com"); reflexivity.
Defined.

(** X3. A text classified PASSWORD is shorter than 50 characters, has no
    space, and has a digit and a letter. *)
Theorem password_only_for_short_tokens :
  forall content : string,
    fst (ContentClassifier.classify_content content) = "PASSWORD" ->
    (String.length content < 50)%nat
    /\ Py.has_char " "%char content = false
    /\ Py.any_char Py.isdigit content = true
    /\ Py.any_char Py.isalpha content = true.
Proof.
  intros content Hcat.
  pose proof (classify_content_cases content) as H. cbv zeta in H.
  rewrite Hcat in H.
  destruct H as [[H _]|[[H _]|[[H _]|[[H _]|[[H _]|[[_ H]|[[H _]|[[H _]|[[H _]|[H _]]]]]]]]]];
    try discriminate H.
  unfold ContentClassifier.detect_password in H.
  destruct (_ && _)%bool eqn:E in H; [|discriminate H].
  repeat (apply andb_true_iff in E; destruct E as [E ?]).
  apply Nat.ltb_lt in E.
  repeat split; try assumption.
  now apply negb_true_iff.
Qed.

Lemma password_only_for_short_tokens_witness :
  (String.length "Passw0rd!" < 50)%nat
  /\ Py.has_char " "%char "Passw0rd!" = false
  /\ Py.any_char Py.isdigit "Passw0rd!" = true
  /\ Py.any_char Py.isalpha "Passw0rd!" = true.
Proof.
  apply (password_only_for_short_tokens "Passw0rd!"). reflexivity.
Defined.

(** X4. A text classified FILE is a single whitespace-free token that
    holds a forward slash or two consecutive backslashes. *)
Theorem file_only_for_path_tokens :
  forall content : string,
    fst (ContentClassifier.classify_content content) = "FILE" ->
    (Py.contains ContentClassifier.double_backslash content = true
     \/ Py.has_char "/"%char content = true)
    /\ List.length (Py.split_ws content) = 1%nat.
Proof.
  intros content Hcat.
  pose proof (classify_content_cases content) as H. cbv zeta in H.
  rewrite Hcat in H.
  destruct H as [[H _]|[[H _]|[[H _]|[[H _]|[[_ H]|[[H _]|[[H _]|[[H _]|[[H _]|[H _]]]]]]]]]];
    try discriminate H.
  unfold ContentClassifier.detect_file in H.
  destruct (_ && _)%bool eqn:E in H; [|discriminate H].
  apply andb_true_iff in E. destruct E as [Esep Etok].
  apply orb_true_iff in Esep. apply Nat.eqb_eq in Etok. tauto.
Qed.

Lemma file_only_for_path_tokens_witness :
  (Py.contains ContentClassifier.double_backslash "/home/user/notes.txt" = true
   \/ Py.has_char "/"%char "/home/user/notes.txt" = true)
  /\ List.length (Py.split_ws "/home/user/notes.txt") = 1%nat.
Proof.
  apply (file_only_for_path_tokens "/home/user/notes.txt"). reflexivity.
Defined.

(** X5. Content the rules classify as WEB or CODE always has a
    confidence of 0.8 or more: the model engine takes this category
    without a query to the backend. *)
Theorem web_and_code_skip_the_backend :
  forall (St : Type)
         (run_inference : string -> nat -> Q -> M St (option string))
         (is_initialized : bool) (content : string) (st : St),
    fst (ContentClassifier.classify_content content) = "WEB"
    \/ fst (ContentClassifier.classify_content content) = "CODE" ->
    LLMSuggestionEngine._classify_content run_inference is_initialized content st
    = (Ok (fst (ContentClassifier.classify_content content)), st).
Proof.
  intros St run init content st Hcat.
  assert (Hconf : Qle_bool 0.8 (snd (ContentClassifier.classify_content content)) = true).
  { apply Qle_bool_iff.
    pose proof (classify_content_cases content) as H. cbv zeta in H.
    destruct Hcat as [Hcat|Hcat]; rewrite Hcat in H;
      destruct H as [[H1 H]|[[H1 [_ H]]|[[H _]|[[H _]|[[H _]|[[H _]|[[H1 H]|[[H _]|[[H _]|[H _]]]]]]]]]];
      try discriminate.
    - apply detect_url_band in H. destruct H as [Hlo _].
      eapply Qle_trans; [|exact Hlo]. unfold Qle; simpl; lia.
    - apply detect_domain_value in H. rewrite H. unfold Qle; simpl; lia.
    - apply detect_code_band in H. tauto. }
  unfold LLMSuggestionEngine._classify_content.
  destruct (ContentClassifier.classify_content content) as [rule_type conf].
  simpl in Hconf |- *. rewrite Hconf. reflexivity.
Qed.

Lemma web_and_code_skip_the_backend_witness :
  LLMSuggestionEngine._classify_content flaky_backend true "def foo(): pass" 0%nat
  = (Ok (fst (ContentClassifier.classify_content "def foo(): pass")), 0%nat).
Proof.
  apply (web_and_code_skip_the_backend nat flaky_backend true "def foo(): pass" 0%nat).
  right. reflexivity.
Defined.

(** ** The stable sort is determined by its specification *)

Section SortDescUnique.
Context {A : Type} (key : A -> Q).

Lemma with_key_head (x : A) (l : list A) :
  with_key key (key x) (x :: l) = x :: with_key key (key x) l.
Proof.
  unfold with_key. simpl.
  assert (E : Qeq_bool (key x) (key x) = true) by (apply Qeq_bool_iff; reflexivity).
  now rewrite E.
Qed.

Lemma with_key_witness (q : Q) (l : list A) (y : A) :
  In y (with_key key q l) -> In y l /\ (key y == q)%Q.
Proof.
  unfold with_key. intro H. apply filter_In in H. destruct H as [Hin Hq].
  split; [exact Hin|now apply Qeq_bool_iff].
Qed.

(** The head of a descending list bounds every key found in it. *)
Lemma desc_head_bounds (x : A) (t : list A) (z : A) :
  StronglySorted (desc key) (x :: t) -> In z (x :: t) -> (key z <= key x)%Q.
Proof.
  intros Hs Hin. apply StronglySorted_inv in Hs. destruct Hs as [_ Hall].
  destruct Hin as [<-|Hin]; [apply Qle_refl|].
  rewrite Forall_forall in Hall. exact (Hall z Hin).
Qed.

Lemma sorted_with_same_keys_equal (l1 : list A) :
  forall l2 : list A,
    StronglySorted (desc key) l1 -> StronglySorted (desc key) l2 ->
    (forall q, with_key key q l1 = with_key key q l2) ->
    l1 = l2.
Proof.
  induction l1 as [|x t1 IH]; intros [|y t2] Hs1 Hs2 Hsame.
  - reflexivity.
  - specialize (Hsame (key y)). rewrite with_key_head in Hsame. discriminate Hsame.
  - specialize (Hsame (key x)). rewrite with_key_head in Hsame. discriminate Hsame.
  - assert (Hyx : (key y <= key x)%Q).
    { pose proof (Hsame (key y)) as E. rewrite with_key_head in E.
      assert (Hin : In y (with_key key (key y) (x :: t1))) by (rewrite E; now left).
      apply with_key_witness in Hin. destruct Hin as [Hin _].
      exact (desc_head_bounds x t1 y Hs1 Hin). }
    assert (Hxy : (key x <= key y)%Q).
    { pose proof (Hsame (key x)) as E. rewrite with_key_head in E.
      assert (Hin : In x (with_key key (key x) (y :: t2))) by (rewrite <- E; now left).
      apply with_key_witness in Hin. destruct Hin as [Hin _].
      exact (desc_head_bounds y t2 x Hs2 Hin). }
    assert (Heq : (key y == key x)%Q) by now apply Qle_antisym.
    assert (Hhead : x = y).
    { pose proof (Hsame (key x)) as E. rewrite with_key_head in E.
      unfold with_key in E. simpl in E.
      apply Qeq_bool_iff in Heq. rewrite Heq in E. now injection E. }
    subst y. f_equal.
    apply StronglySorted_inv in Hs1. apply StronglySorted_inv in Hs2.
    apply IH; try tauto.
    intro q. specialize (Hsame q). unfold with_key in *. simpl in Hsame.
    destruct (Qeq_bool (key x) q); [now injection Hsame|exact Hsame].
Qed.

End SortDescUnique.

(** X6. The list a stable sort by descending key returns is the only
    one that is a rearrangement of the input, descending, and keeps equal
    keys in their input order: the ranking of the scored windows does not
    depend on how the sort is carried out. *)
Theorem stable_descending_order_is_unique :
  forall (A : Type) (key : A -> Q) (input output : list A),
    stable_sorted_desc key input output ->
    output = sort_desc key input.
Proof.
  intros A key input output [_ [Hsorted Hstable]].
  apply sorted_with_same_keys_equal with (key := key).
  - exact Hsorted.
  - apply sort_desc_sorted.
  - intro q. rewrite Hstable. symmetry. apply sort_desc_stable.
Qed.

Lemma stable_descending_order_is_unique_witness :
  [(chrome_github, 0.8%Q); (explorer_docs, 0.8%Q); (notepad_untitled, 0.5%Q)]
  = sort_desc snd
      [(notepad_untitled, 0.5%Q); (chrome_github, 0.8%Q); (explorer_docs, 0.8%Q)].
Proof.
  apply (stable_descending_order_is_unique (WindowInfo * Q) snd
           [(notepad_untitled, 0.5%Q); (chrome_github, 0.8%Q); (explorer_docs, 0.8%Q)]
           [(chrome_github, 0.8%Q); (explorer_docs, 0.8%Q); (notepad_untitled, 0.5%Q)]).
  split; [|split].
  - apply (sort_desc_perm snd
             [(notepad_untitled, 0.5%Q); (chrome_github, 0.8%Q); (explorer_docs, 0.8%Q)]).
  - repeat constructor; unfold desc, Qle; simpl; lia.
  - intro q. unfold with_key. simpl.
    destruct (Qeq_bool 0.8 q) eqn:E8, (Qeq_bool 0.5 q) eqn:E5; try reflexivity.
    apply Qeq_bool_iff in E8, E5. rewrite <- E5 in E8. discriminate E8.
Defined.

(** ** The shape of the answer of the rule engine *)

Section RuleShape.
Import RuleBasedSuggestionEngine.

(** The fillers added to the primary suggestions. *)
Lemma rule_answer_shape (content : string) (current_window : option WindowInfo)
    (w0 : WindowInfo) (ws : list WindowInfo) :
  let windows := w0 :: ws in
  let content_type := fst (ContentClassifier.classify_content content) in
  let confidence := snd (ContentClassifier.classify_content content) in
  let primary := _get_suggestions_for_type content_type confidence content windows in
  let fillers :=
    if (List.length primary <? 3)%nat
    then firstn (3 - List.length primary) (_get_recent_windows windows primary)
    else [] in
  get_suggestions content current_window windows
  = match primary ++ fillers with
    | [] => None
    | s :: l => Some (s :: l)
    end.
Proof.
  intros windows content_type confidence primary fillers.
  unfold get_suggestions. fold windows.
  subst primary fillers content_type confidence.
  destruct (ContentClassifier.classify_content content) as [ct conf]. simpl fst. simpl snd.
  pose proof (primary_length ct conf content windows) as Hlen.
  set (primary := _get_suggestions_for_type ct conf content windows) in *.
  destruct (List.length primary <? 3)%nat eqn:E.
  - set (l := primary ++ firstn (3 - List.length primary)
                              (_get_recent_windows windows primary)).
    assert (Hl : (List.length l <= 3)%nat).
    { unfold l. rewrite length_app.
      pose proof (firstn_le_length (3 - List.length primary)
                    (_get_recent_windows windows primary)).
      lia. }
    destruct l as [|s l'] eqn:El; [reflexivity|].
    rewrite <- El. rewrite firstn_all2 by (rewrite El; exact Hl). now rewrite El.
  - apply Nat.ltb_ge in E. rewrite app_nil_r.
    destruct primary as [|s l'] eqn:Ep; [reflexivity|].
    rewrite firstn_all2 by lia. reflexivity.
Qed.

Lemma recent_fillers_visible (windows : list WindowInfo) (exclude : list Suggestion) :
  Forall (fun s => suggestion_label s = RecentLabel
                   /\ is_minimized (suggestion_window s) = false
                   /\ In (suggestion_window s) windows)
         (_get_recent_windows windows exclude).
Proof.
  apply Forall_forall. intros s Hs. unfold _get_recent_windows in Hs.
  apply in_map_iff in Hs. destruct Hs as [w [<- Hw]].
  apply filter_In in Hw. destruct Hw as [Hin Hkeep].
  apply andb_true_iff in Hkeep. destruct Hkeep as [_ Hvis].
  apply negb_true_iff in Hvis.
  unfold suggestion_label, suggestion_window. simpl. tauto.
Qed.

Lemma primary_from_candidates (content_type : string) (confidence : Q)
    (content : string) (windows : list WindowInfo) :
  Forall (fun s => In (suggestion_window s) windows)
         (_get_suggestions_for_type content_type confidence content windows).
Proof.
  apply Forall_forall. intros s Hs.
  apply (in_map suggestion_window) in Hs. rewrite primary_windows in Hs.
  destruct (lookup content_type content_mappings) as [m|]; [|destruct Hs].
  apply In_firstn in Hs. apply in_map_iff in Hs. destruct Hs as [p [<- Hp]].
  now apply scored_windows_In in Hp.
Qed.

Lemma Forall_firstn {X : Type} (P : X -> Prop) (n : nat) (l : list X) :
  Forall P l -> Forall P (firstn n l).
Proof.
  intro H. apply Forall_forall. intros x Hx. apply In_firstn in Hx.
  rewrite Forall_forall in H. now apply H.
Qed.

(** A process name that matches the high-priority list scores 0.8 or
    more, whatever the title and the content. *)
Lemma high_priority_score (w : WindowInfo) (m : mapping) (content : string) :
  existsb (fun proc => Py.contains proc (process_lower_of w)) (high_priority m) = true ->
  (Float64.lit 0.8 <= _calculate_window_score w m content)%Q.
Proof.
  intro H. unfold _calculate_window_score, base_score. rewrite H.
  assert (Hdouble : (Float64.round (Float64.lit 0.8) == Float64.lit 0.8)%Q)
    by (apply Qeq_bool_iff; vm_compute; reflexivity).
  apply Q.min_glb; [closed_Qle|].
  apply (add_above _ _ _ Hdouble).
  - apply (add_above _ _ _ Hdouble); [closed_Qle|].
    apply mul_nonneg; [apply of_Z_nonneg; lia|closed_Qle].
  - unfold _get_content_specific_score.
    repeat match goal with
           | |- context [if ?b then _ else _] => destruct b
           end; closed_Qle.
Qed.

End RuleShape.

Lemma rule_answer_from_candidates (content : string)
    (current_window : option WindowInfo) (windows : list WindowInfo) :
  match RuleBasedSuggestionEngine.get_suggestions content current_window windows with
  | Some l => Forall (fun s => In (suggestion_window s) windows) l
  | None => True
  end.
Proof.
  rename current_window into cur. destruct windows as [|w0 ws]; [exact I|].
  rewrite rule_answer_shape. cbv zeta.
  match goal with
  | |- match (match ?p ++ ?f with _ => _ end) with _ => _ end =>
      assert (H : Forall (fun s => In (suggestion_window s) (w0 :: ws)) (p ++ f));
      [|destruct (p ++ f); [exact I|exact H]]
  end.
  apply Forall_app. split; [apply primary_from_candidates|].
  destruct (_ <? 3)%nat; [|constructor].
  apply Forall_firstn.
  eapply Forall_impl; [|apply recent_fillers_visible].
  simpl. tauto.
Qed.

Lemma rule_answer_length (content : string)
    (current_window : option WindowInfo) (windows : list WindowInfo) :
  match RuleBasedSuggestionEngine.get_suggestions content current_window windows with
  | Some l => (1 <= List.length l <= 3)%nat
  | None => True
  end.
Proof.
  unfold RuleBasedSuggestionEngine.get_suggestions.
  destruct windows as [|w0 ws]; [exact I|].
  destruct (ContentClassifier.classify_content content) as [ct conf].
  match goal with
  | |- match (match ?l with _ => _ end) with _ => _ end =>
      destruct l as [|s l'] eqn:E; [exact I|]
  end.
  split; [simpl; lia|apply firstn_le_length].
Qed.

(** Rule suggestions never carry the label of the model engine. *)
Lemma rule_answer_labels (content : string)
    (current_window : option WindowInfo) (windows : list WindowInfo) :
  match RuleBasedSuggestionEngine.get_suggestions content current_window windows with
  | Some l =>
      Forall (fun s => match suggestion_label s with
                       | ScoreLabel _ => False
                       | _ => True
                       end) l
  | None => True
  end.
Proof.
  destruct windows as [|w0 ws]; [exact I|].
  rewrite rule_answer_shape. cbv zeta.
  match goal with
  | |- match (match ?p ++ ?f with _ => _ end) with _ => _ end =>
      assert (H : Forall (fun s => match suggestion_label s with
                                   | ScoreLabel _ => False
                                   | _ => True
                                   end) (p ++ f));
      [|destruct (p ++ f); [exact I|exact H]]
  end.
  apply Forall_app. split.
  - rewrite primary_suggestions_from_ranking.
    apply Forall_forall. intros s Hs. apply in_map_iff in Hs.
    destruct Hs as [p [<- _]]. exact I.
  - destruct (_ <? 3)%nat; [|constructor].
    apply Forall_firstn.
    eapply Forall_impl; [|apply recent_fillers_visible].
    intros s [Hl _]. now rewrite Hl.
Qed.

(** X7. Every suggestion of the rule engine refers to a window of the
    candidate list. *)
Theorem rule_suggestions_are_candidates :
  forall (content : string) (current_window : option WindowInfo)
         (windows : list WindowInfo),
    match RuleBasedSuggestionEngine.get_suggestions content current_window windows with
    | Some l => Forall (fun s => In (suggestion_window s) windows) l
    | None => True
    end.
Proof. exact rule_answer_from_candidates. Qed.

(** X8. The rule engine returns nothing exactly when no candidate gets a
    positive score for the category of the content (or the category has
    no table) and every candidate is minimized; the empty candidate list
    is the simplest case. *)
Theorem rule_suggest_nothing_iff :
  forall (content : string) (current_window : option WindowInfo)
         (windows : list WindowInfo),
    RuleBasedSuggestionEngine.get_suggestions content current_window windows = None
    <-> ranker_output (fst (ContentClassifier.classify_content content)) content windows
        = []
        /\ Forall (fun w => is_minimized w = true) windows.
Proof.
  intros content cur [|w0 ws].
  - split; [intros _|reflexivity]. split; [|constructor].
    unfold ranker_output.
    destruct (RuleBasedSuggestionEngine.lookup _ _); reflexivity.
  - rewrite rule_answer_shape. cbv zeta.
    rewrite primary_suggestions_from_ranking.
    set (ct := fst (ContentClassifier.classify_content content)).
    set (ranking := ranker_output ct content (w0 :: ws)).
    split.
    + intro H.
      destruct ranking as [|r rest] eqn:Er; [|cbn [firstn map app] in H; discriminate H].
      split; [reflexivity|].
      change (match firstn 3 (RuleBasedSuggestionEngine._get_recent_windows (w0 :: ws) [])
              with
              | [] => None
              | s :: l => Some (s :: l)
              end = None) in H.
      destruct (firstn 3 (RuleBasedSuggestionEngine._get_recent_windows (w0 :: ws) []))
        as [|s l] eqn:Ef; [|discriminate H].
      assert (Hrecent : RuleBasedSuggestionEngine._get_recent_windows (w0 :: ws) [] = []).
      { destruct (RuleBasedSuggestionEngine._get_recent_windows (w0 :: ws) []);
          [reflexivity|discriminate Ef]. }
      apply (f_equal (map suggestion_window)) in Hrecent.
      rewrite recent_windows in Hrecent. simpl map in Hrecent.
      apply Forall_forall. intros w Hw.
      destruct (is_minimized w) eqn:Em; [reflexivity|].
      assert (Hin : In w []).
      { rewrite <- Hrecent. apply filter_In. split; [exact Hw|]. simpl. now rewrite Em. }
      destruct Hin.
    + intros [Hr Hmin]. rewrite Hr.
      change (match firstn 3 (RuleBasedSuggestionEngine._get_recent_windows (w0 :: ws) [])
              with
              | [] => None
              | s :: l => Some (s :: l)
              end = None).
      assert (Hrecent : RuleBasedSuggestionEngine._get_recent_windows (w0 :: ws) [] = []).
      { apply map_eq_nil with (f := suggestion_window). rewrite recent_windows.
        rewrite Forall_forall in Hmin.
        destruct (filter _ (w0 :: ws)) as [|w l] eqn:Ef; [reflexivity|].
        assert (Hin : In w (w :: l)) by now left.
        rewrite <- Ef in Hin. apply filter_In in Hin. destruct Hin as [Hw Hkeep].
        rewrite (Hmin w Hw) in Hkeep. simpl in Hkeep. discriminate Hkeep. }
      rewrite Hrecent. reflexivity.
Qed.

(** X9. The answer of the rule engine is the primary suggestions, which
    carry the confidence of the classification, followed by the fillers;
    every filler is labelled "Recent" and refers to a candidate that is
    not minimized. *)
Theorem rule_answer_is_primary_then_visible_fillers :
  forall (content : string) (current_window : option WindowInfo)
         (windows : list WindowInfo),
    match RuleBasedSuggestionEngine.get_suggestions content current_window windows with
    | None => True
    | Some l =>
        exists fillers,
          l = RuleBasedSuggestionEngine._get_suggestions_for_type
                (fst (ContentClassifier.classify_content content))
                (snd (ContentClassifier.classify_content content)) content windows
              ++ fillers
          /\ Forall (fun s => suggestion_label s = RecentLabel
                              /\ is_minimized (suggestion_window s) = false)
                    fillers
    end.
Proof.
  intros content cur [|w0 ws]; [exact I|].
  rewrite rule_answer_shape. cbv zeta.
  match goal with
  | |- match (match ?p ++ ?f with _ => _ end) with _ => _ end =>
      assert (H : Forall (fun s => suggestion_label s = RecentLabel
                                   /\ is_minimized (suggestion_window s) = false) f);
      [|destruct (p ++ f) eqn:E; [exact I|exists f; split; [now rewrite E|exact H]]]
  end.
  destruct (_ <? 3)%nat; [|constructor].
  apply Forall_firstn.
  eapply Forall_impl; [|apply recent_fillers_visible].
  simpl. tauto.
Qed.

(** X10. When the category of the content has an affinity table and some
    candidate's process name matches its high-priority list, the rule
    engine answers, and its first suggestion carries the priority
    "High" and the confidence of the classification. *)
Theorem high_priority_candidate_gives_high_top_suggestion :
  forall (content : string) (current_window : option WindowInfo)
         (windows : list WindowInfo) (w : WindowInfo)
         (m : RuleBasedSuggestionEngine.mapping),
    RuleBasedSuggestionEngine.lookup (fst (ContentClassifier.classify_content content))
      RuleBasedSuggestionEngine.content_mappings = Some m ->
    In w windows ->
    existsb (fun proc => Py.contains proc (RuleBasedSuggestionEngine.process_lower_of w))
            (RuleBasedSuggestionEngine.high_priority m) = true ->
    exists s rest,
      RuleBasedSuggestionEngine.get_suggestions content current_window windows
      = Some (s :: rest)
      /\ suggestion_label s
         = PriorityLabel "High" (snd (ContentClassifier.classify_content content)).
Proof.
  intros content cur windows w m Hlookup Hin Hhigh.
  destruct windows as [|w0 ws]; [destruct Hin|].
  rewrite rule_answer_shape. cbv zeta.
  rewrite primary_suggestions_from_ranking.
  unfold ranker_output. rewrite Hlookup.
  pose proof (high_priority_score w m content Hhigh) as Hscore.
  set (score := RuleBasedSuggestionEngine._calculate_window_score w m content) in *.
  assert (Hranked : In (w, score)
                       (RuleBasedSuggestionEngine.scored_windows m content (w0 :: ws))).
  { unfold RuleBasedSuggestionEngine.scored_windows.
    eapply Permutation_in; [apply sort_desc_perm|].
    unfold RuleBasedSuggestionEngine.positive_scores.
    apply filter_In. split.
    - apply in_map_iff. exists w. split; [reflexivity|exact Hin].
    - simpl. apply Qlt_bool_iff. eapply Qlt_le_trans; [|exact Hscore].
      closed_Qlt. }
  assert (Hsorted : StronglySorted (desc snd)
                      (RuleBasedSuggestionEngine.scored_windows m content (w0 :: ws)))
    by (unfold RuleBasedSuggestionEngine.scored_windows; apply sort_desc_sorted).
  destruct (RuleBasedSuggestionEngine.scored_windows m content (w0 :: ws))
    as [|h t]; [destruct Hranked|].
  pose proof (desc_head_bounds snd h t (w, score) Hsorted Hranked) as Hhead.
  simpl in Hhead.
  cbn [firstn map app].
  eexists. eexists. split; [reflexivity|].
  unfold suggestion_label. simpl. f_equal.
  unfold RuleBasedSuggestionEngine.priority_of.
  assert (E : Qle_bool (Float64.lit 0.8) (snd h) = true).
  { apply Qle_bool_iff. eapply Qle_trans; eassumption. }
  now rewrite E.
Qed.

Lemma high_priority_candidate_gives_high_top_suggestion_witness :
  exists s rest,
    RuleBasedSuggestionEngine.get_suggestions "https://github.com/foo" None
      [notepad_untitled; hidden_tool; chrome_github]
    = Some (s :: rest)
    /\ suggestion_label s
       = PriorityLabel "High"
           (snd (ContentClassifier.classify_content "https://github.com/foo")).
Proof.
  apply (high_priority_candidate_gives_high_top_suggestion "https://github.com/foo"
           None [notepad_untitled; hidden_tool; chrome_github] chrome_github
           (RuleBasedSuggestionEngine.mkMapping
              ["chrome"; "firefox"; "edge"; "safari"; "opera"; "brave"]
              ["iexplore"] ["browser"; "web"])).
  - reflexivity.
  - simpl. auto.
  - reflexivity.
Defined.

(** ** The score parser *)

Section ParserFacts.
Import ScoreParser.

Lemma max_of_above (l : list Q) (x : Q) : (x <= max_of x l)%Q.
Proof.
  unfold max_of. revert x. induction l as [|y t IH]; intro x; simpl.
  - apply Qle_refl.
  - eapply Qle_trans; [|apply IH]. apply Q.le_max_l.
Qed.

Lemma digits_value_nonneg (s : string) (acc : Z) :
  (0 <= acc)%Z -> (0 <= digits_value acc s)%Z.
Proof.
  revert acc. induction s as [|c r IH]; intros acc Hacc; cbn [digits_value];
    [exact Hacc|].
  apply IH. unfold digit_value. lia.
Qed.

Lemma decimal_value_nonneg (s : string) : (0 <= decimal_value s)%Q.
Proof.
  destruct s as [|d [|p frac]]; cbn [decimal_value].
  - apply Qle_refl.
  - unfold Qle, digit_value. cbn [Qnum Qden inject_Z]. lia.
  - unfold Qle. cbn [Qnum Qden].
    assert (H0 : (0 <= digit_value d)%Z) by (unfold digit_value; lia).
    pose proof (digits_value_nonneg frac (digit_value d) H0) as H.
    lia.
Qed.

Lemma float_of_score_nonneg (s : string) : (0 <= float_of_score s)%Q.
Proof. apply round_nonneg, decimal_value_nonneg. Qed.

Lemma fifth_in_unit (a : Q) :
  (0 <= a)%Q ->
  (0 <= Qmin (Float64.lit 1.0) (Float64.div a (Float64.lit 5.0)))%Q
  /\ (Qmin (Float64.lit 1.0) (Float64.div a (Float64.lit 5.0)) <= 1)%Q.
Proof.
  intro Ha. split.
  - apply Q.min_glb; [closed_Qle|]. apply div_nonneg; [exact Ha|closed_Qlt].
  - eapply Qle_trans; [apply Q.le_min_l|closed_Qle].
Qed.

Lemma Some_eq {A : Type} (a b : A) : Some a = Some b -> a = b.
Proof. intro H. now inversion H. Qed.

Lemma first_rating_in_unit (s : string) (q : Q) :
  first_rating rating_words s = Some q -> (0 <= q)%Q /\ (q <= 1)%Q.
Proof.
  unfold rating_words. cbn [first_rating]. intro H.
  repeat match type of H with
         | (if ?b then _ else _) = _ =>
             destruct b; [apply Some_eq in H; subst q; split; closed_Qle|]
         end.
  discriminate H.
Qed.

Lemma prefix_of_longer (p q s : string) :
  String.prefix (p ++ q) s = true -> String.prefix p s = true.
Proof.
  revert s. induction p as [|c p IH]; intros s H.
  - now destruct s.
  - destruct s as [|d s]; [discriminate H|].
    simpl in H |- *.
    destruct (ascii_dec c d); [now apply IH|discriminate H].
Qed.

(** A text that holds [p ++ q] holds [p]. *)
Lemma contains_shorter (p q s : string) :
  Py.contains (p ++ q) s = true -> Py.contains p s = true.
Proof.
  induction s as [|c r IH]; cbn [Py.contains]; intro H.
  - rewrite orb_false_r in *. now apply prefix_of_longer in H.
  - apply orb_true_iff in H. apply orb_true_iff.
    destruct H as [H|H]; [left; now apply prefix_of_longer in H|right; now apply IH].
Qed.

End ParserFacts.

Lemma parse_in_unit :
  forall response : string,
    match ScoreParser.parse response with
    | Some q => (0 <= q)%Q /\ (q <= 1)%Q
    | None => True
    end.
Proof.
  intro response. unfold ScoreParser.parse.
  destruct (ScoreParser.clean_response response) as [|c r] eqn:Ec; [exact I|].
  destruct (Py.contains "yes" _); [split; closed_Qle|].
  destruct (Py.contains "no" _); [split; closed_Qle|].
  destruct (Py.contains "12345" _); [split; closed_Qle|].
  destruct (ScoreParser.valid_scores _) as [|x l] eqn:Ev.
  - destruct (ScoreParser.search_conversational _) as [g|].
    + apply fifth_in_unit, float_of_score_nonneg.
    + destruct (ScoreParser.first_rating _ _) as [q|] eqn:Er; [|exact I].
      now apply first_rating_in_unit in Er.
  - apply fifth_in_unit.
    assert (Hx : In x (ScoreParser.valid_scores
                         (ScoreParser.findall_scores 0 (String c r))))
      by (rewrite Ev; now left).
    unfold ScoreParser.valid_scores in Hx. apply filter_In in Hx.
    destruct Hx as [_ Hx]. apply andb_true_iff in Hx. destruct Hx as [Hx _].
    apply Qle_bool_iff in Hx.
    eapply Qle_trans; [exact Hx|apply max_of_above].
Qed.

(** X11. Whatever the reply, a score the parser extracts is between 0
    and 1. *)
Theorem parsed_score_in_unit_interval :
  forall response : string,
    match ScoreParser.parse response with
    | Some q => (0 <= q)%Q /\ (q <= 1)%Q
    | None => True
    end.
Proof. exact parse_in_unit. Qed.

(** X12. The rating word "none" never gives the score 0: a reply whose
    cleaned text holds it also holds "no", which is tested first, so the
    score is 0.2 (or 0.8 when the reply holds "yes" too). *)
Theorem rating_none_is_shadowed_by_no :
  forall response : string,
    Py.contains "none" (Py.lower (ScoreParser.clean_response response)) = true ->
    ScoreParser.parse response = Some (Float64.lit 0.8)
    \/ ScoreParser.parse response = Some (Float64.lit 0.2).
Proof.
  intros response H. unfold ScoreParser.parse.
  destruct (ScoreParser.clean_response response) as [|c r]; [discriminate H|].
  destruct (Py.contains "yes" _); [now left|].
  change "none" with ("no" ++ "ne")%string in H.
  apply contains_shorter in H. rewrite H. now right.
Qed.

Lemma rating_none_is_shadowed_by_no_witness :
  ScoreParser.parse "None of them" = Some (Float64.lit 0.8)
  \/ ScoreParser.parse "None of them" = Some (Float64.lit 0.2).
Proof.
  apply (rating_none_is_shadowed_by_no "None of them"). reflexivity.
Defined.

(** X13. A candidate whose query raises, or returns nothing, or returns
    only whitespace, gets no score; the failure stays with this
    candidate. *)
Theorem failed_query_gives_no_score :
  forall (St : Type)
         (run_inference : string -> nat -> Q -> M St (option string))
         (content content_type : string) (window : WindowInfo) (st : St),
    match fst (run_inference (LLMSuggestionEngine.scoring_prompt content_type window)
                 10%nat 0.1%Q st) with
    | Exc => True
    | Ok None => True
    | Ok (Some reply) => Py.strip reply = EmptyString
    end ->
    LLMSuggestionEngine._score_window run_inference true content content_type window st
    = (Ok None,
       snd (run_inference (LLMSuggestionEngine.scoring_prompt content_type window)
              10%nat 0.1%Q st)).
Proof.
  intros St run content ct window st H.
  unfold LLMSuggestionEngine._score_window, LLMSuggestionEngine._query_llm.
  unfold try_except, bind, ret. change (negb true) with false. cbv beta iota.
  destruct (run (LLMSuggestionEngine.scoring_prompt ct window) 10%nat 0.1%Q st)
    as [[[reply|]|] st']; simpl in *; try reflexivity.
  destruct reply as [|c r]; [reflexivity|].
  rewrite H. reflexivity.
Qed.

Lemma failed_query_gives_no_score_witness :
  LLMSuggestionEngine._score_window dead_backend true "hello" "TEXT" chrome_github tt
  = (Ok None, tt).
Proof.
  apply (failed_query_gives_no_score unit dead_backend "hello" "TEXT" chrome_github tt).
  exact I.
Defined.

(** When the query of the classification step raises, the engine goes
    on: three queries are made and both candidates are ranked. *)
Example backend_failure_in_classification_is_absorbed :
  fst (flaky_backend (LLMSuggestionEngine.classification_prompt "hello") 32 0.1%Q 0%nat)
  = Exc
  /\ LLMSuggestionEngine.get_suggestions flaky_backend true "hello" None
       [chrome_github; notepad_untitled] 0%nat
     = (Ok (Some [("AI Rank #1", chrome_github, ScoreLabel (Float64.lit 0.8));
                  ("AI Rank #2", notepad_untitled, ScoreLabel (Float64.lit 0.8))]),
        3%nat).
Proof. split; vm_compute; reflexivity. Qed.

(** X26. When the backend raises on the classification query, the
    exception is caught inside the classification step: the category is
    the one of the rule-based classifier, and the model engine goes on to
    score the candidates with it and decides on these scores. *)
Theorem classification_exception_falls_back_to_rule_category :
  forall (St : Type)
         (run_inference : string -> nat -> Q -> M St (option string))
         (content : string) (current_window : option WindowInfo)
         (windows : list WindowInfo) (st : St),
    windows <> [] ->
    Qle_bool 0.8 (snd (ContentClassifier.classify_content content)) = false ->
    fst (run_inference (LLMSuggestionEngine.classification_prompt content) 32 0.1%Q st)
    = Exc ->
    let rule_type := fst (ContentClassifier.classify_content content) in
    let st1 :=
      snd (run_inference (LLMSuggestionEngine.classification_prompt content)
             32 0.1%Q st) in
    LLMSuggestionEngine._classify_content run_inference true content st
    = (Ok rule_type, st1)
    /\ exists window_scores st2,
         LLMSuggestionEngine.score_windows run_inference true content rule_type
           (firstn 5 windows) st1 = (Ok window_scores, st2)
         /\ LLMSuggestionEngine.get_suggestions run_inference true content
              current_window windows st
            = (Ok (if (List.length window_scores <? 2)%nat then None
                   else Some (LLMSuggestionEngine.rank_suggestions 0
                                (firstn 3 (sort_desc snd window_scores)))),
               st2).
Proof.
  intros St run content cur windows st Hne Hlow Hraise rule_type st1.
  assert (Hclass :
            LLMSuggestionEngine._classify_content run true content st
            = (Ok rule_type, st1)).
  { subst rule_type st1. unfold LLMSuggestionEngine._classify_content.
    destruct (ContentClassifier.classify_content content) as [rt conf].
    simpl in Hlow |- *. rewrite Hlow.
    unfold try_except, bind. rewrite (_query_llm_raises run _ _ _ _ Hraise).
    reflexivity. }
  split; [exact Hclass|].
  destruct windows as [|w0 ws]; [congruence|].
  exact (get_suggestions_after_classification run content cur w0 ws st st1 rule_type Hclass).
Qed.

Lemma classification_exception_falls_back_to_rule_category_witness :
  LLMSuggestionEngine._classify_content flaky_backend true "hello" 0%nat
  = (Ok "TEXT", 1%nat)
  /\ exists window_scores st2,
       LLMSuggestionEngine.score_windows flaky_backend true "hello" "TEXT"
         (firstn 5 [chrome_github; notepad_untitled]) 1%nat = (Ok window_scores, st2)
       /\ LLMSuggestionEngine.get_suggestions flaky_backend true "hello" None
            [chrome_github; notepad_untitled] 0%nat
          = (Ok (if (List.length window_scores <? 2)%nat then None
                 else Some (LLMSuggestionEngine.rank_suggestions 0
                              (firstn 3 (sort_desc snd window_scores)))),
             st2).
Proof.
  apply (classification_exception_falls_back_to_rule_category nat flaky_backend
           "hello" None [chrome_github; notepad_untitled] 0%nat).
  - discriminate.
  - reflexivity.
  - reflexivity.
Defined.

(** ** The model engine and its backend *)

Section CallCounting.
Context {St : Type}.

Lemma calls_ret {A : Type} (a : A) : calls_at_most (St := St) 0 (ret a).
Proof. intro s. unfold ret. simpl. lia. Qed.

Lemma calls_weaken {A : Type} (k k' : nat) (m : M (St * nat) A) :
  (k <= k')%nat -> calls_at_most k m -> calls_at_most k' m.
Proof. intros Hk Hm s. specialize (Hm s). lia. Qed.

Lemma calls_bind {A B : Type} (k1 k2 : nat) (m : M (St * nat) A)
    (f : A -> M (St * nat) B) :
  calls_at_most k1 m -> (forall a, calls_at_most k2 (f a)) ->
  calls_at_most (k1 + k2) (bind m f).
Proof.
  intros Hm Hf s. unfold bind. specialize (Hm s).
  destruct (m s) as [[a|] s1]; simpl in *; [|lia].
  specialize (Hf a s1). lia.
Qed.

Lemma calls_try {A : Type} (k1 k2 : nat) (m h : M (St * nat) A) :
  calls_at_most k1 m -> calls_at_most k2 h ->
  calls_at_most (k1 + k2) (try_except m h).
Proof.
  intros Hm Hh s. unfold try_except. specialize (Hm s).
  destruct (m s) as [[a|] s1]; simpl in *; [lia|].
  specialize (Hh s1). lia.
Qed.

Variable run_inference : string -> nat -> Q -> M St (option string).

Lemma calls_counting (prompt : string) (max_tokens : nat) (temperature : Q) :
  calls_at_most 1 (counting run_inference prompt max_tokens temperature).
Proof.
  intros [st n]. unfold counting. simpl.
  destruct (run_inference prompt max_tokens temperature st). simpl. lia.
Qed.

Lemma calls_query_llm (is_initialized : bool) (prompt : string)
    (max_tokens : nat) (temperature : Q) :
  calls_at_most 1
    (LLMSuggestionEngine._query_llm (counting run_inference) is_initialized
       prompt max_tokens temperature).
Proof.
  unfold LLMSuggestionEngine._query_llm.
  destruct is_initialized; simpl negb; cbv iota.
  - apply (calls_try 1 0); [|apply calls_ret].
    apply (calls_bind 1 0); [apply calls_counting|intro a; apply calls_ret].
  - apply (calls_weaken 0); [lia|apply calls_ret].
Qed.

Lemma calls_classify_content (is_initialized : bool) (content : string) :
  calls_at_most 1
    (LLMSuggestionEngine._classify_content (counting run_inference) is_initialized
       content).
Proof.
  unfold LLMSuggestionEngine._classify_content.
  destruct (ContentClassifier.classify_content content) as [rule_type conf].
  destruct (Qle_bool 0.8 conf).
  - apply (calls_weaken 0); [lia|apply calls_ret].
  - apply (calls_try 1 0); [|apply calls_ret].
    apply (calls_bind 1 0); [apply calls_query_llm|].
    intros [[|c r]|]; try apply calls_ret.
    destruct (LLMSuggestionEngine.first_keyword _ _); apply calls_ret.
Qed.

Lemma calls_score_window (is_initialized : bool) (content content_type : string)
    (window : WindowInfo) :
  calls_at_most 1
    (LLMSuggestionEngine._score_window (counting run_inference) is_initialized
       content content_type window).
Proof.
  unfold LLMSuggestionEngine._score_window.
  apply (calls_try 1 0); [|apply calls_ret].
  apply (calls_bind 1 0); [apply calls_query_llm|].
  intros [[|c r]|]; try apply calls_ret.
  destruct (Py.strip (String c r)); apply calls_ret.
Qed.

Lemma calls_score_windows (is_initialized : bool) (content content_type : string)
    (windows : list WindowInfo) :
  calls_at_most (List.length windows)
    (LLMSuggestionEngine.score_windows (counting run_inference) is_initialized
       content content_type windows).
Proof.
  induction windows as [|w t IH]; cbn [LLMSuggestionEngine.score_windows List.length].
  - apply calls_ret.
  - apply (calls_bind 1 (List.length t)); [apply calls_score_window|].
    intro score.
    apply (calls_weaken (List.length t + 0)); [lia|].
    apply calls_bind; [exact IH|intro l; apply calls_ret].
Qed.

End CallCounting.

(** X14. One call of the model engine makes at most 6 calls to the
    backend: one to classify and one for each of the first five
    candidates. *)
Theorem model_engine_query_cap :
  forall (St : Type)
         (run_inference : string -> nat -> Q -> M St (option string))
         (is_initialized : bool) (content : string)
         (current_window : option WindowInfo) (windows : list WindowInfo)
         (st : St) (calls : nat),
    (snd (snd (LLMSuggestionEngine.get_suggestions (counting run_inference)
                 is_initialized content current_window windows (st, calls)))
     <= calls + 6)%nat.
Proof.
  intros St run init content cur windows st calls.
  assert (H : calls_at_most 6
                (LLMSuggestionEngine.get_suggestions (counting run) init content
                   cur windows)).
  { unfold LLMSuggestionEngine.get_suggestions, LLMSuggestionEngine.get_suggestions_with.
    destruct (negb init || _)%bool.
    - apply (calls_weaken 0); [lia|apply calls_ret].
    - apply (calls_try 6 0); [|apply calls_ret].
      apply (calls_bind 1 5); [apply calls_classify_content|].
      intros [|c r]; [apply (calls_weaken 0); [lia|apply calls_ret]|].
      apply (calls_weaken (List.length (firstn 5 windows) + 0)).
      { pose proof (firstn_le_length 5 windows). lia. }
      apply calls_bind; [apply calls_score_windows|].
      intro l. destruct (_ <? 2)%nat; apply calls_ret. }
  exact (H (st, calls)).
Qed.

Section EngineAnswer.
Context {St : Type}.
Variable run_inference : string -> nat -> Q -> M St (option string).

Lemma failed_query_gives_no_score_aux (content content_type : string)
    (window : WindowInfo) (st : St) :
  fst (run_inference (LLMSuggestionEngine.scoring_prompt content_type window)
         10%nat 0.1%Q st) = Exc ->
  LLMSuggestionEngine._score_window run_inference true content content_type window st
  = (Ok None,
     snd (run_inference (LLMSuggestionEngine.scoring_prompt content_type window)
            10%nat 0.1%Q st)).
Proof.
  intro H. unfold LLMSuggestionEngine._score_window, try_except, bind.
  rewrite (_query_llm_raises run_inference _ _ _ _ H). reflexivity.
Qed.

(** The loop scores windows of its list only. *)
Lemma score_windows_from (is_initialized : bool) (content content_type : string)
    (windows : list WindowInfo) :
  forall (st st' : St) (l : list (WindowInfo * Q)),
    LLMSuggestionEngine.score_windows run_inference is_initialized content
      content_type windows st = (Ok l, st') ->
    Forall (fun ws => In (fst ws) windows) l.
Proof.
  induction windows as [|w t IH]; intros st st' l H;
    cbn [LLMSuggestionEngine.score_windows] in H.
  - unfold ret in H. injection H as <- _. constructor.
  - unfold bind in H.
    destruct (_score_window_ok run_inference is_initialized content content_type w st)
      as [score [st1 E1]].
    rewrite E1 in H.
    destruct (score_windows_ok run_inference is_initialized content content_type t st1)
      as [l' [st2 E2]].
    rewrite E2 in H. unfold ret in H. injection H as <- _.
    specialize (IH st1 st2 l' E2).
    assert (Ht : Forall (fun ws => In (fst ws) (w :: t)) l').
    { eapply Forall_impl; [|exact IH]. intros a Ha. now right. }
    destruct score; [constructor; [now left|exact Ht]|exact Ht].
Qed.

Lemma rank_suggestions_length (i : nat) (l : list (WindowInfo * Q)) :
  List.length (LLMSuggestionEngine.rank_suggestions i l) = List.length l.
Proof.
  rewrite <- (length_map suggestion_window), rank_suggestions_windows.
  apply length_map.
Qed.

(** A backend that raises on every query leaves every query of the
    engine without a reply. *)
Lemma score_windows_all_fail (content content_type : string)
    (windows : list WindowInfo) :
  (forall prompt max_tokens temperature st,
      fst (run_inference prompt max_tokens temperature st) = Exc) ->
  forall st : St,
    exists st',
      LLMSuggestionEngine.score_windows run_inference true content content_type
        windows st = (Ok [], st').
Proof.
  intro Hfail. induction windows as [|w t IH]; intro st;
    cbn [LLMSuggestionEngine.score_windows].
  - unfold ret. eauto.
  - unfold bind.
    rewrite (failed_query_gives_no_score_aux content content_type w st).
    + destruct (IH (snd (run_inference
                           (LLMSuggestionEngine.scoring_prompt content_type w)
                           10%nat 0.1%Q st))) as [st' ->].
      unfold ret. eauto.
    + apply Hfail.
Qed.

End EngineAnswer.

Lemma model_answer_shape :
  forall (St : Type)
         (run_inference : string -> nat -> Q -> M St (option string))
         (is_initialized : bool) (content : string)
         (current_window : option WindowInfo) (windows : list WindowInfo)
         (st : St),
    exists answer st',
      LLMSuggestionEngine.get_suggestions run_inference is_initialized content
        current_window windows st = (Ok answer, st')
      /\ match answer with
         | None => True
         | Some l =>
             (2 <= List.length l <= 3)%nat
             /\ Forall (fun s => In (suggestion_window s) (firstn 5 windows)) l
         end.
Proof.
  intros St run init content cur windows st.
  destruct init; [|exists None, st; split; [reflexivity|exact I]].
  destruct windows as [|w0 ws]; [exists None, st; split; [reflexivity|exact I]|].
  destruct (_classify_content_ok run true content st) as [ct [st1 [Hclass _]]].
  destruct (get_suggestions_after_classification run content cur w0 ws st st1 ct Hclass)
    as [l [st2 [Hscores Hget]]].
  rewrite Hget. eexists. exists st2. split; [reflexivity|].
  destruct (List.length l <? 2)%nat eqn:E; [exact I|].
  apply Nat.ltb_ge in E.
  pose proof (score_windows_from run true content ct _ _ _ _ Hscores) as Hfrom.
  split.
  - rewrite rank_suggestions_length, length_firstn, sort_desc_length. lia.
  - apply Forall_forall. intros s Hs.
    apply (in_map suggestion_window) in Hs.
    rewrite rank_suggestions_windows in Hs.
    apply in_map_iff in Hs. destruct Hs as [p [<- Hp]].
    apply In_firstn in Hp.
    apply (Permutation_in _ (Permutation_sym (sort_desc_perm snd l))) in Hp.
    rewrite Forall_forall in Hfrom. exact (Hfrom p Hp).
Qed.

(** X15. The model engine never raises, whatever the backend does; when
    it answers, it returns 2 or 3 suggestions, and each of them refers to
    one of the first five candidates. *)
Theorem model_engine_answer_is_safe :
  forall (St : Type)
         (run_inference : string -> nat -> Q -> M St (option string))
         (is_initialized : bool) (content : string)
         (current_window : option WindowInfo) (windows : list WindowInfo)
         (st : St),
    exists answer st',
      LLMSuggestionEngine.get_suggestions run_inference is_initialized content
        current_window windows st = (Ok answer, st')
      /\ match answer with
         | None => True
         | Some l =>
             (2 <= List.length l <= 3)%nat
             /\ Forall (fun s => In (suggestion_window s) (firstn 5 windows)) l
         end.
Proof. exact model_answer_shape. Qed.

(** X16. When every query to the backend raises, the model engine
    returns the fallback value and does not raise. *)
Theorem model_engine_falls_back_when_backend_fails :
  forall (St : Type)
         (run_inference : string -> nat -> Q -> M St (option string))
         (is_initialized : bool) (content : string)
         (current_window : option WindowInfo) (windows : list WindowInfo)
         (st : St),
    (forall prompt max_tokens temperature s,
        fst (run_inference prompt max_tokens temperature s) = Exc) ->
    fst (LLMSuggestionEngine.get_suggestions run_inference is_initialized content
           current_window windows st) = Ok None.
Proof.
  intros St run init content cur windows st Hfail.
  destruct init; [|reflexivity].
  destruct windows as [|w0 ws]; [reflexivity|].
  destruct (_classify_content_ok run true content st) as [ct [st1 [Hclass _]]].
  destruct (get_suggestions_after_classification run content cur w0 ws st st1 ct Hclass)
    as [l [st2 [Hscores Hget]]].
  destruct (score_windows_all_fail run content ct (firstn 5 (w0 :: ws)) Hfail st1)
    as [st' Hnone].
  rewrite Hnone in Hscores. injection Hscores as <- _.
  rewrite Hget. reflexivity.
Qed.

Lemma model_engine_falls_back_when_backend_fails_witness :
  fst (LLMSuggestionEngine.get_suggestions dead_backend true "hello" None
         [chrome_github; notepad_untitled] tt) = Ok None.
Proof.
  apply (model_engine_falls_back_when_backend_fails unit dead_backend true "hello"
           None [chrome_github; notepad_untitled] tt).
  reflexivity.
Defined.

(** ** The controller *)

Section ArbiterFacts.
Context {St : Type}.
Variable run_inference : string -> nat -> Q -> M St (option string).
Variable llm_engine : option bool.
Variable LLM_AVAILABLE : bool.

Import MultitaskController.

Lemma model_answer_labels (is_initialized : bool) (content : string)
    (current_window : option WindowInfo) (windows : list WindowInfo)
    (st st' : St) (l : list Suggestion) :
  LLMSuggestionEngine.get_suggestions run_inference is_initialized content
    current_window windows st = (Ok (Some l), st') ->
  Forall from_model l.
Proof.
  intro H.
  destruct is_initialized; [|discriminate H].
  destruct windows as [|w0 ws]; [discriminate H|].
  destruct (_classify_content_ok run_inference true content st) as [ct [st1 [Hclass _]]].
  destruct (get_suggestions_after_classification run_inference content current_window
              w0 ws st st1 ct Hclass) as [scores [st2 [_ Hget]]].
  rewrite Hget in H.
  destruct (List.length scores <? 2)%nat; [discriminate H|].
  injection H as <- _.
  apply Forall_forall. intros s Hs. unfold from_model.
  apply (in_map suggestion_label) in Hs. rewrite rank_suggestions_labels in Hs.
  apply in_map_iff in Hs. destruct Hs as [p [<- _]]. exact I.
Qed.

(** What [_try_llm_suggestions] gives: the answer of the model engine when
    it is ready, nothing otherwise; it never raises and leaves the
    desktop as it is. *)
Lemma _try_llm_suggestions_result (content : string)
    (current_window : option WindowInfo) (windows : list WindowInfo)
    (w : World St) :
  exists answer w',
    _try_llm_suggestions run_inference llm_engine LLM_AVAILABLE content
      current_window windows w = (Ok answer, w')
    /\ desktop w' = desktop w
    /\ foreground w' = foreground w
    /\ match answer with
       | None => True
       | Some l =>
           (2 <= List.length l <= 3)%nat
           /\ Forall (fun s => In (suggestion_window s) windows) l
           /\ Forall from_model l
       end.
Proof.
  unfold _try_llm_suggestions.
  destruct llm_engine as [init|]; [|exists None, w; unfold ret; auto].
  destruct (is_ready LLM_AVAILABLE init); [|exists None, w; unfold ret; auto].
  unfold bind, _update_status, emit, on_backend. cbn [backend desktop foreground trace].
  destruct (model_answer_shape St run_inference init content current_window windows
              (backend w)) as [answer [st' [Hget Hshape]]].
  pose proof (model_answer_labels init content current_window windows (backend w) st')
    as Hlabels.
  rewrite Hget in *.
  eexists. eexists. split; [reflexivity|]. cbn [desktop foreground].
  split; [reflexivity|]. split; [reflexivity|].
  destruct answer as [l|]; [|exact I].
  destruct Hshape as [Hlen Hfrom]. split; [exact Hlen|]. split; [|now apply Hlabels].
  eapply Forall_impl; [|exact Hfrom]. intros s Hs. now apply In_firstn in Hs.
Qed.

Lemma _try_rule_suggestions_result (content : string)
    (current_window : option WindowInfo) (windows : list WindowInfo)
    (w : World St) :
  exists l w',
    _try_rule_suggestions content current_window windows w = (Ok l, w')
    /\ desktop w' = desktop w
    /\ foreground w' = foreground w
    /\ backend w' = backend w
    /\ l = match RuleBasedSuggestionEngine.get_suggestions content current_window
                   windows with
           | Some l => l
           | None => []
           end
    /\ (List.length l <= 3)%nat
    /\ Forall (fun s => In (suggestion_window s) windows) l
    /\ Forall from_rules l.
Proof.
  unfold _try_rule_suggestions, bind, _update_status, emit.
  pose proof (rule_answer_from_candidates content current_window windows) as Hfrom.
  pose proof (rule_answer_length content current_window windows) as Hlen.
  pose proof (rule_answer_labels content current_window windows) as Hlab.
  destruct (RuleBasedSuggestionEngine.get_suggestions content current_window windows)
    as [[|s l]|]; unfold ret; eexists; eexists;
    (split; [reflexivity|]); cbn [desktop foreground backend];
    repeat (split; [reflexivity|]); try (repeat split; try constructor; simpl; lia).
  split; [lia|]. split; [exact Hfrom|exact Hlab].
Qed.

End ArbiterFacts.

Section ArbiterAnswer.
Context {St : Type}.
Variable run_inference : string -> nat -> Q -> M St (option string).
Variable llm_engine : option bool.
Variable LLM_AVAILABLE : bool.

Import MultitaskController.

Lemma _update_final_status_result (suggestions : list Suggestion) (w : World St) :
  exists w',
    _update_final_status suggestions w = (Ok tt, w')
    /\ desktop w' = desktop w /\ foreground w' = foreground w
    /\ backend w' = backend w.
Proof.
  unfold _update_final_status, _update_status, emit.
  destruct suggestions; eexists; (split; [reflexivity|]); cbn; auto.
Qed.

(** The answer of the entry point, in all cases. *)
Lemma arbiter_answer (content : string) (w : World St) :
  exists l w',
    get_suggestions_for_content run_inference llm_engine LLM_AVAILABLE content w
    = (Ok l, w')
    /\ desktop w' = desktop w
    /\ foreground w' = foreground w
    /\ (List.length l <= 3)%nat
    /\ Forall (fun s => In (suggestion_window s) (listed_windows w)) l
    /\ (Forall from_model l \/ Forall from_rules l).
Proof.
  unfold get_suggestions_for_content.
  destruct (Py.strip content) as [|c0 r0].
  { exists [], w. unfold ret.
    split; [reflexivity|]. split; [reflexivity|]. split; [reflexivity|].
    split; [simpl; lia|]. split; [constructor|left; constructor]. }
  unfold bind at 1.
  assert (Hlist :
            get_filtered_windows Config.EXCLUDED_TITLES w
            = (Ok (listed_windows w),
               mkWorld (backend w) (desktop w) (foreground w) (ListWindows :: trace w)))
    by reflexivity.
  rewrite Hlist.
  set (w1 := mkWorld (backend w) (desktop w) (foreground w) (ListWindows :: trace w)).
  destruct (listed_windows w) as [|a0 rest] eqn:Ewin.
  { exists [], w1. unfold ret.
    split; [reflexivity|]. split; [reflexivity|]. split; [reflexivity|].
    split; [simpl; lia|]. split; [constructor|left; constructor]. }
  set (windows := a0 :: rest) in *.
  unfold bind at 1.
  assert (Hcur :
            _get_current_window w1
            = (Ok (foreground w),
               mkWorld (backend w) (desktop w) (foreground w)
                 (ForegroundWindow :: ListWindows :: trace w)))
    by reflexivity.
  rewrite Hcur.
  set (w2 := mkWorld (backend w) (desktop w) (foreground w)
               (ForegroundWindow :: ListWindows :: trace w)).
  unfold bind at 1.
  destruct (_try_llm_suggestions_result run_inference llm_engine LLM_AVAILABLE content
              (foreground w) windows w2)
    as [answer [w3 [Hllm [Hd3 [Hf3 Hshape]]]]].
  rewrite Hllm.
  unfold bind at 1.
  assert (Hmodel :
            forall s l, answer = Some (s :: l) ->
              exists l' w',
                (let (r, st') := ret (s :: l) w3 in
                 match r with
                 | Ok a => bind (_update_final_status a) (fun _ => ret a) st'
                 | Exc => (Exc, st')
                 end) = (Ok l', w')
                /\ desktop w' = desktop w /\ foreground w' = foreground w
                /\ (List.length l' <= 3)%nat
                /\ Forall (fun s => In (suggestion_window s) windows) l'
                /\ (Forall from_model l' \/ Forall from_rules l')).
  { intros s l ->. unfold ret at 1. unfold bind.
    destruct (_update_final_status_result (s :: l) w3) as [w4 [-> [Hd4 [Hf4 _]]]].
    unfold ret. exists (s :: l), w4.
    destruct Hshape as [Hlen [Hfrom Hlab]].
    split; [reflexivity|].
    split; [rewrite Hd4, Hd3; reflexivity|]. split; [rewrite Hf4, Hf3; reflexivity|].
    split; [lia|]. split; [exact Hfrom|left; exact Hlab]. }
  assert (Hrules :
            exists l' w',
              (let (r, st') :=
                 _try_rule_suggestions content (foreground w) windows w3 in
               match r with
               | Ok a => bind (_update_final_status a) (fun _ => ret a) st'
               | Exc => (Exc, st')
               end) = (Ok l', w')
              /\ desktop w' = desktop w /\ foreground w' = foreground w
              /\ (List.length l' <= 3)%nat
              /\ Forall (fun s => In (suggestion_window s) windows) l'
              /\ (Forall from_model l' \/ Forall from_rules l')).
  { destruct (_try_rule_suggestions_result content (foreground w) windows w3)
      as [l [w4 [-> [Hd4 [Hf4 [_ [_ [Hlen [Hfrom Hlab]]]]]]]]].
    unfold bind.
    destruct (_update_final_status_result l w4) as [w5 [-> [Hd5 [Hf5 _]]]].
    unfold ret. exists l, w5.
    split; [reflexivity|].
    split; [rewrite Hd5, Hd4, Hd3; reflexivity|].
    split; [rewrite Hf5, Hf4, Hf3; reflexivity|].
    split; [exact Hlen|]. split; [exact Hfrom|right; exact Hlab]. }
  destruct answer as [[|s l]|]; [exact Hrules|exact (Hmodel s l eq_refl)|exact Hrules].
Qed.

End ArbiterAnswer.

(** X17. The entry point of the controller never raises, whatever the
    backend does; it returns at most 3 suggestions, and each of them
    refers to a window of the desktop whose title holds none of the
    excluded titles (the helper never suggests its own window). *)
Theorem arbiter_answer_is_safe :
  forall (St : Type)
         (run_inference : string -> nat -> Q -> M St (option string))
         (llm_engine : option bool) (LLM_AVAILABLE : bool)
         (content : string) (w : MultitaskController.World St),
    exists l w',
      MultitaskController.get_suggestions_for_content run_inference llm_engine
        LLM_AVAILABLE content w = (Ok l, w')
      /\ (List.length l <= 3)%nat
      /\ Forall (fun s =>
                   In (suggestion_window s) (MultitaskController.desktop w)
                   /\ existsb (fun exclude =>
                                 Py.contains exclude
                                   (Py.lower (title (suggestion_window s))))
                              MultitaskController.Config.EXCLUDED_TITLES = false)
                l.
Proof.
  intros St run engine avail content w.
  destruct (arbiter_answer run engine avail content w)
    as [l [w' [Hres [_ [_ [Hlen [Hfrom _]]]]]]].
  exists l, w'. split; [exact Hres|]. split; [exact Hlen|].
  eapply Forall_impl; [|exact Hfrom].
  intros s Hs. unfold listed_windows in Hs. apply filter_In in Hs.
  destruct Hs as [Hin Hkeep]. apply negb_true_iff in Hkeep. tauto.
Qed.

(** X18. The two tiers are never mixed: the suggestions of one answer of
    the controller all come from the model engine, or all come from the
    rule engine. *)
Theorem arbiter_never_merges_tiers :
  forall (St : Type)
         (run_inference : string -> nat -> Q -> M St (option string))
         (llm_engine : option bool) (LLM_AVAILABLE : bool)
         (content : string) (w : MultitaskController.World St),
    exists l,
      fst (MultitaskController.get_suggestions_for_content run_inference llm_engine
             LLM_AVAILABLE content w) = Ok l
      /\ (Forall from_model l \/ Forall from_rules l).
Proof.
  intros St run engine avail content w.
  destruct (arbiter_answer run engine avail content w)
    as [l [w' [Hres [_ [_ [_ [_ Htier]]]]]]].
  exists l. rewrite Hres. split; [reflexivity|exact Htier].
Qed.

(** X19. When the model engine is absent, not initialized or not
    available, the answer for content that is not blank is the answer of
    the rule engine on the listed windows (the empty list when it has
    none), and the backend is left untouched. *)
Theorem arbiter_uses_rules_when_model_is_off :
  forall (St : Type)
         (run_inference : string -> nat -> Q -> M St (option string))
         (llm_engine : option bool) (LLM_AVAILABLE : bool)
         (content : string) (w : MultitaskController.World St),
    llm_engine = None \/ llm_engine = Some false \/ LLM_AVAILABLE = false ->
    Py.strip content <> EmptyString ->
    fst (MultitaskController.get_suggestions_for_content run_inference llm_engine
           LLM_AVAILABLE content w)
    = Ok match RuleBasedSuggestionEngine.get_suggestions content
                 (MultitaskController.foreground w) (listed_windows w) with
         | Some l => l
         | None => []
         end
    /\ MultitaskController.backend
         (snd (MultitaskController.get_suggestions_for_content run_inference
                 llm_engine LLM_AVAILABLE content w))
       = MultitaskController.backend w.
Proof.
  intros St run engine avail content w Hoff Hcontent.
  assert (H : exists w',
             MultitaskController.get_suggestions_for_content run engine avail content w
             = (Ok match RuleBasedSuggestionEngine.get_suggestions content
                           (MultitaskController.foreground w) (listed_windows w) with
                   | Some l => l
                   | None => []
                   end, w')
             /\ MultitaskController.backend w' = MultitaskController.backend w);
    [|destruct H as [w' [-> Hb]]; split; [reflexivity|exact Hb]].
  unfold MultitaskController.get_suggestions_for_content.
  destruct (Py.strip content) as [|c0 r0]; [congruence|].
  unfold bind at 1.
  change (MultitaskController.get_filtered_windows
            MultitaskController.Config.EXCLUDED_TITLES w)
    with (Ok (listed_windows w),
          MultitaskController.mkWorld (MultitaskController.backend w)
            (MultitaskController.desktop w) (MultitaskController.foreground w)
            (MultitaskController.ListWindows :: MultitaskController.trace w)).
  cbv beta iota.
  destruct (listed_windows w) as [|a0 rest] eqn:Ewin;
    [eexists; split; reflexivity|].
  set (windows := a0 :: rest).
  unfold bind at 1.
  change (MultitaskController._get_current_window
            (MultitaskController.mkWorld (MultitaskController.backend w)
               (MultitaskController.desktop w) (MultitaskController.foreground w)
               (MultitaskController.ListWindows :: MultitaskController.trace w)))
    with (Ok (MultitaskController.foreground w),
          MultitaskController.mkWorld (MultitaskController.backend w)
            (MultitaskController.desktop w) (MultitaskController.foreground w)
            (MultitaskController.ForegroundWindow
             :: MultitaskController.ListWindows :: MultitaskController.trace w)).
  cbv beta iota.
  set (w2 := MultitaskController.mkWorld _ _ _ _).
  assert (Hllm :
            MultitaskController._try_llm_suggestions run engine avail content
              (MultitaskController.foreground w) windows w2 = (Ok None, w2)).
  { unfold MultitaskController._try_llm_suggestions, MultitaskController.is_ready.
    destruct Hoff as [->|[->| ->]]; try reflexivity.
    destruct engine as [init|]; [|reflexivity].
    rewrite andb_false_r. reflexivity. }
  unfold bind at 1. rewrite Hllm. unfold bind at 1.
  destruct (_try_rule_suggestions_result content (MultitaskController.foreground w)
              windows w2)
    as [l [w4 [-> [_ [_ [Hb4 [Hl _]]]]]]].
  unfold bind.
  destruct (_update_final_status_result l w4) as [w5 [-> [_ [_ Hb5]]]].
  unfold ret. exists w5.
  split; [now rewrite Hl|].
  rewrite Hb5, Hb4. reflexivity.
Qed.

Lemma arbiter_uses_rules_when_model_is_off_witness :
  fst (MultitaskController.get_suggestions_for_content flaky_backend None true
         "https://github.com/foo" sample_world)
  = Ok match RuleBasedSuggestionEngine.get_suggestions "https://github.com/foo"
               (MultitaskController.foreground sample_world)
               (listed_windows sample_world) with
       | Some l => l
       | None => []
       end
  /\ MultitaskController.backend
       (snd (MultitaskController.get_suggestions_for_content flaky_backend None true
               "https://github.com/foo" sample_world))
     = MultitaskController.backend sample_world.
Proof.
  apply (arbiter_uses_rules_when_model_is_off nat flaky_backend None true
           "https://github.com/foo" sample_world).
  - left. reflexivity.
  - discriminate.
Defined.

(** ** Clipboard monitoring *)

Section MonitorFacts.
Context {St : Type}.
Variable run_inference : string -> nat -> Q -> M St (option string).
Variable llm_engine : option bool.
Variable LLM_AVAILABLE : bool.

Import Monitoring.

(** A turn that sees the text of the last change, or blank text, does
    nothing. *)
Lemma monitor_turn_unchanged (c : string) (m : Controller St) :
  _clipboard_changed m c = false ->
  monitor_turn run_inference llm_engine LLM_AVAILABLE c m = (Ok tt, m).
Proof.
  intro H. unfold monitor_turn, try_except. now rewrite H.
Qed.

(** A turn that sees a change: the text is stored, the hook is called,
    the controller is asked, its answer is stored and sent to the hook. *)
Lemma monitor_turn_changed (c : string) (m : Controller St) :
  _clipboard_changed m c = true ->
  exists l w',
    MultitaskController.get_suggestions_for_content run_inference llm_engine
      LLM_AVAILABLE c (world m) = (Ok l, w')
    /\ (List.length l <= 3)%nat
    /\ monitor_turn run_inference llm_engine LLM_AVAILABLE c m
       = (Ok tt,
          mkController w' c c l
            (OnSuggestionsReady l :: OnClipboardChange c :: callbacks m)).
Proof.
  intro H.
  destruct (arbiter_answer run_inference llm_engine LLM_AVAILABLE c (world m))
    as [l [w' [Hres [_ [_ [Hlen _]]]]]].
  exists l, w'. split; [exact Hres|]. split; [exact Hlen|].
  unfold monitor_turn, try_except. rewrite H.
  unfold _handle_clipboard_change, bind, call, in_world.
  cbn [world clipboard_content last_clipboard current_suggestions callbacks].
  rewrite Hres. reflexivity.
Qed.

Lemma clipboard_not_changed_twice (c : string) (m : Controller St) :
  last_clipboard m = c -> _clipboard_changed m c = false.
Proof.
  intro H. unfold _clipboard_changed. rewrite H, String.eqb_refl. reflexivity.
Qed.

End MonitorFacts.

(** X20. A turn of the clipboard monitor that sees a change stores the
    text as the current and the last clipboard content, calls the
    clipboard hook, asks the controller once, stores its answer (at most
    3 suggestions) and passes the same answer to the suggestions hook;
    the turn itself does not raise. *)
Theorem monitor_turn_handles_a_change :
  forall (St : Type)
         (run_inference : string -> nat -> Q -> M St (option string))
         (llm_engine : option bool) (LLM_AVAILABLE : bool)
         (c : string) (m : Monitoring.Controller St),
    Monitoring._clipboard_changed m c = true ->
    exists l w',
      MultitaskController.get_suggestions_for_content run_inference llm_engine
        LLM_AVAILABLE c (Monitoring.world m) = (Ok l, w')
      /\ (List.length l <= 3)%nat
      /\ Monitoring.monitor_turn run_inference llm_engine LLM_AVAILABLE c m
         = (Ok tt,
            Monitoring.mkController w' c c l
              (Monitoring.OnSuggestionsReady l :: Monitoring.OnClipboardChange c
               :: Monitoring.callbacks m)).
Proof.
  intros St run engine avail c m H.
  exact (monitor_turn_changed run engine avail c m H).
Qed.

Lemma monitor_turn_handles_a_change_witness :
  exists l w',
    MultitaskController.get_suggestions_for_content flaky_backend (Some true) true
      "hello" (Monitoring.world sample_controller) = (Ok l, w')
    /\ (List.length l <= 3)%nat
    /\ Monitoring.monitor_turn flaky_backend (Some true) true "hello" sample_controller
       = (Ok tt,
          Monitoring.mkController w' "hello" "hello" l
            (Monitoring.OnSuggestionsReady l :: Monitoring.OnClipboardChange "hello"
             :: Monitoring.callbacks sample_controller)).
Proof.
  apply (monitor_turn_handles_a_change nat flaky_backend (Some true) true "hello"
           sample_controller).
  reflexivity.
Defined.

(** X21. Seeing the same clipboard text in two turns in a row analyses it
    once: the second turn changes nothing (no query, no call to a hook),
    and a turn on blank text changes nothing either. *)
Theorem monitor_turn_is_idempotent :
  forall (St : Type)
         (run_inference : string -> nat -> Q -> M St (option string))
         (llm_engine : option bool) (LLM_AVAILABLE : bool)
         (c : string) (m : Monitoring.Controller St),
    let after := snd (Monitoring.monitor_turn run_inference llm_engine LLM_AVAILABLE
                        c m) in
    Monitoring.monitor_turn run_inference llm_engine LLM_AVAILABLE c after
    = (Ok tt, after)
    /\ match Py.strip c with
       | EmptyString => after = m
       | _ => True
       end.
Proof.
  intros St run engine avail c m after. subst after.
  destruct (Monitoring._clipboard_changed m c) eqn:E.
  - destruct (monitor_turn_changed run engine avail c m E) as [l [w' [_ [_ ->]]]].
    simpl snd. split.
    + apply monitor_turn_unchanged. now apply clipboard_not_changed_twice.
    + unfold Monitoring._clipboard_changed in E.
      destruct (Py.strip c); [|exact I].
      rewrite andb_false_r in E. discriminate E.
  - rewrite (monitor_turn_unchanged run engine avail c m E). simpl snd. split.
    + now apply monitor_turn_unchanged.
    + destruct (Py.strip c); [reflexivity|exact I].
Qed.

(** ** The order of strings and the ascending sort *)

Lemma string_compare_refl (a : string) : String.compare a a = Eq.
Proof.
  induction a as [|c a IH]; simpl; [reflexivity|].
  unfold Ascii.compare. now rewrite N.compare_refl.
Qed.

Lemma string_compare_not_gt_trans (a : string) :
  forall b c : string,
    String.compare a b <> Gt -> String.compare b c <> Gt ->
    String.compare a c <> Gt.
Proof.
  induction a as [|x a IH]; intros [|y b] [|z c] Hab Hbc; simpl in *;
    try congruence.
  unfold Ascii.compare in *.
  destruct (N.compare_spec (N_of_ascii x) (N_of_ascii y)) as [Exy|Lxy|Gxy];
    try congruence;
    destruct (N.compare_spec (N_of_ascii y) (N_of_ascii z)) as [Eyz|Lyz|Gyz];
    try congruence;
    destruct (N.compare_spec (N_of_ascii x) (N_of_ascii z)) as [Exz|Lxz|Gxz];
    try congruence; try lia.
  now apply (IH b c).
Qed.

Lemma string_leb_trans (a b c : string) :
  String.leb a b = true -> String.leb b c = true -> String.leb a c = true.
Proof.
  unfold String.leb. intros Hab Hbc.
  pose proof (string_compare_not_gt_trans a b c) as H.
  destruct (String.compare a b), (String.compare b c), (String.compare a c);
    try reflexivity; try discriminate; exfalso; apply H; congruence.
Qed.

Lemma string_ltb_leb (a b : string) :
  String.ltb a b = true -> String.leb a b = true.
Proof.
  unfold String.ltb, String.leb. destruct (String.compare a b); congruence.
Qed.

Lemma string_not_ltb_leb (a b : string) :
  String.ltb a b = false -> String.leb b a = true.
Proof.
  unfold String.ltb, String.leb. rewrite (String.compare_antisym b a).
  destruct (String.compare a b); simpl; congruence.
Qed.

Lemma string_ltb_not_eqb (a b : string) :
  String.ltb a b = true -> String.eqb a b = false.
Proof.
  intro H. destruct (String.eqb_spec a b) as [->|]; [|reflexivity].
  unfold String.ltb in H. rewrite string_compare_refl in H. discriminate H.
Qed.

Section SortAscFacts.
Context {A : Type} (key : A -> string).

Lemma insert_asc_perm (x : A) (l : list A) :
  Permutation (x :: l) (insert_asc key x l).
Proof.
  induction l as [|y t IH]; cbn [insert_asc]; [apply Permutation_refl|].
  destruct (String.ltb (key y) (key x)); [|apply Permutation_refl].
  eapply perm_trans; [apply perm_swap|]. apply perm_skip, IH.
Qed.

Lemma sort_asc_perm (l : list A) : Permutation l (sort_asc key l).
Proof.
  induction l as [|x t IH]; simpl; [constructor|].
  eapply perm_trans; [apply perm_skip, IH|apply insert_asc_perm].
Qed.

Lemma insert_asc_sorted (x : A) (l : list A) :
  StronglySorted (asc key) l -> StronglySorted (asc key) (insert_asc key x l).
Proof.
  induction l as [|y t IH]; cbn [insert_asc]; intro Hs.
  - repeat constructor.
  - apply StronglySorted_inv in Hs. destruct Hs as [Ht Hy].
    destruct (String.ltb (key y) (key x)) eqn:E.
    + constructor; [now apply IH|].
      eapply Permutation_Forall; [apply insert_asc_perm|].
      constructor; [|exact Hy]. unfold asc. now apply string_ltb_leb.
    + apply string_not_ltb_leb in E.
      constructor; [now constructor|].
      constructor; [exact E|].
      eapply Forall_impl; [|exact Hy].
      intros z Hz. unfold asc in *. eapply string_leb_trans; eassumption.
Qed.

Lemma sort_asc_sorted (l : list A) : StronglySorted (asc key) (sort_asc key l).
Proof.
  induction l as [|x t IH]; simpl; [constructor|now apply insert_asc_sorted].
Qed.

Lemma insert_asc_stable (k : string) (x : A) (l : list A) :
  keyed key k (insert_asc key x l) = keyed key k (x :: l).
Proof.
  unfold keyed. induction l as [|y t IH]; cbn [insert_asc]; [reflexivity|].
  destruct (String.ltb (key y) (key x)) eqn:E; [|reflexivity].
  cbn [filter] in *. rewrite IH.
  destruct (String.eqb (key x) k) eqn:Ex, (String.eqb (key y) k) eqn:Ey;
    try reflexivity.
  apply String.eqb_eq in Ex, Ey. apply string_ltb_not_eqb in E.
  rewrite Ex, Ey, String.eqb_refl in E. discriminate E.
Qed.

Lemma sort_asc_stable (k : string) (l : list A) :
  keyed key k (sort_asc key l) = keyed key k l.
Proof.
  induction l as [|x t IH]; simpl; [reflexivity|].
  rewrite insert_asc_stable. unfold keyed in *. cbn [filter]. now rewrite IH.
Qed.

End SortAscFacts.

(** X22. The windows [get_application_windows] returns are the listed
    windows that pass its three tests (title of 3 characters or more
    once stripped, no skip word in the title, user application),
    rearranged in ascending order of the lowered process name; windows
    of the same lowered process name keep their order. *)
Theorem application_windows_filtered_and_sorted :
  forall all_windows : list WindowInfo,
    let key := fun w => Py.lower (process_name w) in
    let kept := filter WindowManager.is_application_window all_windows in
    let output := WindowManager.get_application_windows all_windows in
    Permutation kept output
    /\ Forall (fun w => In w all_windows
                        /\ WindowManager.is_application_window w = true) output
    /\ StronglySorted (fun a b => String.leb (key a) (key b) = true) output
    /\ forall k : string,
         filter (fun w => String.eqb (key w) k) output
         = filter (fun w => String.eqb (key w) k) kept.
Proof.
  intros all_windows key kept output. subst output.
  unfold WindowManager.get_application_windows. fold kept. fold key.
  pose proof (sort_asc_perm key kept) as Hperm.
  split; [exact Hperm|]. split; [|split].
  - eapply Permutation_Forall; [exact Hperm|].
    apply Forall_forall. intros w Hw. unfold kept in Hw.
    now apply filter_In in Hw.
  - apply (sort_asc_sorted key).
  - intro k. apply (sort_asc_stable key).
Qed.

(** ** The categories of windows *)

Section CategoryFacts.
Import WindowManager.

Lemma category_append_to (key k : string) (w : WindowInfo)
    (cats : list (string * list WindowInfo)) :
  category key (append_to k w cats)
  = option_map (fun l => if String.eqb key k then l ++ [w] else l)
               (category key cats).
Proof.
  induction cats as [|[k0 l0] rest IH]; cbn [append_to category option_map];
    [reflexivity|].
  destruct (String.eqb k k0) eqn:Ek; cbn [category].
  - apply String.eqb_eq in Ek. subst k0.
    destruct (String.eqb key k); cbn [option_map]; [reflexivity|].
    destruct (category key rest); reflexivity.
  - destruct (String.eqb key k0) eqn:E0; [|exact IH].
    apply String.eqb_eq in E0. subst k0.
    rewrite String.eqb_sym in Ek. rewrite Ek. reflexivity.
Qed.

Lemma categorize_fold (ws : list WindowInfo) :
  forall (cats : list (string * list WindowInfo)) (key : string),
    category key
      (fold_left (fun categories window =>
                    append_to (category_of window) window categories) ws cats)
    = option_map
        (fun l => l ++ filter (fun w => String.eqb (category_of w) key) ws)
        (category key cats).
Proof.
  induction ws as [|w t IH]; intros cats key; cbn [fold_left filter].
  - destruct (category key cats); cbn [option_map]; [|reflexivity].
    now rewrite app_nil_r.
  - rewrite IH, category_append_to.
    destruct (category key cats) as [l|]; cbn [option_map]; [|reflexivity].
    rewrite (String.eqb_sym (category_of w) key).
    destruct (String.eqb key (category_of w)); [|reflexivity].
    now rewrite <- app_assoc.
Qed.

Lemma category_of_known (w : WindowInfo) :
  In (category_of w) (map fst empty_categories).
Proof.
  unfold category_of. cbv zeta.
  repeat match goal with
         | |- context [if ?b then _ else _] => destruct b
         end; simpl; tauto.
Qed.

(** The number of windows filed in a dict. *)
Lemma append_to_counts (k : string) (w : WindowInfo)
    (cats : list (string * list WindowInfo)) :
  In k (map fst cats) ->
  map fst (append_to k w cats) = map fst cats
  /\ list_sum (map (fun kv => List.length (snd kv)) (append_to k w cats))
     = S (list_sum (map (fun kv => List.length (snd kv)) cats)).
Proof.
  induction cats as [|[k0 l0] rest IH]; intro Hin; [destruct Hin|].
  cbn [append_to]. cbn [map fst] in Hin.
  destruct (String.eqb k k0) eqn:Ek.
  - cbn [map fst snd]. unfold list_sum. cbn [fold_right].
    split; [reflexivity|]. rewrite length_app. simpl. lia.
  - destruct Hin as [Hin|Hin].
    + subst k0. rewrite String.eqb_refl in Ek. discriminate Ek.
    + destruct (IH Hin) as [Hkeys Hsum].
      cbn [map fst snd]. unfold list_sum in *. cbn [fold_right].
      rewrite Hkeys, Hsum. split; [reflexivity|lia].
Qed.

Lemma categorize_counts (ws : list WindowInfo) :
  forall cats : list (string * list WindowInfo),
    map fst cats = map fst empty_categories ->
    map fst (fold_left (fun categories window =>
                          append_to (category_of window) window categories) ws cats)
    = map fst empty_categories
    /\ list_sum (map (fun kv => List.length (snd kv))
                     (fold_left (fun categories window =>
                                   append_to (category_of window) window categories)
                                ws cats))
       = (list_sum (map (fun kv => List.length (snd kv)) cats) + List.length ws)%nat.
Proof.
  induction ws as [|w t IH]; intros cats Hkeys; cbn [fold_left List.length].
  - split; [exact Hkeys|lia].
  - assert (Hin : In (category_of w) (map fst cats))
      by (rewrite Hkeys; apply category_of_known).
    destruct (append_to_counts (category_of w) w cats Hin) as [Hk Hs].
    destruct (IH (append_to (category_of w) w cats)) as [Hk' Hs'];
      [now rewrite Hk|].
    split; [exact Hk'|]. rewrite Hs', Hs. lia.
Qed.

End CategoryFacts.

(** X23. Each of the six categories of [categorize_windows] holds
    exactly the windows whose process name leads to it (the first of
    browsers, editors, terminals, office, media that the lowered name
    matches, else other), in the order of the given list. *)
Theorem categorize_windows_files_by_category :
  forall (windows : list WindowInfo) (key : string),
    In key ["browsers"; "editors"; "terminals"; "office"; "media"; "other"] ->
    WindowManager.category key (WindowManager.categorize_windows windows)
    = Some (filter (fun w => String.eqb (WindowManager.category_of w) key) windows).
Proof.
  intros windows key Hkey.
  unfold WindowManager.categorize_windows. rewrite categorize_fold.
  simpl in Hkey.
  destruct Hkey as [<-|[<-|[<-|[<-|[<-|[<-|[]]]]]]]; reflexivity.
Qed.

Lemma categorize_windows_files_by_category_witness :
  WindowManager.category "editors"
    (WindowManager.categorize_windows
       [chrome_github; notepad_untitled; explorer_docs; hidden_tool])
  = Some (filter (fun w => String.eqb (WindowManager.category_of w) "editors")
                 [chrome_github; notepad_untitled; explorer_docs; hidden_tool]).
Proof.
  apply (categorize_windows_files_by_category
           [chrome_github; notepad_untitled; explorer_docs; hidden_tool] "editors").
  simpl. auto.
Defined.

(** X24. In the system information the dict of categories always has the
    same six keys, in the same order, and its counts add up to the total
    number of windows: every window is filed exactly once. *)
Theorem window_category_counts_add_up :
  forall windows : list WindowInfo,
    map fst (Monitoring.window_categories windows)
    = ["browsers"; "editors"; "terminals"; "office"; "media"; "other"]
    /\ list_sum (map snd (Monitoring.window_categories windows))
       = Monitoring.total_windows windows.
Proof.
  intro windows.
  unfold Monitoring.window_categories, Monitoring.total_windows,
    WindowManager.categorize_windows.
  destruct (categorize_counts windows WindowManager.empty_categories eq_refl)
    as [Hkeys Hsum].
  rewrite !map_map. cbn [fst snd]. split.
  - exact Hkeys.
  - rewrite Hsum. reflexivity.
Qed.

(** ** The scores of the model engine *)

Section ModelScores.
Context {St : Type}.
Variable run_inference : string -> nat -> Q -> M St (option string).

Lemma _score_window_in_unit (is_initialized : bool) (content content_type : string)
    (window : WindowInfo) (st st' : St) (q : Q) :
  LLMSuggestionEngine._score_window run_inference is_initialized content
    content_type window st = (Ok (Some q), st') ->
  (0 <= q)%Q /\ (q <= 1)%Q.
Proof.
  unfold LLMSuggestionEngine._score_window, try_except, bind, ret.
  destruct (LLMSuggestionEngine._query_llm run_inference is_initialized _ _ _ st)
    as [[[[|c r]|]|] st1]; try discriminate.
  destruct (Py.strip (String c r)); [discriminate|].
  intro H. injection H as H _.
  pose proof (parse_in_unit (String c r)) as Hunit.
  rewrite H in Hunit. exact Hunit.
Qed.

Lemma score_windows_in_unit (is_initialized : bool) (content content_type : string)
    (windows : list WindowInfo) :
  forall (st st' : St) (l : list (WindowInfo * Q)),
    LLMSuggestionEngine.score_windows run_inference is_initialized content
      content_type windows st = (Ok l, st') ->
    Forall (fun ws => (0 <= snd ws)%Q /\ (snd ws <= 1)%Q) l.
Proof.
  induction windows as [|w t IH]; intros st st' l H;
    cbn [LLMSuggestionEngine.score_windows] in H.
  - unfold ret in H. injection H as <- _. constructor.
  - unfold bind in H.
    destruct (_score_window_ok run_inference is_initialized content content_type w st)
      as [score [st1 E1]].
    rewrite E1 in H.
    destruct (score_windows_ok run_inference is_initialized content content_type t st1)
      as [l' [st2 E2]].
    rewrite E2 in H. unfold ret in H. injection H as <- _.
    specialize (IH st1 st2 l' E2).
    destruct score as [q|]; [|exact IH].
    constructor; [|exact IH].
    exact (_score_window_in_unit is_initialized content content_type w st st1 q E1).
Qed.

End ModelScores.

(** X25. Every suggestion of the model engine carries a score between 0
    and 1. *)
Theorem model_suggestions_carry_unit_scores :
  forall (St : Type)
         (run_inference : string -> nat -> Q -> M St (option string))
         (is_initialized : bool) (content : string)
         (current_window : option WindowInfo) (windows : list WindowInfo)
         (st : St),
    match fst (LLMSuggestionEngine.get_suggestions run_inference is_initialized
                 content current_window windows st) with
    | Ok (Some l) =>
        Forall (fun s => match suggestion_label s with
                         | ScoreLabel q => (0 <= q)%Q /\ (q <= 1)%Q
                         | _ => False
                         end) l
    | _ => True
    end.
Proof.
  intros St run init content cur windows st.
  destruct init; [|exact I].
  destruct windows as [|w0 ws]; [exact I|].
  destruct (_classify_content_ok run true content st) as [ct [st1 [Hclass _]]].
  destruct (get_suggestions_after_classification run content cur w0 ws st st1 ct Hclass)
    as [l [st2 [Hscores Hget]]].
  rewrite Hget. cbn [fst].
  destruct (List.length l <? 2)%nat; [exact I|].
  pose proof (score_windows_in_unit run true content ct _ _ _ _ Hscores) as Hunit.
  apply Forall_forall. intros s Hs.
  apply (in_map suggestion_label) in Hs. rewrite rank_suggestions_labels in Hs.
  apply in_map_iff in Hs. destruct Hs as [p [<- Hp]].
  apply In_firstn in Hp.
  apply (Permutation_in _ (Permutation_sym (sort_desc_perm snd l))) in Hp.
  rewrite Forall_forall in Hunit. exact (Hunit p Hp).
Qed.
